(** * PyCNC: the G-code machine ([cnc/gmachine.py])

    A shallow embedding of [GMachine]: the command dispatcher [do_command],
    the linear and circular planners [_move_linear] and [_circular], the
    quadrant walk of [__adjust_circle], [home] and [reset].

    Numbers.  The machine computes on Python floats.  Here every number is
    an exact rational ([Q]): sums, differences, products and quotients are
    the mathematical ones and comparisons are those of the rational order,
    so rounding error, infinities and NaN are outside the model.
    [math.sqrt] is not a rational function; it is a parameter [fsqrt] of the
    model, constrained only where a property needs it.

    Effects.  The machine mutates itself and calls the hardware layer
    ([hal]), heater objects and [time.sleep].  A [World] holds the machine
    record and the list of those calls, oldest first; a method is a function
    from a world to a world and either a value or the exception raised.
    The world returned with an exception is the one the Python object is in
    when the exception leaves the method. *)

From Stdlib Require Import QArith Qabs Qround ZArith Lia Lqa Bool List String.
From Stdlib Require Strings.Byte.
Import ListNotations.
Open Scope Q_scope.

(** ** Python numbers as rationals *)

Definition Qlt_bool (a b : Q) : bool := negb (Qle_bool b a).

Infix "<=?" := Qle_bool : Q_scope.
Infix "<?" := Qlt_bool : Q_scope.
Infix "=?" := Qeq_bool : Q_scope.

(** Python 3 [round(x)]: the nearest integer, a tie going to the even
    neighbour. *)
Definition py_round (q : Q) : Z :=
  let f := Qfloor q in
  let d := q - inject_Z f in
  if d <? 1 # 2 then f
  else if (1 # 2) <? d then (f + 1)%Z
  else if Z.even f then f else (f + 1)%Z.

(** [math.copysign(m, s)]: the magnitude of [m] with the sign of [s]. *)
Definition copysign (m s : Q) : Q :=
  if 0 <=? s then Qabs m else - Qabs m.

(** ** Coordinates ([cnc/coordinates.py], not among the sources) *)

Module Coordinates.

Record t : Type := mk { x : Q; y : Q; z : Q; e : Q }.

(** Modelled from the spec: class [Coordinates] is missing; section 3 and
    4.1 say arithmetic (+, -) is component-wise. *)
Definition add (a b : t) : t :=
  mk (x a + x b) (y a + y b) (z a + z b) (e a + e b).

Definition sub (a b : t) : t :=
  mk (x a - x b) (y a - y b) (z a - z b) (e a - e b).

(** Modelled from the spec: [Coordinates.round] is missing; section 4.1 says
    quantize(resolution1..4) gives a new vector with each component rounded
    to the nearest integer multiple of its resolution. *)
Definition round1 (v base : Q) : Q := inject_Z (py_round (v / base)) * base.

Definition round (a : t) (base_x base_y base_z base_e : Q) : t :=
  mk (round1 (x a) base_x) (round1 (y a) base_y)
     (round1 (z a) base_z) (round1 (e a) base_e).

(** Modelled from the spec: [Coordinates.is_zero] is missing; section 4.1
    says it is true iff all components are exactly zero. *)
Definition is_zero (a : t) : bool :=
  (x a =? 0) && (y a =? 0) && (z a =? 0) && (e a =? 0).

(** Modelled from the spec: [Coordinates.is_in_aabb] is missing; section
    4.1 says is_within(min, max) is true iff every component lies in
    [min_i, max_i], bounds included. *)
Definition is_in_aabb (a p1 p2 : t) : bool :=
  (x p1 <=? x a) && (x a <=? x p2) &&
  (y p1 <=? y a) && (y a <=? y p2) &&
  (z p1 <=? z a) && (z a <=? z p2) &&
  (e p1 <=? e a) && (e a <=? e p2).

(** Two vectors with equal components (as rationals, whatever their
    fractions look like). *)
Definition equiv (a b : t) : Prop :=
  x a == x b /\ y a == y b /\ z a == z b /\ e a == e b.

End Coordinates.

Abbreviation Coordinates := Coordinates.t.
Infix "+c" := Coordinates.add (at level 50, left associativity).
Infix "-c" := Coordinates.sub (at level 50, left associativity).
Infix "=c" := Coordinates.equiv (at level 70).

Definition origin : Coordinates := Coordinates.mk 0 0 0 0.

(** ** Enumerations ([cnc/enums.py]) and configuration ([cnc/config.py]) *)

Inductive Plane : Type := PLANE_XY | PLANE_ZX | PLANE_YZ.
Inductive RotationDirection : Type := CW | CCW.
Inductive Heaters : Type := HEATER_EXTRUDER | HEATER_BED.

Definition Heaters_eqb (a b : Heaters) : bool :=
  match a, b with
  | HEATER_EXTRUDER, HEATER_EXTRUDER | HEATER_BED, HEATER_BED => true
  | _, _ => false
  end.

(** The constants [gmachine.py] reads from the configuration.  Their values
    are not among the sources, so they are fields of a record. *)
Record Config : Type := {
  STEPPER_PULSES_PER_MM_X : Q;
  STEPPER_PULSES_PER_MM_Y : Q;
  STEPPER_PULSES_PER_MM_Z : Q;
  STEPPER_PULSES_PER_MM_E : Q;
  STEPPER_MAX_VELOCITY_MM_PER_MIN : Q;
  TABLE_SIZE_X_MM : Q;
  TABLE_SIZE_Y_MM : Q;
  TABLE_SIZE_Z_MM : Q;
  SPINDLE_MAX_RPM : Q;
  EXTRUDER_MAX_TEMPERATURE : Q;
  BED_MAX_TEMPERATURE : Q;
  MIN_TEMPERATURE : Q
}.

(** A usable configuration: positive step densities, velocity and spindle
    limits (the code divides by them) and a table that contains the origin. *)
Definition config_ok (c : Config) : bool :=
  (0 <? STEPPER_PULSES_PER_MM_X c) && (0 <? STEPPER_PULSES_PER_MM_Y c) &&
  (0 <? STEPPER_PULSES_PER_MM_Z c) && (0 <? STEPPER_PULSES_PER_MM_E c) &&
  (0 <? STEPPER_MAX_VELOCITY_MM_PER_MIN c) && (0 <? SPINDLE_MAX_RPM c) &&
  (0 <=? TABLE_SIZE_X_MM c) && (0 <=? TABLE_SIZE_Y_MM c) &&
  (0 <=? TABLE_SIZE_Z_MM c).

(** ** Exceptions and the world *)

Inductive PyError : Type :=
| GMachineException (msg : string)
| ZeroDivisionError
| ValueError
| Exception (msg : string).

Inductive Result (A : Type) : Type :=
| Ok (a : A)
| Raise (err : PyError).
Arguments GMachineException msg%_string.
Arguments Exception msg%_string.
Arguments Ok {A} a.
Arguments Raise {A} err.

(** What [PulseGeneratorLinear] and [PulseGeneratorCircular] are built from. *)
Inductive PulseGenerator : Type :=
| PulseGeneratorLinear (delta : Coordinates) (velocity : Q)
| PulseGeneratorCircular (circle_end radius : Coordinates) (plane : Plane)
    (direction : RotationDirection) (velocity : Q).

(** The calls that leave the machine object. *)
Inductive Call : Type :=
| hal_move (gen : PulseGenerator)
| hal_join
| hal_spindle_control (percent : Q)
| hal_fan_control (state : bool)
| hal_get_extruder_temperature
| hal_get_bed_temperature
| time_sleep (seconds : Q)
| Heater_start (heater : Heaters) (temperature : Q)
| Heater_stop (heater : Heaters)
| Heater_wait (heater : Heaters)
| debug_enable.

Record GMachine : Type := {
  _position : Coordinates;
  _velocity : Q;
  _spindle_rpm : Q;
  _pause : Q;
  _local : Coordinates;
  _convertCoordinates : Q;
  _absoluteCoordinates : bool;
  _plane : Plane;
  _fan_state : bool;
  _heaters : list (Heaters * Q)
}.

Record World : Type := { self : GMachine; calls : list Call }.

(** A method body: state in, state and outcome out. *)
Definition M (A : Type) : Type := World -> World * Result A.

Definition ret {A} (a : A) : M A := fun w => (w, Ok a).
Definition raise {A} (err : PyError) : M A := fun w => (w, Raise err).
Definition bind {A B} (m : M A) (k : A -> M B) : M B :=
  fun w => match m w with
           | (w', Ok a) => k a w'
           | (w', Raise err) => (w', Raise err)
           end.

Notation "x <- m ;; k" := (bind m (fun x => k))
  (at level 61, m at next level, right associativity).
Notation "m ;; k" := (bind m (fun _ => k))
  (at level 61, right associativity).

Definition get_self : M GMachine := fun w => (w, Ok (self w)).
Definition update (f : GMachine -> GMachine) : M unit :=
  fun w => ({| self := f (self w); calls := calls w |}, Ok tt).
Definition call (c : Call) : M unit :=
  fun w => ({| self := self w; calls := calls w ++ [c] |}, Ok tt).

(** Python's [a / b] on floats: division by zero raises. *)
Definition py_div (a b : Q) : M Q :=
  if b =? 0 then raise ZeroDivisionError else ret (a / b).

Definition Qgt_bool (a b : Q) : bool := b <? a.
Infix ">?" := Qgt_bool (at level 70) : Q_scope.

(** ** The command record ([cnc/gcode.py], not among the sources)

    The machine only calls the record's methods; what they return is decided
    by the parser.  A record of the six methods stands for any parsed line. *)
Module GCode.
Record t : Type := mk {
  command : option string;
  has_coordinates : bool;
  coordinates : Coordinates -> Q -> Coordinates;
  radius : Coordinates -> Q -> Coordinates;
  get : string -> Q -> Q;
  has : string -> bool
}.
End GCode.
Abbreviation GCode := GCode.t.

(** What the two temperature sensors return while one command runs;
    [None] is a read that raises [IOError] or [OSError]. *)
Record Sensors : Type := {
  extruder_temperature : option Q;
  bed_temperature : option Q
}.

(** The two strings [do_command] can answer with, before formatting. *)
Inductive Answer : Type :=
| temperatures (et bt : option Q)
| position_report (x y z e : Q).

(** ** Field updates *)

Definition set_position (p : Coordinates) (s : GMachine) : GMachine :=
  {| _position := p; _velocity := _velocity s; _spindle_rpm := _spindle_rpm s;
     _pause := _pause s; _local := _local s;
     _convertCoordinates := _convertCoordinates s;
     _absoluteCoordinates := _absoluteCoordinates s; _plane := _plane s;
     _fan_state := _fan_state s; _heaters := _heaters s |}.

Definition set_velocity (v : Q) (s : GMachine) : GMachine :=
  {| _position := _position s; _velocity := v; _spindle_rpm := _spindle_rpm s;
     _pause := _pause s; _local := _local s;
     _convertCoordinates := _convertCoordinates s;
     _absoluteCoordinates := _absoluteCoordinates s; _plane := _plane s;
     _fan_state := _fan_state s; _heaters := _heaters s |}.

Definition set_spindle_rpm (v : Q) (s : GMachine) : GMachine :=
  {| _position := _position s; _velocity := _velocity s; _spindle_rpm := v;
     _pause := _pause s; _local := _local s;
     _convertCoordinates := _convertCoordinates s;
     _absoluteCoordinates := _absoluteCoordinates s; _plane := _plane s;
     _fan_state := _fan_state s; _heaters := _heaters s |}.

Definition set_pause (v : Q) (s : GMachine) : GMachine :=
  {| _position := _position s; _velocity := _velocity s;
     _spindle_rpm := _spindle_rpm s; _pause := v; _local := _local s;
     _convertCoordinates := _convertCoordinates s;
     _absoluteCoordinates := _absoluteCoordinates s; _plane := _plane s;
     _fan_state := _fan_state s; _heaters := _heaters s |}.

Definition set_local (p : Coordinates) (s : GMachine) : GMachine :=
  {| _position := _position s; _velocity := _velocity s;
     _spindle_rpm := _spindle_rpm s; _pause := _pause s; _local := p;
     _convertCoordinates := _convertCoordinates s;
     _absoluteCoordinates := _absoluteCoordinates s; _plane := _plane s;
     _fan_state := _fan_state s; _heaters := _heaters s |}.

Definition set_convertCoordinates (v : Q) (s : GMachine) : GMachine :=
  {| _position := _position s; _velocity := _velocity s;
     _spindle_rpm := _spindle_rpm s; _pause := _pause s; _local := _local s;
     _convertCoordinates := v;
     _absoluteCoordinates := _absoluteCoordinates s; _plane := _plane s;
     _fan_state := _fan_state s; _heaters := _heaters s |}.

Definition set_absoluteCoordinates (b : bool) (s : GMachine) : GMachine :=
  {| _position := _position s; _velocity := _velocity s;
     _spindle_rpm := _spindle_rpm s; _pause := _pause s; _local := _local s;
     _convertCoordinates := _convertCoordinates s;
     _absoluteCoordinates := b; _plane := _plane s;
     _fan_state := _fan_state s; _heaters := _heaters s |}.

Definition set_plane (p : Plane) (s : GMachine) : GMachine :=
  {| _position := _position s; _velocity := _velocity s;
     _spindle_rpm := _spindle_rpm s; _pause := _pause s; _local := _local s;
     _convertCoordinates := _convertCoordinates s;
     _absoluteCoordinates := _absoluteCoordinates s; _plane := p;
     _fan_state := _fan_state s; _heaters := _heaters s |}.

Definition set_fan_state (b : bool) (s : GMachine) : GMachine :=
  {| _position := _position s; _velocity := _velocity s;
     _spindle_rpm := _spindle_rpm s; _pause := _pause s; _local := _local s;
     _convertCoordinates := _convertCoordinates s;
     _absoluteCoordinates := _absoluteCoordinates s; _plane := _plane s;
     _fan_state := b; _heaters := _heaters s |}.

Definition set_heaters (h : list (Heaters * Q)) (s : GMachine) : GMachine :=
  {| _position := _position s; _velocity := _velocity s;
     _spindle_rpm := _spindle_rpm s; _pause := _pause s; _local := _local s;
     _convertCoordinates := _convertCoordinates s;
     _absoluteCoordinates := _absoluteCoordinates s; _plane := _plane s;
     _fan_state := _fan_state s; _heaters := h |}.

(** The dictionary [self._heaters], its entries in the order a Python
    dictionary keeps and iterates them (the order in which the keys came in):
    membership, [del], and the assignment [d[h] = t], which replaces the
    value where the key stands and puts a new key last. *)
Definition heater_in (h : Heaters) (d : list (Heaters * Q)) : bool :=
  existsb (fun kv => Heaters_eqb (fst kv) h) d.
Definition heater_del (h : Heaters) (d : list (Heaters * Q)) :
  list (Heaters * Q) :=
  filter (fun kv => negb (Heaters_eqb (fst kv) h)) d.
Fixpoint heater_set (h : Heaters) (t : Q) (d : list (Heaters * Q)) :
  list (Heaters * Q) :=
  match d with
  | [] => [(h, t)]
  | (k, v) :: rest =>
      if Heaters_eqb k h then (k, t) :: rest
      else (k, v) :: heater_set h t rest
  end.

(** ** The machine *)

Section Machine.

Variable cfg : Config.
(** The function [math.sqrt] computes on non-negative arguments. *)
Variable fsqrt : Q -> Q.

(** [math.sqrt(v)]: a negative argument raises [ValueError]. *)
Definition math_sqrt (v : Q) : M Q :=
  if v <? 0 then raise ValueError else ret (fsqrt v).

(** [Coordinates(TABLE_SIZE_X_MM, TABLE_SIZE_Y_MM, TABLE_SIZE_Z_MM, 0)] *)
Definition table : Coordinates :=
  Coordinates.mk (TABLE_SIZE_X_MM cfg) (TABLE_SIZE_Y_MM cfg)
                 (TABLE_SIZE_Z_MM cfg) 0.

(** [delta.round(1.0 / STEPPER_PULSES_PER_MM_X, ...)] *)
Definition quantize (v : Coordinates) : Coordinates :=
  Coordinates.round v (1 / STEPPER_PULSES_PER_MM_X cfg)
                      (1 / STEPPER_PULSES_PER_MM_Y cfg)
                      (1 / STEPPER_PULSES_PER_MM_Z cfg)
                      (1 / STEPPER_PULSES_PER_MM_E cfg).

Definition reset : M unit :=
  update (set_velocity 1000) ;;
  update (set_spindle_rpm 1000) ;;
  update (set_pause 0) ;;
  update (set_local (Coordinates.mk 0 0 0 0)) ;;
  update (set_convertCoordinates 1) ;;
  update (set_absoluteCoordinates true) ;;
  update (set_plane PLANE_XY).

Definition _spindle (spindle_speed : Q) : M unit :=
  call hal_join ;;
  percent <- py_div (100 * spindle_speed) (SPINDLE_MAX_RPM cfg) ;;
  call (hal_spindle_control percent).

Definition _fan (state : bool) : M unit :=
  call (hal_fan_control state) ;;
  update (set_fan_state state).

(** [heater] ranges over the two heaters, so the "unknown heater" branch
    has no input.  [measure()] is the sensor read of this command. *)
Definition _heat (sensors : Sensors) (heater : Heaters) (temperature : Q)
    (wait : bool) : M unit :=
  let '(measure, reading) :=
    match heater with
    | HEATER_EXTRUDER =>
        (hal_get_extruder_temperature, extruder_temperature sensors)
    | HEATER_BED => (hal_get_bed_temperature, bed_temperature sensors)
    end in
  call measure ;;
  match reading with
  | None => raise (GMachineException "can not measure temperature")
  | Some _ => ret tt
  end ;;
  s <- get_self ;;
  (if heater_in heater (_heaters s) then
     call (Heater_stop heater) ;;
     update (set_heaters (heater_del heater (_heaters s)))
   else ret tt) ;;
  if negb (temperature =? 0) then
    call (Heater_start heater temperature) ;;
    s <- get_self ;;
    update (set_heaters (heater_set heater temperature (_heaters s))) ;;
    if wait then call (Heater_wait heater) else ret tt
  else ret tt.

Definition __check_delta (delta : Coordinates) : M unit :=
  s <- get_self ;;
  let pos := _position s +c delta in
  if negb (Coordinates.is_in_aabb pos (Coordinates.mk 0 0 0 0) table)
  then raise (GMachineException "out of effective area")
  else ret tt.

Definition _move_linear (delta : Coordinates) (velocity : Q) : M unit :=
  let delta := quantize delta in
  if Coordinates.is_zero delta then ret tt
  else
    __check_delta delta ;;
    let gen := PulseGeneratorLinear delta velocity in
    call (hal_move gen) ;;
    s <- get_self ;;
    update (set_position (_position s +c delta)).

(** The four tests cover every pair of rationals, so the function always
    returns at one of them (lemma [quarter_last_test]). *)
Definition __quarter (pa pb : Q) : Z :=
  if (0 <=? pa) && (0 <=? pb) then 1
  else if (pa <? 0) && (0 <=? pb) then 2
  else if (pa <? 0) && (pb <? 0) then 3
  else 4.

(** One boundary test of the quadrant walk: [is_raise] for the step from
    quarter [pq] to quarter [q]. *)
Definition crossing (pq q : Z) (ra rb r pa pb ma mb : Q) : bool :=
  if (Z.eqb pq 1 && Z.eqb q 4) || (Z.eqb pq 4 && Z.eqb q 1) then
    pa + ra + r >? ma
  else if (Z.eqb pq 1 && Z.eqb q 2) || (Z.eqb pq 2 && Z.eqb q 1) then
    pb + rb + r >? mb
  else if (Z.eqb pq 2 && Z.eqb q 3) || (Z.eqb pq 3 && Z.eqb q 2) then
    pa + ra - r <? 0
  else if (Z.eqb pq 3 && Z.eqb q 4) || (Z.eqb pq 4 && Z.eqb q 3) then
    pb + rb - r <? 0
  else false.

(** [for _ in range(0, 4)]: [n] iterations are left, [q] and [pq] are the
    loop's variables; the result is their value when the loop is left by
    exhaustion or by [break]. *)
Fixpoint walk (n : nat) (direction : RotationDirection) (eq : Z)
    (ra rb r pa pb ma mb : Q) (q pq : Z) : M (Z * Z) :=
  match n with
  | O => ret (q, pq)
  | S n' =>
      let q := match direction with CW => (q - 1)%Z | CCW => (q + 1)%Z end in
      let q := if (q <=? 0)%Z then 4%Z
               else if (q >=? 5)%Z then 1%Z else q in
      if Z.eqb q eq then ret (q, pq)
      else
        let is_raise := crossing pq q ra rb r pa pb ma mb in
        if is_raise then raise (GMachineException "out of effective area")
        else walk n' direction eq ra rb r pa pb ma mb q q
  end.

Definition __adjust_circle (da db ra rb : Q) (direction : RotationDirection)
    (pa pb ma mb : Q) : M (Q * Q) :=
  r <- math_sqrt (ra * ra + rb * rb) ;;
  if r =? 0 then raise (GMachineException "circle radius is zero")
  else
    let sq := __quarter (- ra) (- rb) in
    end_point <-
      (if (da =? 0) && (db =? 0) then ret (da, db, 5%Z)
       else
         b <- py_div (db - rb) (da - ra) ;;
         t <- py_div (r * r) (1 + Qabs b) ;;
         root_a <- math_sqrt t ;;
         let ea := copysign root_a (da - ra) in
         root_b <- math_sqrt (r * r - ea * ea) ;;
         let eb := copysign root_b (db - rb) in
         let eq := __quarter ea eb in
         ret (ea + ra, eb + rb, eq)) ;;
    let '(ea, eb, eq) := end_point in
    walk 4 direction eq ra rb r pa pb ma mb sq sq ;;
    ret (ea, eb).

Definition _circular (delta radius : Coordinates) (velocity : Q)
    (direction : RotationDirection) : M unit :=
  let delta := quantize delta in
  let radius := quantize radius in
  __check_delta delta ;;
  s <- get_self ;;
  let pos := _position s in
  circle_end <-
    match _plane s with
    | PLANE_XY =>
        ab <- __adjust_circle
                (Coordinates.x delta) (Coordinates.y delta)
                (Coordinates.x radius) (Coordinates.y radius) direction
                (Coordinates.x pos) (Coordinates.y pos)
                (TABLE_SIZE_X_MM cfg) (TABLE_SIZE_Y_MM cfg) ;;
        ret (Coordinates.mk (fst ab) (snd ab) (Coordinates.z delta) 0)
    | PLANE_YZ =>
        ab <- __adjust_circle
                (Coordinates.y delta) (Coordinates.z delta)
                (Coordinates.y radius) (Coordinates.z radius) direction
                (Coordinates.y pos) (Coordinates.z pos)
                (TABLE_SIZE_Y_MM cfg) (TABLE_SIZE_Z_MM cfg) ;;
        ret (Coordinates.mk (Coordinates.x delta) (fst ab) (snd ab) 0)
    | PLANE_ZX =>
        ab <- __adjust_circle
                (Coordinates.z delta) (Coordinates.x delta)
                (Coordinates.z radius) (Coordinates.x radius) direction
                (Coordinates.z pos) (Coordinates.x pos)
                (TABLE_SIZE_Z_MM cfg) (TABLE_SIZE_X_MM cfg) ;;
        ret (Coordinates.mk (snd ab) (Coordinates.y delta) (fst ab) 0)
    end ;;
  let circle_end :=
    Coordinates.mk (Coordinates.x circle_end) (Coordinates.y circle_end)
                   (Coordinates.z circle_end) (Coordinates.e delta) in
  let circle_end := quantize circle_end in
  let gen :=
    PulseGeneratorCircular circle_end radius (_plane s) direction velocity in
  call (hal_move gen) ;;
  let linear_delta := delta -c circle_end in
  (if negb (Coordinates.is_zero linear_delta) then
     let gen := PulseGeneratorLinear linear_delta velocity in
     call (hal_move gen)
   else ret tt) ;;
  s <- get_self ;;
  update (set_position (_position s +c circle_end +c linear_delta)).

Definition home : M unit :=
  s <- get_self ;;
  let d := Coordinates.mk 0 0 (- Coordinates.z (_position s)) 0 in
  _move_linear d (STEPPER_MAX_VELOCITY_MM_PER_MIN cfg) ;;
  s <- get_self ;;
  let d := Coordinates.mk (- Coordinates.x (_position s))
                          (- Coordinates.y (_position s)) 0 0 in
  _move_linear d (STEPPER_MAX_VELOCITY_MM_PER_MIN cfg).

Definition position : M Coordinates :=
  call hal_join ;;
  s <- get_self ;;
  ret (_position s).

(** [c == 'G0'], where [c] may be [None]. *)
Definition command_is (c : option string) (name : string) : bool :=
  match c with
  | Some s => String.eqb s name
  | None => false
  end.
Arguments command_is c name%_string.

Definition do_command (sensors : Sensors) (gcode : option GCode) :
    M (option Answer) :=
  match gcode with
  | None => ret None
  | Some gcode =>
  s <- get_self ;;
  (* read command *)
  let c := GCode.command gcode in
  let c := match c with
           | None => if GCode.has_coordinates gcode then Some "G1"%string
                     else c
           | Some _ => c
           end in
  (* read parameters *)
  let delta :=
    if _absoluteCoordinates s then
      let coord :=
        GCode.coordinates gcode (_position s) (_convertCoordinates s) in
      let coord := coord +c _local s in
      coord -c _position s
    else
      GCode.coordinates gcode (Coordinates.mk 0 0 0 0)
                        (_convertCoordinates s) in
  let velocity := GCode.get gcode "F" (_velocity s) in
  let pause := GCode.get gcode "P" (_pause s) in
  let radius :=
    GCode.radius gcode (Coordinates.mk 0 0 0 0) (_convertCoordinates s) in
  (* check parameters *)
  if (velocity <=? 0) || (velocity >? STEPPER_MAX_VELOCITY_MM_PER_MIN cfg)
  then raise (GMachineException "bad feed speed")
  else if pause <? 0 then raise (GMachineException "bad delay")
  else
  (* select command and run it *)
  answer <-
    (if command_is c "G0" then
       _move_linear delta (STEPPER_MAX_VELOCITY_MM_PER_MIN cfg) ;; ret None
     else if command_is c "G1" then _move_linear delta velocity ;; ret None
     else if command_is c "G2" then
       _circular delta radius velocity CW ;; ret None
     else if command_is c "G3" then
       _circular delta radius velocity CCW ;; ret None
     else if command_is c "G4" then
       call hal_join ;; call (time_sleep pause) ;; ret None
     else if command_is c "G17" then update (set_plane PLANE_XY) ;; ret None
     else if command_is c "G18" then update (set_plane PLANE_ZX) ;; ret None
     else if command_is c "G19" then update (set_plane PLANE_YZ) ;; ret None
     else if command_is c "G20" then
       update (set_convertCoordinates (254 # 10)) ;; ret None
     else if command_is c "G21" then
       update (set_convertCoordinates 1) ;; ret None
     else if command_is c "G28" then home ;; ret None
     else if command_is c "G53" then
       update (set_local (Coordinates.mk 0 0 0 0)) ;; ret None
     else if command_is c "G90" then
       update (set_absoluteCoordinates true) ;; ret None
     else if command_is c "G91" then
       update (set_absoluteCoordinates false) ;; ret None
     else if command_is c "G92" then
       s <- get_self ;;
       update (set_local
                 (_position s -c
                  GCode.coordinates gcode (Coordinates.mk 0 0 0 0)
                                    (_convertCoordinates s))) ;;
       ret None
     else if command_is c "M3" then
       s <- get_self ;;
       let spindle_rpm := GCode.get gcode "S" (_spindle_rpm s) in
       if (spindle_rpm <? 0) || (spindle_rpm >? SPINDLE_MAX_RPM cfg)
       then raise (GMachineException "bad spindle speed")
       else
         _spindle spindle_rpm ;;
         update (set_spindle_rpm spindle_rpm) ;; ret None
     else if command_is c "M5" then _spindle 0 ;; ret None
     else if command_is c "M2" || command_is c "M30" then reset ;; ret None
     else if command_is c "M104" || command_is c "M109"
             || command_is c "M140" || command_is c "M190" then
       heater <-
         (if command_is c "M104" || command_is c "M109" then ret HEATER_EXTRUDER
          else if command_is c "M140" || command_is c "M190" then ret HEATER_BED
          else raise (Exception "Unexpected heater command")) ;;
       let wait := command_is c "M109" || command_is c "M190" in
       if negb (GCode.has gcode "S") then
         raise (GMachineException "temperature is not specified")
       else
         let t := GCode.get gcode "S" 0 in
         if ((Heaters_eqb heater HEATER_EXTRUDER
                && (t >? EXTRUDER_MAX_TEMPERATURE cfg))
             || (Heaters_eqb heater HEATER_BED
                   && (t >? BED_MAX_TEMPERATURE cfg))
             || (t <? MIN_TEMPERATURE cfg))
            && negb (t =? 0)
         then raise (GMachineException "bad temperature")
         else _heat sensors heater t wait ;; ret None
     else if command_is c "M105" then
       call hal_get_extruder_temperature ;;
       let et := extruder_temperature sensors in
       call hal_get_bed_temperature ;;
       let bt := bed_temperature sensors in
       match et, bt with
       | None, None =>
           raise (GMachineException "can not measure temperature")
       | _, _ => ret (Some (temperatures et bt))
       end
     else if command_is c "M106" then
       (if negb (GCode.get gcode "S" 1 =? 0) then _fan true
        else _fan false) ;;
       ret None
     else if command_is c "M107" then _fan false ;; ret None
     else if command_is c "M111" then call debug_enable ;; ret None
     else if command_is c "M114" then
       call hal_join ;;
       p <- position ;;
       ret (Some (position_report (Coordinates.x p) (Coordinates.y p)
                                  (Coordinates.z p) (Coordinates.e p)))
     else match c with
          | None => ret None
          | Some _ => raise (GMachineException "unknown command")
          end) ;;
  (* save parameters on success *)
  update (set_velocity velocity) ;;
  update (set_pause pause) ;;
  ret answer
  end.

(** [GMachine.__init__]: the fields the constructor assigns (with the
    plane and the local offset already those [reset] installs, [None] being
    no value of their types), then [reset()] and [hal.init()], which this
    model does not list among the calls. *)
Definition new_machine : World :=
  fst (reset {| self := {| _position := Coordinates.mk 0 0 0 0;
                           _velocity := 0; _spindle_rpm := 0; _pause := 0;
                           _local := Coordinates.mk 0 0 0 0;
                           _convertCoordinates := 0;
                           _absoluteCoordinates := false;
                           _plane := PLANE_XY;
                           _fan_state := false;
                           _heaters := [] |};
                calls := [] |}).

(** A session: the commands of a list one after the other, each with its
    sensor readings.  The caller catches what a command raises and goes on
    with the next one, so the world is kept and the outcome dropped. *)
Definition run (w : World) (session : list (Sensors * option GCode)) :
    World :=
  fold_left (fun w sg => fst (do_command (fst sg) (snd sg) w)) session w.

End Machine.

Arguments command_is c name%_string.

(** ** Concrete instances, for running the model *)

(** A computable stand-in for [math.sqrt]: the square root of a rational
    that is a square, and a lower approximation otherwise. *)
Definition sqrt_floor (q : Q) : Q :=
  Z.sqrt (Qnum q * Zpos (Qden q)) # Qden q.

(** A machine with a 200 x 300 x 48 mm table. *)
Definition sample_config : Config := {|
  STEPPER_PULSES_PER_MM_X := 400;
  STEPPER_PULSES_PER_MM_Y := 400;
  STEPPER_PULSES_PER_MM_Z := 400;
  STEPPER_PULSES_PER_MM_E := 150;
  STEPPER_MAX_VELOCITY_MM_PER_MIN := 1800;
  TABLE_SIZE_X_MM := 200;
  TABLE_SIZE_Y_MM := 300;
  TABLE_SIZE_Z_MM := 48;
  SPINDLE_MAX_RPM := 10000;
  EXTRUDER_MAX_TEMPERATURE := 250;
  BED_MAX_TEMPERATURE := 100;
  MIN_TEMPERATURE := 40
|}.

Fixpoint lookup (params : list (string * Q)) (name : string) : option Q :=
  match params with
  | [] => None
  | (k, v) :: rest => if String.eqb k name then Some v else lookup rest name
  end.

(** Modelled from the spec: the parser's command record is missing; section
    6 lists its methods.  A line is a command word and named numbers; a
    coordinate named on the line is scaled by the unit factor, one that is
    not named is the reference's. *)
Definition line (cmd : option string) (params : list (string * Q)) : GCode :=
  let word name default multiply :=
    match lookup params name with
    | Some v => v * multiply
    | None => default
    end in
  {| GCode.command := cmd;
     GCode.has_coordinates :=
       match lookup params "X", lookup params "Y",
             lookup params "Z", lookup params "E" with
       | None, None, None, None => false
       | _, _, _, _ => true
       end;
     GCode.coordinates := fun default multiply =>
       Coordinates.mk (word "X"%string (Coordinates.x default) multiply)
                      (word "Y"%string (Coordinates.y default) multiply)
                      (word "Z"%string (Coordinates.z default) multiply)
                      (word "E"%string (Coordinates.e default) multiply);
     GCode.radius := fun default multiply =>
       Coordinates.mk (word "I"%string (Coordinates.x default) multiply)
                      (word "J"%string (Coordinates.y default) multiply)
                      (word "K"%string (Coordinates.z default) multiply)
                      0;
     GCode.get := fun name default =>
       match lookup params name with Some v => v | None => default end;
     GCode.has := fun name =>
       match lookup params name with Some _ => true | None => false end |}.
Arguments line cmd%_string params%_list.

Definition no_sensors : Sensors :=
  {| extruder_temperature := None; bed_temperature := None |}.

(** ** Vocabulary of the properties *)

(** The two faults of the planner. *)
Definition out_of_range : PyError := GMachineException "out of effective area".
Definition zero_radius : PyError := GMachineException "circle radius is zero".

(** The world a linear move of the quantized [d] leaves when it succeeds. *)
Definition moved_linear (w : World) (d : Coordinates) (velocity : Q) : World :=
  {| self := set_position (_position (self w) +c d) (self w);
     calls := calls w ++ [hal_move (PulseGeneratorLinear d velocity)] |}.

(** The two components of a vector that lie in the plane, in the order
    [_circular] hands them to [__adjust_circle]. *)
Definition in_plane (p : Plane) (v : Coordinates) : Q * Q :=
  match p with
  | PLANE_XY => (Coordinates.x v, Coordinates.y v)
  | PLANE_YZ => (Coordinates.y v, Coordinates.z v)
  | PLANE_ZX => (Coordinates.z v, Coordinates.x v)
  end.

(** [circle_end] before it is quantized: the in-plane end point [ab], the
    other two components from the requested [d]. *)
Definition place_end (p : Plane) (ab : Q * Q) (d : Coordinates) : Coordinates :=
  match p with
  | PLANE_XY => Coordinates.mk (fst ab) (snd ab) (Coordinates.z d)
                               (Coordinates.e d)
  | PLANE_YZ => Coordinates.mk (Coordinates.x d) (fst ab) (snd ab)
                               (Coordinates.e d)
  | PLANE_ZX => Coordinates.mk (snd ab) (Coordinates.y d) (fst ab)
                               (Coordinates.e d)
  end.

(** The four boundary tests of the quadrant walk. *)
Definition over_right (ra r pa ma : Q) : bool := pa + ra + r >? ma.
Definition over_top (rb r pb mb : Q) : bool := pb + rb + r >? mb.
Definition over_left (ra r pa : Q) : bool := pa + ra - r <? 0.
Definition over_bottom (rb r pb : Q) : bool := pb + rb - r <? 0.

Definition any_crossing (ra rb r pa pb ma mb : Q) : bool :=
  over_right ra r pa ma || over_top rb r pb mb ||
  over_left ra r pa || over_bottom rb r pb.

(** The world a circular move leaves when it succeeds: [d] and [rd] are the
    quantized delta and radius, [ce] the quantized circle end. *)
Definition moved_circular (w : World) (d rd ce : Coordinates) (velocity : Q)
    (direction : RotationDirection) : World :=
  let residual := d -c ce in
  {| self := set_position (_position (self w) +c ce +c residual) (self w);
     calls :=
       (calls w ++
        [hal_move (PulseGeneratorCircular ce rd (_plane (self w)) direction
                                          velocity)]) ++
       (if negb (Coordinates.is_zero residual)
        then [hal_move (PulseGeneratorLinear residual velocity)] else []) |}.

(** [__adjust_circle] as [_circular] calls it in world [w] for the
    quantized delta [d] and radius [rd]. *)
Definition adjusted (cfg : Config) (fsqrt : Q -> Q) (w : World)
    (d rd : Coordinates)
    (direction : RotationDirection) : World * Result (Q * Q) :=
  let p := _plane (self w) in
  let pos := _position (self w) in
  __adjust_circle fsqrt
    (fst (in_plane p d)) (snd (in_plane p d))
    (fst (in_plane p rd)) (snd (in_plane p rd)) direction
    (fst (in_plane p pos)) (snd (in_plane p pos))
    (fst (in_plane p (table cfg))) (snd (in_plane p (table cfg))) w.

(** The travel envelope: from [(0, 0, 0, 0)] to the table's far corner. *)
Definition in_envelope (cfg : Config) (p : Coordinates) : Prop :=
  Coordinates.is_in_aabb p origin (table cfg) = true.

(** Every component is a whole number of steps of its axis. *)
Definition on_grid (cfg : Config) (p : Coordinates) : Prop :=
  (exists k,
     Coordinates.x p == inject_Z k * (1 / STEPPER_PULSES_PER_MM_X cfg)) /\
  (exists k,
     Coordinates.y p == inject_Z k * (1 / STEPPER_PULSES_PER_MM_Y cfg)) /\
  (exists k,
     Coordinates.z p == inject_Z k * (1 / STEPPER_PULSES_PER_MM_Z cfg)) /\
  (exists k,
     Coordinates.e p == inject_Z k * (1 / STEPPER_PULSES_PER_MM_E cfg)).

Definition position_ok (cfg : Config) (w : World) : Prop :=
  in_envelope cfg (_position (self w)) /\ on_grid cfg (_position (self w)).

(** [m] keeps [P], however it ends. *)
Definition preserves {A} (P : World -> Prop) (m : M A) : Prop :=
  forall w, P w -> P (fst (m w)).

(** A command whose body only assigns fields of the machine: the two
    parameter tests, the assignment [f], then the new defaults. *)
Definition assigns (cfg : Config) (gcode : GCode) (f : GMachine -> GMachine)
    (w : World) : World * Result (option Answer) :=
  let velocity := GCode.get gcode "F" (_velocity (self w)) in
  let pause := GCode.get gcode "P" (_pause (self w)) in
  if (velocity <=? 0) || (velocity >? STEPPER_MAX_VELOCITY_MM_PER_MIN cfg)
  then (w, Raise (GMachineException "bad feed speed"))
  else if pause <? 0 then (w, Raise (GMachineException "bad delay"))
  else ({| self := set_pause pause (set_velocity velocity (f (self w)));
           calls := calls w |}, Ok None).

(** The machine after [reset()]. *)
Definition reset_machine (s : GMachine) : GMachine :=
  set_plane PLANE_XY
    (set_absoluteCoordinates true
       (set_convertCoordinates 1
          (set_local (Coordinates.mk 0 0 0 0)
             (set_pause 0 (set_spindle_rpm 1000 (set_velocity 1000 s)))))).

(** ** The rest of the machine's interface *)

Section Interface.

Variable cfg : Config.

(** [for h in self._heaters: self._heaters[h].stop()], over the keys in the
    dictionary's order. *)
Fixpoint stop_each (keys : list Heaters) : M unit :=
  match keys with
  | [] => ret tt
  | h :: rest => call (Heater_stop h) ;; stop_each rest
  end.

(** [release()].  Its last call, [hal.deinit()], is not listed among the
    calls, like [hal.init()] in [new_machine]. *)
Definition release : M unit :=
  home cfg ;;
  _spindle cfg 0 ;;
  s <- get_self ;;
  stop_each (map fst (_heaters s)).

(** [self._heaters[heater]]: the handle stored under a key. *)
Fixpoint heater_get (h : Heaters) (d : list (Heaters * Q)) : option Q :=
  match d with
  | [] => None
  | (k, t) :: rest => if Heaters_eqb k h then Some t else heater_get h rest
  end.

(** Modelled from the spec: class [Heater] is missing; section 6 lists
    [target_temperature() -> number].  A handle is the target it was started
    with, and that is what the method returns. *)
Definition __get_target_temperature (heater : Heaters) : M Q :=
  s <- get_self ;;
  if negb (heater_in heater (_heaters s)) then ret 0
  else match heater_get heater (_heaters s) with
       | Some target => ret target
       | None => ret 0
       end.

Definition extruder_target_temperature : M Q :=
  __get_target_temperature HEATER_EXTRUDER.

Definition bed_target_temperature : M Q :=
  __get_target_temperature HEATER_BED.

Definition fan_state : M bool :=
  s <- get_self ;; ret (_fan_state s).

Definition plane : M Plane :=
  s <- get_self ;; ret (_plane s).

End Interface.

(** ** Vocabulary of the further properties *)

(** The command word [do_command] dispatches on: the line's own, or [G1]
    for a line that has coordinates and no word. *)
Definition effective_command (gcode : GCode) : option string :=
  match GCode.command gcode with
  | None => if GCode.has_coordinates gcode then Some "G1"%string else None
  | Some c => Some c
  end.

(** The words [do_command] has a branch for, in the order it tests them. *)
Definition known_commands : list string :=
  ["G0"; "G1"; "G2"; "G3"; "G4"; "G17"; "G18"; "G19"; "G20"; "G21"; "G28";
   "G53"; "G90"; "G91"; "G92"; "M3"; "M5"; "M2"; "M30"; "M104"; "M109";
   "M140"; "M190"; "M105"; "M106"; "M107"; "M111"; "M114"]%string.

(** The words whose branch calls [_move_linear], [_circular] or [home]. *)
Definition is_motion (c : option string) : bool :=
  command_is c "G0" || command_is c "G1" || command_is c "G2" ||
  command_is c "G3" || command_is c "G28".

(** The line [gcode] with the command word [c]. *)
Definition with_command (c : string) (gcode : GCode) : GCode :=
  {| GCode.command := Some c;
     GCode.has_coordinates := GCode.has_coordinates gcode;
     GCode.coordinates := GCode.coordinates gcode;
     GCode.radius := GCode.radius gcode;
     GCode.get := GCode.get gcode;
     GCode.has := GCode.has gcode |}.

(** The two parameter tests of [do_command] pass. *)
Definition parameters_ok (cfg : Config) (gcode : GCode) (s : GMachine) :
    Prop :=
  0 < GCode.get gcode "F" (_velocity s) /\
  GCode.get gcode "F" (_velocity s) <= STEPPER_MAX_VELOCITY_MM_PER_MIN cfg /\
  0 <= GCode.get gcode "P" (_pause s).

(** The stored feed and pause pass the parameter tests. *)
Definition feed_ok (cfg : Config) (w : World) : Prop :=
  0 < _velocity (self w) /\
  _velocity (self w) <= STEPPER_MAX_VELOCITY_MM_PER_MIN cfg /\
  0 <= _pause (self w).

Definition is_hal_move (c : Call) : bool :=
  match c with hal_move _ => true | _ => false end.

Definition is_sensor_read (c : Call) : bool :=
  match c with
  | hal_get_extruder_temperature | hal_get_bed_temperature => true
  | _ => false
  end.

(** From [w] to [w'] no field of the machine has changed and nothing but
    the temperature sensors has been called. *)
Definition harmless (w w' : World) : Prop :=
  self w' = self w /\
  exists reads,
    calls w' = calls w ++ reads /\ forallb is_sensor_read reads = true.

(** From [w] to [w'] the position is the same and no motion segment has
    been handed to the hardware layer. *)
Definition unmoved (w w' : World) : Prop :=
  _position (self w') = _position (self w) /\
  exists others,
    calls w' = calls w ++ others /\
    forallb (fun c => negb (is_hal_move c)) others = true.

(** The limit a heater's target is tested against. *)
Definition heater_max (cfg : Config) (h : Heaters) : Q :=
  match h with
  | HEATER_EXTRUDER => EXTRUDER_MAX_TEMPERATURE cfg
  | HEATER_BED => BED_MAX_TEMPERATURE cfg
  end.

(** A dictionary of handles: one entry per key at most, every target
    non-zero and between the minimum and the heater's maximum. *)
Definition heaters_ok (cfg : Config) (d : list (Heaters * Q)) : Prop :=
  NoDup (map fst d) /\
  Forall (fun kv => ~ snd kv == 0 /\
                    MIN_TEMPERATURE cfg <= snd kv <= heater_max cfg (fst kv))
         d.

(** Whether heater [h] regulates after one more call. *)
Definition heater_step (h : Heaters) (on : bool) (c : Call) : bool :=
  match c with
  | Heater_start h' _ => if Heaters_eqb h' h then true else on
  | Heater_stop h' => if Heaters_eqb h' h then false else on
  | _ => on
  end.

(** Whether heater [h] regulates after the calls of [trace]: its last
    [Heater(...)] has not been followed by a [stop()]. *)
Definition running (h : Heaters) (trace : list Call) : bool :=
  fold_left (heater_step h) trace false.

(** The heaters that regulate after the calls of [trace], in the order of
    their last start: a start puts the heater last, a stop takes it out. *)
Definition regulating_step (on : list Heaters) (c : Call) : list Heaters :=
  match c with
  | Heater_start h _ => filter (fun k => negb (Heaters_eqb k h)) on ++ [h]
  | Heater_stop h => filter (fun k => negb (Heaters_eqb k h)) on
  | _ => on
  end.

Definition regulating (trace : list Call) : list Heaters :=
  fold_left regulating_step trace [].

(** The keys of the dictionary of handles, in its order, are the regulating
    heaters in the order of their last start. *)
Definition order_ok (w : World) : Prop :=
  map fst (_heaters (self w)) = regulating (calls w).

(** Starts of heater [h] while it regulates already. *)
Fixpoint double_starts (h : Heaters) (on : bool) (trace : list Call) : nat :=
  match trace with
  | [] => O
  | c :: rest =>
      (match c with
       | Heater_start h' _ => if Heaters_eqb h' h && on then 1 else 0
       | _ => 0
       end + double_starts h (heater_step h on c) rest)%nat
  end.

(** What the fan was last told; off when it was told nothing. *)
Definition last_fan (trace : list Call) : bool :=
  fold_left (fun state c => match c with
                            | hal_fan_control s => s
                            | _ => state
                            end) trace false.

Definition devices_ok (cfg : Config) (w : World) : Prop :=
  heaters_ok cfg (_heaters (self w)) /\
  (forall h, running h (calls w) = heater_in h (_heaters (self w))) /\
  (forall h, double_starts h false (calls w) = O) /\
  last_fan (calls w) = _fan_state (self w).

(** Calls that start or stop no heater and do not touch the fan. *)
Definition is_quiet (c : Call) : bool :=
  match c with
  | Heater_start _ _ | Heater_stop _ | hal_fan_control _ => false
  | _ => true
  end.

(** The heater a heater command is about. *)
Definition heater_of (c : string) : option Heaters :=
  if String.eqb c "M104" || String.eqb c "M109" then Some HEATER_EXTRUDER
  else if String.eqb c "M140" || String.eqb c "M190" then Some HEATER_BED
  else None.

Definition warm_sensors : Sensors :=
  {| extruder_temperature := Some 21; bed_temperature := Some 20 |}.

(** The displacement [do_command] computes for a line: to the commanded
    point plus the local offset in absolute mode, the commanded vector in
    relative mode. *)
Definition requested_delta (gcode : GCode) (s : GMachine) : Coordinates :=
  if _absoluteCoordinates s then
    GCode.coordinates gcode (_position s) (_convertCoordinates s)
      +c _local s -c _position s
  else
    GCode.coordinates gcode (Coordinates.mk 0 0 0 0) (_convertCoordinates s).

(** [m] changes no field and calls only the sensors, however it ends. *)
Definition quiet {A} (m : M A) : Prop := forall w, harmless w (fst (m w)).

Definition never_fails {A} (m : M A) : Prop :=
  forall w, exists a, snd (m w) = Ok a.

(** When [m] raises from a world where [I] holds, it has changed no field
    and called only the sensors. *)
Definition clean {A} (I : World -> Prop) (m : M A) : Prop :=
  forall w, I w -> forall err, snd (m w) = Raise err ->
  harmless w (fst (m w)).

(** ** The analog converter ([cnc/sensors/ads111x.py])

    [measure(channel)] talks to the chip through [os.write] and [os.read]
    on the I2C device and guards the exchange with a lock.  A [Bus] holds
    the lock, what the device will answer to the calls to come, what has
    been written and how often the function has slept.  The module's start-up
    code (opening the device, the first [measure(0)]) is not modelled. *)
Module ADS111x.

Inductive error : Type :=
| ValueError (msg : string)
| OSError
| struct_error.
Arguments ValueError msg%_string.

(** How a call ends: with a value, with an exception, waiting for ever in
    [lock.acquire()], or still exchanging when the script of device answers
    is used up. *)
Inductive outcome (A : Type) : Type :=
| Returns (a : A)
| Raises (err : error)
| Blocked
| Unfinished.
Arguments Returns {A} a.
Arguments Raises {A} err.
Arguments Blocked {A}.
Arguments Unfinished {A}.

(** [script]: the result of each coming [os.write] or [os.read], in order;
    [None] is a call that raises [OSError], [Some data] a write that
    succeeds or a read that returns [data]. *)
Record Bus : Type := {
  locked : bool;
  script : list (option (list Byte.byte));
  written : list (list Byte.byte);
  sleeps : nat
}.

Definition IO (A : Type) : Type := Bus -> Bus * outcome A.

Definition ret {A} (a : A) : IO A := fun b => (b, Returns a).
Definition raise {A} (err : error) : IO A := fun b => (b, Raises err).
Definition bind {A B} (m : IO A) (k : A -> IO B) : IO B :=
  fun b => match m b with
           | (b', Returns a) => k a b'
           | (b', Raises err) => (b', Raises err)
           | (b', Blocked) => (b', Blocked)
           | (b', Unfinished) => (b', Unfinished)
           end.

Declare Scope io_scope.
Notation "x <- m ;; k" := (bind m (fun x => k))
  (at level 61, m at next level, right associativity) : io_scope.
Notation "m ;; k" := (bind m (fun _ => k))
  (at level 61, right associativity) : io_scope.
Local Open Scope io_scope.

(** [lock.acquire()] on a lock that is held does not return. *)
Definition lock_acquire : IO unit :=
  fun b =>
    if locked b then (b, Blocked)
    else ({| locked := true; script := script b; written := written b;
             sleeps := sleeps b |}, Returns tt).

Definition lock_release : IO unit :=
  fun b => ({| locked := false; script := script b; written := written b;
               sleeps := sleeps b |}, Returns tt).

Definition os_write (data : list Byte.byte) : IO unit :=
  fun b =>
    match script b with
    | [] => (b, Unfinished)
    | None :: rest =>
        ({| locked := locked b; script := rest; written := written b;
            sleeps := sleeps b |}, Raises OSError)
    | Some _ :: rest =>
        ({| locked := locked b; script := rest;
            written := written b ++ [data]; sleeps := sleeps b |},
         Returns tt)
    end.

Definition os_read (n : nat) : IO (list Byte.byte) :=
  fun b =>
    match script b with
    | [] => (b, Unfinished)
    | None :: rest =>
        ({| locked := locked b; script := rest; written := written b;
            sleeps := sleeps b |}, Raises OSError)
    | Some data :: rest =>
        ({| locked := locked b; script := rest; written := written b;
            sleeps := sleeps b |}, Returns (firstn n data))
    end.

Definition time_sleep : IO unit :=
  fun b => ({| locked := locked b; script := script b;
               written := written b; sleeps := S (sleeps b) |}, Returns tt).

Definition byte_of (v : Z) : option Byte.byte := Byte.of_N (Z.to_N v).
Definition of_byte (b : Byte.byte) : Z := Z.of_N (Byte.to_N b).

(** [struct.pack("B", v)]: one byte, [struct.error] out of range. *)
Definition pack_B (v : Z) : IO (list Byte.byte) :=
  if (0 <=? v)%Z && (v <=? 255)%Z then
    match byte_of v with
    | Some b => ret [b]
    | None => raise struct_error
    end
  else raise struct_error.

(** [struct.pack(">BH", a, v)]: a byte, then 16 bits, high byte first. *)
Definition pack_BH (a v : Z) : IO (list Byte.byte) :=
  if (0 <=? a)%Z && (a <=? 255)%Z && (0 <=? v)%Z && (v <=? 65535)%Z then
    match byte_of a, byte_of (Z.shiftr v 8), byte_of (Z.land v 255) with
    | Some b0, Some b1, Some b2 => ret [b0; b1; b2]
    | _, _, _ => raise struct_error
    end
  else raise struct_error.

(** [struct.unpack(">H", data)[0]]: needs exactly two bytes. *)
Definition unpack_H (data : list Byte.byte) : IO Z :=
  match data with
  | [b1; b2] => ret (256 * of_byte b1 + of_byte b2)%Z
  | _ => raise struct_error
  end.

(** [struct.unpack(">h", data)[0]]: the same bits as a signed number. *)
Definition unpack_h (data : list Byte.byte) : IO Z :=
  match data with
  | [b1; b2] =>
      let u := (256 * of_byte b1 + of_byte b2)%Z in
      ret (if (u <? 32768)%Z then u else (u - 65536)%Z)
  | _ => raise struct_error
  end.

(** The configuration word for a channel:
    [((0b100 | channel) << 12) | 0x8380]. *)
Definition config_word (channel : Z) : Z :=
  Z.lor (Z.shiftl (Z.lor 4 channel) 12) 33664.

(** [while True]: ask for the configuration register until its top bit is
    set, sleeping in between.  Every turn uses up two answers of the script;
    [fuel] bounds the turns and [measure] gives it the script's length. *)
Fixpoint wait_for_conversion (fuel : nat) : IO unit :=
  match fuel with
  | O => fun b => (b, Unfinished)
  | S fuel' =>
      data <- pack_B 1 ;;
      os_write data ;;
      answer <- os_read 2 ;;
      status <- unpack_H answer ;;
      if negb (Z.eqb (Z.land status 32768) 0) then ret tt
      else time_sleep ;; wait_for_conversion fuel'
  end.

Definition measure (channel : Z) : IO Q :=
  if (channel <? 0)%Z || (channel >? 3)%Z then
    raise (ValueError "Wrong channel")
  else
    lock_acquire ;;
    (* configure *)
    data <- pack_BH 1 (config_word channel) ;;
    os_write data ;;
    (* wait for conversion *)
    b <- (fun b => (b, Returns b)) ;;
    wait_for_conversion (List.length (script b)) ;;
    (* read result *)
    data <- pack_B 0 ;;
    os_write data ;;
    answer <- os_read 2 ;;
    v <- unpack_h answer ;;
    lock_release ;;
    ret (inject_Z v / 8000).

(** Vocabulary of the converter's properties. *)

(** The answers of the device to one whole exchange: the configuration
    write, a status read for every entry of [busy] and one for [ready], then
    the conversion register; [rest] is left for later calls. *)
Definition exchange (busy : list (Byte.byte * Byte.byte))
    (ready conversion : Byte.byte * Byte.byte)
    (rest : list (option (list Byte.byte))) : list (option (list Byte.byte)) :=
  Some [] ::
  flat_map (fun st => [Some []; Some [fst st; snd st]]) busy ++
  [Some []; Some [fst ready; snd ready];
   Some []; Some [fst conversion; snd conversion]] ++ rest.

(** The 16 bits of a register, high byte first. *)
Definition register (st : Byte.byte * Byte.byte) : Z :=
  (256 * of_byte (fst st) + of_byte (snd st))%Z.

(** The register read as a signed number. *)
Definition signed (st : Byte.byte * Byte.byte) : Z :=
  if (register st <? 32768)%Z then register st
  else (register st - 65536)%Z.

Definition is_busy (st : Byte.byte * Byte.byte) : Prop :=
  Z.land (register st) 32768 = 0%Z.

Definition keeps_lock {A} (m : IO A) : Prop :=
  forall b, locked (fst (m b)) = locked b.

(** [m] raises [OSError] or [struct.error], never [ValueError]. *)
Definition io_errors_only {A} (m : IO A) : Prop :=
  forall b err, snd (m b) = Raises err -> err <> ValueError "Wrong channel".

(** The exchange between [lock.acquire()] and [lock.release()]. *)
Definition conversation (channel : Z) : IO Z :=
  bind (pack_BH 1 (config_word channel)) (fun data =>
  bind (os_write data) (fun _ =>
  bind (fun b => (b, Returns b)) (fun b =>
  bind (wait_for_conversion (List.length (script b))) (fun _ =>
  bind (pack_B 0) (fun data =>
  bind (os_write data) (fun _ =>
  bind (os_read 2) (fun answer => unpack_h answer))))))).

End ADS111x.

(** * Properties *)

(** ** Comparisons of rationals as booleans *)

Lemma Qlt_bool_iff (a b : Q) : (a <? b) = true <-> a < b.
Proof.
  unfold Qlt_bool. rewrite negb_true_iff.
  split; intro H.
  - apply Qnot_le_lt. intro Hle. apply Qle_bool_iff in Hle. congruence.
  - destruct (b <=? a) eqn:E; [|reflexivity].
    apply Qle_bool_iff in E. exfalso. apply (Qlt_not_le _ _ H E).
Qed.

Lemma Qlt_bool_false (a b : Q) : (a <? b) = false <-> b <= a.
Proof.
  unfold Qlt_bool. rewrite negb_false_iff. apply Qle_bool_iff.
Qed.

Lemma Qle_bool_false (a b : Q) : (a <=? b) = false <-> b < a.
Proof.
  rewrite <- Qlt_bool_iff. unfold Qlt_bool.
  destruct (a <=? b); simpl; intuition congruence.
Qed.

Lemma Qeq_bool_false (a b : Q) : (a =? b) = false <-> ~ a == b.
Proof.
  split.
  - intros H E. apply Qeq_bool_iff in E. congruence.
  - intro H. destruct (a =? b) eqn:E; [|reflexivity].
    apply Qeq_bool_iff in E. contradiction.
Qed.

Lemma Qgt_bool_iff (a b : Q) : (a >? b) = true <-> b < a.
Proof. apply Qlt_bool_iff. Qed.

Lemma Qgt_bool_false (a b : Q) : (a >? b) = false <-> a <= b.
Proof. apply Qlt_bool_false. Qed.

(** Turns every boolean comparison among the hypotheses into the order
    fact it decides. *)
Ltac reflect_Q :=
  repeat match goal with
  | H : _ && _ = true |- _ => apply andb_true_iff in H; destruct H
  | H : (_ >? _) = true |- _ => apply Qgt_bool_iff in H
  | H : (_ >? _) = false |- _ => apply Qgt_bool_false in H
  | H : (_ <? _) = true |- _ => apply Qlt_bool_iff in H
  | H : (_ <? _) = false |- _ => apply Qlt_bool_false in H
  | H : (_ <=? _) = true |- _ => apply Qle_bool_iff in H
  | H : (_ <=? _) = false |- _ => apply Qle_bool_false in H
  | H : (_ =? _) = true |- _ => apply Qeq_bool_iff in H
  | H : (_ =? _) = false |- _ => apply Qeq_bool_false in H
  end.

(** ** Coordinates *)

Lemma equiv_refl (a : Coordinates) : a =c a.
Proof. repeat split; reflexivity. Qed.

Lemma equiv_sym (a b : Coordinates) : a =c b -> b =c a.
Proof. intros (H1 & H2 & H3 & H4). repeat split; symmetry; assumption. Qed.

Lemma equiv_trans (a b c : Coordinates) : a =c b -> b =c c -> a =c c.
Proof.
  intros (H1 & H2 & H3 & H4) (K1 & K2 & K3 & K4).
  repeat split; etransitivity; eassumption.
Qed.

Lemma is_in_aabb_iff (a p1 p2 : Coordinates) :
  Coordinates.is_in_aabb a p1 p2 = true <->
  (Coordinates.x p1 <= Coordinates.x a <= Coordinates.x p2) /\
  (Coordinates.y p1 <= Coordinates.y a <= Coordinates.y p2) /\
  (Coordinates.z p1 <= Coordinates.z a <= Coordinates.z p2) /\
  (Coordinates.e p1 <= Coordinates.e a <= Coordinates.e p2).
Proof.
  unfold Coordinates.is_in_aabb.
  rewrite !andb_true_iff, !Qle_bool_iff. tauto.
Qed.

Lemma is_in_aabb_equiv (a b p1 p2 : Coordinates) :
  a =c b -> Coordinates.is_in_aabb a p1 p2 = Coordinates.is_in_aabb b p1 p2.
Proof.
  intros (H1 & H2 & H3 & H4).
  apply eq_true_iff_eq. rewrite !is_in_aabb_iff.
  rewrite H1, H2, H3, H4. tauto.
Qed.

Lemma is_zero_iff (a : Coordinates) :
  Coordinates.is_zero a = true <-> a =c origin.
Proof.
  unfold Coordinates.is_zero, Coordinates.equiv.
  rewrite !andb_true_iff, !Qeq_bool_iff. simpl. tauto.
Qed.

Lemma add_zero (p d : Coordinates) : d =c origin -> p +c d =c p.
Proof.
  intros (H1 & H2 & H3 & H4). unfold Coordinates.equiv. simpl in *.
  rewrite H1, H2, H3, H4. repeat split; ring.
Qed.

(** The position a circular move stores is the position its bounds check
    looked at. *)
Lemma add_end_residual (p d ce : Coordinates) :
  p +c ce +c (d -c ce) =c p +c d.
Proof. unfold Coordinates.equiv. simpl. repeat split; ring. Qed.

(** ** The linear move, case by case *)

Section LinearMove.

Variable cfg : Config.

Lemma check_delta_eq (d : Coordinates) (w : World) :
  __check_delta cfg d w =
  if Coordinates.is_in_aabb (_position (self w) +c d) origin (table cfg)
  then (w, Ok tt) else (w, Raise out_of_range).
Proof.
  unfold __check_delta, bind, get_self, raise, ret. fold origin.
  destruct (Coordinates.is_in_aabb _ _ _); reflexivity.
Qed.

Lemma move_linear_eq (delta : Coordinates) (velocity : Q) (w : World) :
  _move_linear cfg delta velocity w =
  let d := quantize cfg delta in
  if Coordinates.is_zero d then (w, Ok tt)
  else if Coordinates.is_in_aabb (_position (self w) +c d) origin (table cfg)
       then (moved_linear w d velocity, Ok tt)
       else (w, Raise out_of_range).
Proof.
  unfold _move_linear. cbv zeta.
  destruct (Coordinates.is_zero _); [reflexivity|].
  unfold bind at 1. rewrite check_delta_eq.
  destruct (Coordinates.is_in_aabb _ _ _); reflexivity.
Qed.

End LinearMove.

(** ** The circular move, case by case *)

Section CircularMove.

Variable cfg : Config.
Variable fsqrt : Q -> Q.

Lemma quarter_cases (a b : Q) :
  __quarter a b = 1%Z \/ __quarter a b = 2%Z \/
  __quarter a b = 3%Z \/ __quarter a b = 4%Z.
Proof.
  unfold __quarter.
  destruct (_ && _); [left; reflexivity|].
  destruct (_ && _); [right; left; reflexivity|].
  destruct (_ && _); [right; right; left | right; right; right];
    reflexivity.
Qed.

(** When the first three tests of [__quarter] fail, the fourth holds. *)
Lemma quarter_last_test (a b : Q) :
  (0 <=? a) && (0 <=? b) = false -> (a <? 0) && (0 <=? b) = false ->
  (a <? 0) && (b <? 0) = false -> (0 <=? a) && (b <? 0) = true.
Proof.
  unfold Qlt_bool.
  destruct (0 <=? a) eqn:Ea, (0 <=? b) eqn:Eb; simpl; try congruence;
    destruct (a <=? 0) eqn:Ea', (b <=? 0) eqn:Eb'; simpl; try congruence;
    reflect_Q; intros; exfalso; lra.
Qed.

Lemma math_sqrt_eq (v : Q) (w : World) :
  0 <= v -> math_sqrt fsqrt v w = (w, Ok (fsqrt v)).
Proof.
  intro H. unfold math_sqrt.
  destruct (v <? 0) eqn:E; [|reflexivity]. reflect_Q. lra.
Qed.

Lemma math_sqrt_world (v : Q) (w : World) : fst (math_sqrt fsqrt v w) = w.
Proof. unfold math_sqrt. destruct (v <? 0); reflexivity. Qed.

Lemma py_div_world (a b : Q) (w : World) : fst (py_div a b w) = w.
Proof. unfold py_div. destruct (b =? 0); reflexivity. Qed.

(** The walk touches no state; it returns or raises "out of effective
    area". *)
Lemma walk_outcome n direction eq ra rb r pa pb ma mb q pq w :
  exists res,
    walk n direction eq ra rb r pa pb ma mb q pq w = (w, res) /\
    (res = Raise out_of_range \/ exists qs, res = Ok qs).
Proof.
  revert q pq. induction n as [|n IH]; intros q pq; simpl.
  - eexists. split; [reflexivity|]. right. eexists. reflexivity.
  - destruct (Z.eqb _ eq).
    + eexists. split; [reflexivity|]. right. eexists. reflexivity.
    + destruct (crossing _ _ _ _ _ _ _ _ _).
      * eexists. split; [reflexivity|]. left. reflexivity.
      * apply IH.
Qed.

(** With the end quarter 5 the walk never leaves by [break]: from any
    start quarter and in either direction it tests the four boundaries and
    comes back to where it started. *)
Lemma walk_full_circle direction ra rb r pa pb ma mb sq w :
  sq = 1%Z \/ sq = 2%Z \/ sq = 3%Z \/ sq = 4%Z ->
  walk 4 direction 5 ra rb r pa pb ma mb sq sq w =
  (w, if any_crossing ra rb r pa pb ma mb then Raise out_of_range
      else Ok (sq, sq)).
Proof.
  unfold any_crossing, over_right, over_top, over_left, over_bottom.
  intros [-> | [-> | [-> | ->]]]; destruct direction; cbn;
    destruct (pa + ra + r >? ma), (pb + rb + r >? mb),
             (pa + ra - r <? 0), (pb + rb - r <? 0); reflexivity.
Qed.

Lemma sum_squares_nonneg (ra rb : Q) : 0 <= ra * ra + rb * rb.
Proof. nra. Qed.

Lemma adjust_circle_zero_radius da db ra rb direction pa pb ma mb w :
  fsqrt (ra * ra + rb * rb) == 0 ->
  __adjust_circle fsqrt da db ra rb direction pa pb ma mb w =
  (w, Raise zero_radius).
Proof.
  intro Hr. unfold __adjust_circle, bind at 1.
  rewrite math_sqrt_eq by apply sum_squares_nonneg.
  apply Qeq_bool_iff in Hr. rewrite Hr. reflexivity.
Qed.

Lemma adjust_circle_full da db ra rb direction pa pb ma mb w :
  ~ fsqrt (ra * ra + rb * rb) == 0 -> da == 0 -> db == 0 ->
  __adjust_circle fsqrt da db ra rb direction pa pb ma mb w =
  (w, if any_crossing ra rb (fsqrt (ra * ra + rb * rb)) pa pb ma mb
      then Raise out_of_range else Ok (da, db)).
Proof.
  intros Hr Ha Hb. unfold __adjust_circle, bind at 1.
  rewrite math_sqrt_eq by apply sum_squares_nonneg.
  apply Qeq_bool_false in Hr. rewrite Hr.
  apply Qeq_bool_iff in Ha, Hb. rewrite Ha, Hb. cbn [andb].
  unfold bind, ret at 1.
  rewrite walk_full_circle by apply quarter_cases.
  destruct (any_crossing _ _ _ _ _ _ _); reflexivity.
Qed.

Lemma adjust_circle_division da db ra rb direction pa pb ma mb w :
  ~ fsqrt (ra * ra + rb * rb) == 0 -> ~ (da == 0 /\ db == 0) -> da == ra ->
  __adjust_circle fsqrt da db ra rb direction pa pb ma mb w =
  (w, Raise ZeroDivisionError).
Proof.
  intros Hr Hfull Heq. unfold __adjust_circle, bind at 1.
  rewrite math_sqrt_eq by apply sum_squares_nonneg.
  apply Qeq_bool_false in Hr. rewrite Hr.
  assert (Hf : (da =? 0) && (db =? 0) = false).
  { destruct ((da =? 0) && (db =? 0)) eqn:E; [|reflexivity].
    reflect_Q. tauto. }
  rewrite Hf. unfold bind, py_div.
  assert (Hz : (da - ra =? 0) = true) by (apply Qeq_bool_iff; lra).
  rewrite Hz. reflexivity.
Qed.

(** Past the first division nothing divides by zero: [1 + abs(b)] is at
    least one. *)
Lemma adjust_circle_no_division da db ra rb direction pa pb ma mb w :
  ~ da == ra ->
  snd (__adjust_circle fsqrt da db ra rb direction pa pb ma mb w) <>
  Raise ZeroDivisionError.
Proof.
  intro Hne. unfold __adjust_circle, bind at 1.
  rewrite math_sqrt_eq by apply sum_squares_nonneg.
  destruct (_ =? 0); [discriminate|].
  set (r := fsqrt (ra * ra + rb * rb)).
  set (sq := __quarter (- ra) (- rb)).
  assert (Hwalk : forall eq (ab : Q * Q) w0,
    snd ((walk 4 direction eq ra rb r pa pb ma mb sq sq ;; ret ab) w0) <>
    Raise ZeroDivisionError).
  { intros eq ab w0. unfold bind.
    destruct (walk_outcome 4 direction eq ra rb r pa pb ma mb sq sq w0)
      as (res & -> & [-> | [qs ->]]); discriminate. }
  destruct ((da =? 0) && (db =? 0)).
  - unfold bind at 1, ret at 1. apply Hwalk.
  - unfold bind at 1. unfold bind at 1. unfold py_div at 1.
    assert (Hz : (da - ra =? 0) = false) by (apply Qeq_bool_false; lra).
    rewrite Hz. unfold ret at 1. unfold bind at 1. unfold py_div at 1.
    set (b := (db - rb) / (da - ra)).
    assert (Hb : (1 + Qabs b =? 0) = false).
    { apply Qeq_bool_false. pose proof (Qabs_nonneg b). lra. }
    rewrite Hb. unfold ret at 1. unfold bind at 1.
    unfold math_sqrt at 1. destruct (_ <? 0); [discriminate|].
    unfold ret at 1. unfold bind at 1.
    unfold math_sqrt at 1. destruct (_ <? 0); [discriminate|].
    unfold ret at 1. apply Hwalk.
Qed.

Lemma adjust_circle_world da db ra rb direction pa pb ma mb w :
  fst (__adjust_circle fsqrt da db ra rb direction pa pb ma mb w) = w.
Proof.
  unfold __adjust_circle, bind at 1.
  rewrite math_sqrt_eq by apply sum_squares_nonneg.
  destruct (_ =? 0); [reflexivity|].
  set (r := fsqrt (ra * ra + rb * rb)).
  set (sq := __quarter (- ra) (- rb)).
  assert (Hwalk : forall eq (ab : Q * Q) w0,
    fst ((walk 4 direction eq ra rb r pa pb ma mb sq sq ;; ret ab) w0) = w0).
  { intros eq ab w0. unfold bind.
    destruct (walk_outcome 4 direction eq ra rb r pa pb ma mb sq sq w0)
      as (res & -> & [-> | [qs ->]]); reflexivity. }
  destruct ((da =? 0) && (db =? 0)).
  - unfold bind at 1, ret at 1. apply Hwalk.
  - unfold bind at 1. unfold bind at 1. unfold py_div at 1.
    destruct (_ =? 0); [reflexivity|].
    unfold ret at 1. unfold bind at 1. unfold py_div at 1.
    destruct (_ =? 0); [reflexivity|].
    unfold ret at 1. unfold bind at 1.
    unfold math_sqrt at 1. destruct (_ <? 0); [reflexivity|].
    unfold ret at 1. unfold bind at 1.
    unfold math_sqrt at 1. destruct (_ <? 0); [reflexivity|].
    unfold ret at 1. apply Hwalk.
Qed.

Lemma circular_eq delta radius velocity direction w :
  _circular cfg fsqrt delta radius velocity direction w =
  let d := quantize cfg delta in
  let rd := quantize cfg radius in
  if Coordinates.is_in_aabb (_position (self w) +c d) origin (table cfg)
  then match snd (adjusted cfg fsqrt w d rd direction) with
       | Ok ab =>
           (moved_circular w d rd
              (quantize cfg (place_end (_plane (self w)) ab d))
              velocity direction, Ok tt)
       | Raise err => (w, Raise err)
       end
  else (w, Raise out_of_range).
Proof.
  unfold _circular. cbv zeta. unfold bind at 1. rewrite check_delta_eq.
  destruct (Coordinates.is_in_aabb _ _ _); [|reflexivity].
  unfold bind at 1, get_self at 1. unfold adjusted. cbv zeta.
  destruct (_plane (self w)) eqn:Hp;
    unfold bind at 1; unfold bind at 1;
    cbn [in_plane fst snd quantize Coordinates.round table
         Coordinates.x Coordinates.y Coordinates.z];
    match goal with
    | |- context [__adjust_circle ?f ?a ?b ?c ?d ?e ?g ?h ?i ?j ?k] =>
        pose proof (adjust_circle_world a b c d e g h i j k) as Hw;
        destruct (__adjust_circle f a b c d e g h i j k) as [w' [ab|err]]
    end; simpl in Hw; subst w'; cbn [snd]; try reflexivity;
    unfold moved_circular, place_end; cbv zeta; rewrite ?Hp;
    unfold bind, ret, call, get_self, update;
    cbn [self calls Coordinates.x Coordinates.y Coordinates.z];
    destruct (Coordinates.is_zero _); cbn [negb self calls];
    rewrite ?app_nil_r; reflexivity.
Qed.

End CircularMove.

(** ** What every command preserves *)

Section Preservation.

Variable cfg : Config.
Variable fsqrt : Q -> Q.

Lemma preserves_ret {A} P (a : A) : preserves P (ret a).
Proof. intros w H. exact H. Qed.

Lemma preserves_raise {A} P err : preserves P (@raise A err).
Proof. intros w H. exact H. Qed.

Lemma preserves_bind {A B} P (m : M A) (k : A -> M B) :
  preserves P m -> (forall a, preserves P (k a)) -> preserves P (bind m k).
Proof.
  intros Hm Hk w H. unfold bind. specialize (Hm w H).
  destruct (m w) as [w' [a|err]]; simpl in *.
  - apply Hk. exact Hm.
  - exact Hm.
Qed.

Lemma preserves_get_self P : preserves P get_self.
Proof. intros w H. exact H. Qed.

Lemma preserves_py_div P a b : preserves P (py_div a b).
Proof. intros w H. rewrite py_div_world. exact H. Qed.

Lemma preserves_call c : preserves (position_ok cfg) (call c).
Proof. intros w H. exact H. Qed.

Lemma preserves_update f :
  (forall s, _position (f s) = _position s) ->
  preserves (position_ok cfg) (update f).
Proof.
  intros Hf w H. unfold position_ok, update. simpl. rewrite Hf. exact H.
Qed.

Lemma on_grid_equiv (a b : Coordinates) :
  a =c b -> on_grid cfg a -> on_grid cfg b.
Proof.
  intros (H1 & H2 & H3 & H4) ([k1 K1] & [k2 K2] & [k3 K3] & [k4 K4]).
  repeat split; eexists;
    [rewrite <- H1 | rewrite <- H2 | rewrite <- H3 | rewrite <- H4];
    eassumption.
Qed.

Lemma on_grid_quantize (v : Coordinates) : on_grid cfg (quantize cfg v).
Proof.
  repeat split; eexists; simpl; unfold Coordinates.round1; reflexivity.
Qed.

Lemma on_grid_add (a b : Coordinates) :
  on_grid cfg a -> on_grid cfg b -> on_grid cfg (a +c b).
Proof.
  intros ([k1 K1] & [k2 K2] & [k3 K3] & [k4 K4])
         ([j1 J1] & [j2 J2] & [j3 J3] & [j4 J4]).
  repeat split; simpl;
    [exists (k1 + j1)%Z; rewrite K1, J1
    |exists (k2 + j2)%Z; rewrite K2, J2
    |exists (k3 + j3)%Z; rewrite K3, J3
    |exists (k4 + j4)%Z; rewrite K4, J4];
    rewrite inject_Z_plus; ring.
Qed.

Lemma preserves_move_linear delta velocity :
  preserves (position_ok cfg) (_move_linear cfg delta velocity).
Proof.
  intros w [He Hg]. rewrite move_linear_eq. cbv zeta.
  destruct (Coordinates.is_zero _); [split; assumption|].
  destruct (Coordinates.is_in_aabb _ _ _) eqn:E; [|split; assumption].
  split; simpl.
  - exact E.
  - apply on_grid_add; [exact Hg | apply on_grid_quantize].
Qed.

Lemma preserves_circular delta radius velocity direction :
  preserves (position_ok cfg)
            (_circular cfg fsqrt delta radius velocity direction).
Proof.
  intros w [He Hg]. rewrite circular_eq. cbv zeta.
  destruct (Coordinates.is_in_aabb _ _ _) eqn:E; [|split; assumption].
  destruct (snd (adjusted cfg fsqrt w _ _ _)); [|split; assumption].
  split; simpl.
  - unfold in_envelope.
    rewrite (is_in_aabb_equiv _ _ _ _ (add_end_residual _ _ _)). exact E.
  - apply (on_grid_equiv _ _ (equiv_sym _ _ (add_end_residual _ _ _))).
    apply on_grid_add; [exact Hg | apply on_grid_quantize].
Qed.

Lemma preserves_home : preserves (position_ok cfg) (home cfg).
Proof.
  unfold home.
  apply preserves_bind; [apply preserves_get_self | intro s].
  apply preserves_bind; [apply preserves_move_linear | intros _].
  apply preserves_bind; [apply preserves_get_self | intro s'].
  apply preserves_move_linear.
Qed.

(** Splits a method body into its calls, closing those that do not touch
    the position. *)
Ltac preserve_step :=
  lazymatch goal with
  | |- preserves _ (ret _) => apply preserves_ret
  | |- preserves _ (raise _) => apply preserves_raise
  | |- preserves _ get_self => apply preserves_get_self
  | |- preserves _ (py_div _ _) => apply preserves_py_div
  | |- preserves _ (call _) => apply preserves_call
  | |- preserves _ (update _) => apply preserves_update; reflexivity
  | |- preserves _ (_move_linear _ _ _) => apply preserves_move_linear
  | |- preserves _ (_circular _ _ _ _ _ _) => apply preserves_circular
  | |- preserves _ (home _) => apply preserves_home
  | |- preserves _ (bind _ _) => apply preserves_bind; [|intro]
  | |- preserves _ (if ?b then _ else _) => destruct b; cbv beta iota
  | |- preserves _ (match ?x with _ => _ end) => destruct x; cbv beta iota
  end.
Ltac preserve := repeat preserve_step.

Lemma preserves_reset : preserves (position_ok cfg) reset.
Proof. unfold reset. preserve. Qed.

Lemma preserves_spindle speed :
  preserves (position_ok cfg) (_spindle cfg speed).
Proof. unfold _spindle. preserve. Qed.

Lemma preserves_fan state : preserves (position_ok cfg) (_fan state).
Proof. unfold _fan. preserve. Qed.

Lemma preserves_heat sensors heater temperature wait :
  preserves (position_ok cfg) (_heat sensors heater temperature wait).
Proof. unfold _heat. destruct heater; cbv beta iota; preserve. Qed.

Lemma preserves_position : preserves (position_ok cfg) position.
Proof. unfold position. preserve. Qed.

Ltac preserve_all :=
  repeat first
    [ preserve_step
    | lazymatch goal with
      | |- preserves _ reset => apply preserves_reset
      | |- preserves _ (_spindle _ _) => apply preserves_spindle
      | |- preserves _ (_fan _) => apply preserves_fan
      | |- preserves _ (_heat _ _ _ _) => apply preserves_heat
      | |- preserves _ position => apply preserves_position
      end ].

Lemma preserves_do_command sensors gcode :
  preserves (position_ok cfg) (do_command cfg fsqrt sensors gcode).
Proof.
  unfold do_command. destruct gcode as [gcode|]; [|apply preserves_ret].
  apply preserves_bind; [apply preserves_get_self | intro s].
  cbv zeta. preserve_all.
Qed.

Lemma origin_ok : config_ok cfg = true -> position_ok cfg (new_machine).
Proof.
  intro H. unfold config_ok in H. reflect_Q.
  split; simpl.
  - apply is_in_aabb_iff. simpl. repeat split; lra.
  - repeat split; exists 0%Z; simpl; ring.
Qed.

Lemma run_ok session w :
  position_ok cfg w -> position_ok cfg (run cfg fsqrt w session).
Proof.
  revert w. induction session as [|[sensors gcode] rest IH]; intros w H.
  - exact H.
  - simpl. apply IH. apply preserves_do_command. exact H.
Qed.

End Preservation.

(** ** The travel envelope *)

(** C1: from the initial state, after every command of every session
    (a command that raises included: [run] keeps the world it leaves), the
    stored position lies in the envelope from (0,0,0,0) to
    (TABLE_SIZE_X_MM, TABLE_SIZE_Y_MM, TABLE_SIZE_Z_MM, 0).  A straight move
    leaves the world as it was, or the bounds check passed on the very
    position it stores; a circular move leaves the world as it was, or the
    bounds check passed on [position + delta] and that is the position it
    stores.  Every prefix of a session is a session, so the first part
    speaks of the position after each command. *)
Theorem position_stays_in_envelope (cfg : Config) (fsqrt : Q -> Q) :
  config_ok cfg = true ->
  (forall session,
     in_envelope cfg (_position (self (run cfg fsqrt new_machine session)))) /\
  (forall delta velocity w,
     let w' := fst (_move_linear cfg delta velocity w) in
     w' = w \/
     (Coordinates.is_in_aabb (_position (self w) +c quantize cfg delta)
                             origin (table cfg) = true /\
      _position (self w') = _position (self w) +c quantize cfg delta)) /\
  (forall delta radius velocity direction w,
     let w' := fst (_circular cfg fsqrt delta radius velocity direction w) in
     w' = w \/
     (Coordinates.is_in_aabb (_position (self w) +c quantize cfg delta)
                             origin (table cfg) = true /\
      _position (self w') =c _position (self w) +c quantize cfg delta)).
Proof.
  intro Hcfg. split; [|split].
  - intro session.
    apply (run_ok cfg fsqrt session new_machine (origin_ok cfg Hcfg)).
  - intros delta velocity w. cbv zeta. rewrite move_linear_eq. cbv zeta.
    destruct (Coordinates.is_zero _); [left; reflexivity|].
    destruct (Coordinates.is_in_aabb _ _ _) eqn:E; [|left; reflexivity].
    right. split; reflexivity.
  - intros delta radius velocity direction w. cbv zeta.
    rewrite circular_eq. cbv zeta.
    destruct (Coordinates.is_in_aabb _ _ _) eqn:E; [|left; reflexivity].
    destruct (snd (adjusted cfg fsqrt w _ _ _)); [|left; reflexivity].
    right. split; [reflexivity|]. simpl. apply add_end_residual.
Qed.

Lemma position_stays_in_envelope_witness :
  config_ok sample_config = true /\
  in_envelope sample_config
    (_position (self (run sample_config sqrt_floor new_machine
       [(no_sensors, Some (line (Some "G1"%string) [("X"%string, 10)]));
        (no_sensors, Some (line (Some "G1"%string) [("X"%string, 1000)]));
        (no_sensors, Some (line (Some "G2"%string) [("Y"%string, 10);
                                             ("J"%string, 5)]))]))).
Proof.
  split; [reflexivity|].
  apply (proj1 (position_stays_in_envelope sample_config sqrt_floor eq_refl)).
Defined.

(** ** Straight moves *)

(** C2: a straight move whose quantized delta would take the position
    (inside the envelope now) outside it on some axis raises the
    out-of-range fault and leaves the world as it was: no call to the
    hardware layer, the same stored position. *)
Theorem linear_move_out_of_range (cfg : Config) (delta : Coordinates)
    (velocity : Q) (w : World) :
  in_envelope cfg (_position (self w)) ->
  Coordinates.is_in_aabb (_position (self w) +c quantize cfg delta)
                         origin (table cfg) = false ->
  _move_linear cfg delta velocity w =
  (w, Raise (GMachineException "out of effective area")).
Proof.
  intros Hin Hout. rewrite move_linear_eq. cbv zeta. rewrite Hout.
  destruct (Coordinates.is_zero _) eqn:Hz; [|reflexivity].
  apply is_zero_iff in Hz.
  rewrite (is_in_aabb_equiv _ _ _ _ (add_zero _ _ Hz)) in Hout.
  unfold in_envelope in Hin. congruence.
Qed.

Lemma linear_move_out_of_range_witness :
  _move_linear sample_config (Coordinates.mk 0 (-5) 0 0) 500 new_machine =
  (new_machine, Raise (GMachineException "out of effective area")).
Proof.
  apply (linear_move_out_of_range sample_config (Coordinates.mk 0 (-5) 0 0)
           500 new_machine); reflexivity.
Defined.

(** C7: a straight move whose delta quantizes to zero returns normally and
    leaves the world as it was: the same stored position and no motion
    segment handed to the hardware layer. *)
Theorem linear_move_zero_delta (cfg : Config) (delta : Coordinates)
    (velocity : Q) (w : World) :
  Coordinates.is_zero (quantize cfg delta) = true ->
  _move_linear cfg delta velocity w = (w, Ok tt).
Proof.
  intro Hz. rewrite move_linear_eq. cbv zeta. rewrite Hz. reflexivity.
Qed.

Lemma linear_move_zero_delta_witness :
  _move_linear sample_config (Coordinates.mk (1 # 1000) 0 (-1 # 900) 0) 500
               new_machine = (new_machine, Ok tt).
Proof.
  apply (linear_move_zero_delta sample_config
           (Coordinates.mk (1 # 1000) 0 (-1 # 900) 0) 500 new_machine).
  reflexivity.
Defined.

(** ** Circular moves *)

Lemma sqrt_floor_zero (v : Q) : v == 0 -> sqrt_floor v == 0.
Proof.
  destruct v as [n d]. unfold Qeq, sqrt_floor. simpl. intro H.
  assert (n = 0%Z) by lia. subst n. reflexivity.
Qed.

Lemma sqrt_floor_positive (v : Q) : 0 <= v -> sqrt_floor v == 0 -> v == 0.
Proof.
  destruct v as [n d]. unfold Qle, Qeq, sqrt_floor. simpl. intros Hn H.
  assert (Hs : Z.sqrt (n * Z.pos d) = 0%Z) by lia.
  assert (Hnd : (0 <= n * Z.pos d)%Z) by nia.
  pose proof (Z.sqrt_spec _ Hnd) as Hspec. rewrite Hs in Hspec.
  simpl in Hspec. nia.
Qed.

Lemma squares_zero (a b : Q) : a * a + b * b == 0 -> a == 0 /\ b == 0.
Proof.
  intro H. split.
  - destruct (Qeq_dec a 0) as [E|E]; [exact E|].
    assert (0 < a * a) by (destruct (Qlt_le_dec a 0); nra). nra.
  - destruct (Qeq_dec b 0) as [E|E]; [exact E|].
    assert (0 < b * b) by (destruct (Qlt_le_dec b 0); nra). nra.
Qed.

(** What the passed bounds check says about the plane's two axes. *)
Lemma in_plane_bounds (cfg : Config) (p : Plane) (v : Coordinates) :
  Coordinates.is_in_aabb v origin (table cfg) = true ->
  0 <= fst (in_plane p v) <= fst (in_plane p (table cfg)) /\
  0 <= snd (in_plane p v) <= snd (in_plane p (table cfg)).
Proof.
  intro H. apply is_in_aabb_iff in H. simpl in H.
  destruct p; simpl; tauto.
Qed.

Lemma in_plane_add (p : Plane) (a b : Coordinates) :
  fst (in_plane p (a +c b)) = fst (in_plane p a) + fst (in_plane p b) /\
  snd (in_plane p (a +c b)) = snd (in_plane p a) + snd (in_plane p b).
Proof. destruct p; split; reflexivity. Qed.

(** C3: a circular move whose quantized delta is zero in both components of
    the active plane (and whose radius is not zero, so that the walk is
    reached): the end quarter is 5, which [__quarter] never returns; the walk
    of [__adjust_circle] is never left by [break], it takes the four steps,
    ends in the quarter it started from, and fails exactly when one of the
    four boundary tests holds.  Whenever one of the four tests holds the
    command raises the out-of-range fault and leaves the world as it was, so
    no segment has gone to the hardware layer. *)
Theorem full_circle_walks_all_quadrants (cfg : Config) (fsqrt : Q -> Q)
    (delta radius : Coordinates) (velocity : Q)
    (direction : RotationDirection) (w : World) :
  (forall v, 0 <= v -> fsqrt v == 0 -> v == 0) ->
  let p := _plane (self w) in
  let d := quantize cfg delta in
  let rd := quantize cfg radius in
  let da := fst (in_plane p d) in
  let db := snd (in_plane p d) in
  let ra := fst (in_plane p rd) in
  let rb := snd (in_plane p rd) in
  let pa := fst (in_plane p (_position (self w))) in
  let pb := snd (in_plane p (_position (self w))) in
  let ma := fst (in_plane p (table cfg)) in
  let mb := snd (in_plane p (table cfg)) in
  let r := fsqrt (ra * ra + rb * rb) in
  let sq := __quarter (- ra) (- rb) in
  let any := (pa + ra + r >? ma) || (pb + rb + r >? mb) ||
             (pa + ra - r <? 0) || (pb + rb - r <? 0) in
  da == 0 -> db == 0 ->
  (forall a b, __quarter a b <> 5%Z) /\
  (~ r == 0 ->
   walk 4 direction 5 ra rb r pa pb ma mb sq sq w =
   (w, if any then Raise (GMachineException "out of effective area")
       else Ok (sq, sq))) /\
  (~ r == 0 ->
   __adjust_circle fsqrt da db ra rb direction pa pb ma mb w =
   (w, if any then Raise (GMachineException "out of effective area")
       else Ok (da, db))) /\
  (any = true ->
   _circular cfg fsqrt delta radius velocity direction w =
   (w, Raise (GMachineException "out of effective area"))).
Proof.
  intros Hsqrt p d rd da db ra rb pa pb ma mb r sq any Ha Hb.
  change any with (any_crossing ra rb r pa pb ma mb).
  split; [|split; [|split]].
  - intros a b H. destruct (quarter_cases a b) as [E | [E | [E | E]]];
      rewrite E in H; discriminate.
  - intros _. apply walk_full_circle. apply quarter_cases.
  - intro Hr. apply adjust_circle_full; assumption.
  - intro Hany. rewrite circular_eq. cbv zeta.
    destruct (Coordinates.is_in_aabb _ _ _) eqn:Hin; [|reflexivity].
    destruct (Qeq_dec r 0) as [Hr | Hr].
    + exfalso.
      destruct (squares_zero ra rb
                  (Hsqrt _ (sum_squares_nonneg ra rb) Hr)) as [Hra Hrb].
      destruct (in_plane_bounds cfg p _ Hin) as [Hx Hy].
      destruct (in_plane_add p (_position (self w)) d) as [Ex Ey].
      unfold any_crossing, over_right, over_top, over_left, over_bottom
        in Hany.
      rewrite !orb_true_iff in Hany.
      unfold pa, pb, ma, mb, da, db, ra, rb, r, d, rd, p in *.
      rewrite Ex in Hx. rewrite Ey in Hy.
      destruct Hany as [[[H | H] | H] | H]; reflect_Q; lra.
    + unfold adjusted. fold p da db ra rb pa pb ma mb.
      rewrite adjust_circle_full by assumption.
      match goal with
      | |- context [if ?c then _ else _] =>
          change c with (any_crossing ra rb r pa pb ma mb)
      end.
      rewrite Hany. reflexivity.
Qed.

Lemma full_circle_walks_all_quadrants_witness :
  _circular sample_config sqrt_floor (Coordinates.mk 0 0 0 0)
            (Coordinates.mk 5 0 0 0) 500 CW new_machine =
  (new_machine, Raise (GMachineException "out of effective area")).
Proof.
  refine (proj2 (proj2 (proj2
    (full_circle_walks_all_quadrants sample_config sqrt_floor
       (Coordinates.mk 0 0 0 0) (Coordinates.mk 5 0 0 0) 500 CW new_machine
       sqrt_floor_positive _ _))) _); reflexivity.
Defined.

(** C4, as stated, fails: the bounds check on the requested end point comes
    before the radius is looked at.  With a zero radius and a target 1000 mm
    along X on a 200 mm table the command raises the out-of-range fault, not
    the zero-radius one. *)
Lemma zero_radius_after_bounds_check :
  in_plane PLANE_XY (quantize sample_config (Coordinates.mk 0 0 0 0)) =
    (0 # 400, 0 # 400) /\
  _circular sample_config sqrt_floor (Coordinates.mk 1000 0 0 0)
            (Coordinates.mk 0 0 0 0) 500 CW new_machine =
  (new_machine, Raise (GMachineException "out of effective area")) /\
  snd (_circular sample_config sqrt_floor (Coordinates.mk 1000 0 0 0)
                 (Coordinates.mk 0 0 0 0) 500 CW new_machine) <>
  Raise (GMachineException "circle radius is zero").
Proof.
  split; [reflexivity|]. split; [reflexivity|].
  vm_compute. discriminate.
Qed.

(** C4, amended: a circular move whose quantized radius is zero in both
    components of the active plane always raises a machine fault and leaves
    the world as it was: the zero-radius fault when the requested end point
    [position + delta] lies in the travel envelope, the out-of-range fault
    when it does not. *)
Theorem zero_radius_circular (cfg : Config) (fsqrt : Q -> Q)
    (delta radius : Coordinates) (velocity : Q)
    (direction : RotationDirection) (w : World) :
  (forall v, v == 0 -> fsqrt v == 0) ->
  let p := _plane (self w) in
  fst (in_plane p (quantize cfg radius)) == 0 ->
  snd (in_plane p (quantize cfg radius)) == 0 ->
  _circular cfg fsqrt delta radius velocity direction w =
  (w, Raise (GMachineException
       (if Coordinates.is_in_aabb (_position (self w) +c quantize cfg delta)
                                  origin (table cfg)
        then "circle radius is zero" else "out of effective area"))).
Proof.
  intros Hsqrt p Ha Hb. rewrite circular_eq. cbv zeta.
  destruct (Coordinates.is_in_aabb _ _ _); [|reflexivity].
  unfold adjusted. fold p.
  rewrite adjust_circle_zero_radius; [reflexivity|].
  apply Hsqrt. rewrite Ha, Hb. ring.
Qed.

Lemma zero_radius_circular_witness :
  _circular sample_config sqrt_floor (Coordinates.mk 10 0 0 0)
            (Coordinates.mk (1 # 1000) 0 7 0) 500 CCW new_machine =
  (new_machine, Raise (GMachineException "circle radius is zero")).
Proof.
  apply (zero_radius_circular sample_config sqrt_floor
           (Coordinates.mk 10 0 0 0) (Coordinates.mk (1 # 1000) 0 7 0)
           500 CCW new_machine sqrt_floor_zero); reflexivity.
Defined.

(** C5: the quotient [(db - rb) / (da - ra)] is taken with no test of its
    divisor.  A circular move raises [ZeroDivisionError], which is no
    [GMachineException], exactly when the bounds check on the requested end
    point passes, the radius is not zero, the in-plane delta is not zero in
    both components and its first component equals the radius's; the world
    is then as it was.  So the error cannot occur only if [da <> ra].  The
    arc [G2 Y10 J5] from the origin (delta (0, 10), radius (0, 5)) is such an
    input. *)
Theorem circular_division_by_zero :
  (forall (cfg : Config) (fsqrt : Q -> Q) (delta radius : Coordinates)
          (velocity : Q) (direction : RotationDirection) (w : World),
     let p := _plane (self w) in
     let d := quantize cfg delta in
     let rd := quantize cfg radius in
     let da := fst (in_plane p d) in
     let db := snd (in_plane p d) in
     let ra := fst (in_plane p rd) in
     let rb := snd (in_plane p rd) in
     let result := _circular cfg fsqrt delta radius velocity direction w in
     (snd result = Raise ZeroDivisionError <->
      Coordinates.is_in_aabb (_position (self w) +c d) origin (table cfg)
        = true /\
      ~ fsqrt (ra * ra + rb * rb) == 0 /\
      ~ (da == 0 /\ db == 0) /\
      da == ra) /\
     (snd result = Raise ZeroDivisionError -> fst result = w)) /\
  (forall msg, ZeroDivisionError <> GMachineException msg) /\
  do_command sample_config sqrt_floor no_sensors
    (Some (line (Some "G2"%string) [("Y"%string, 10); ("J"%string, 5)]))
    new_machine =
  (new_machine, Raise ZeroDivisionError).
Proof.
  split; [|split; [discriminate | reflexivity]].
  intros cfg fsqrt delta radius velocity direction w p d rd da db ra rb result.
  assert (Hcases :
    (Coordinates.is_in_aabb (_position (self w) +c d) origin (table cfg)
       = true /\
     ~ fsqrt (ra * ra + rb * rb) == 0 /\ ~ (da == 0 /\ db == 0) /\ da == ra) /\
    result = (w, Raise ZeroDivisionError) \/
    ~ (Coordinates.is_in_aabb (_position (self w) +c d) origin (table cfg)
         = true /\
       ~ fsqrt (ra * ra + rb * rb) == 0 /\ ~ (da == 0 /\ db == 0) /\
       da == ra) /\
    snd result <> Raise ZeroDivisionError).
  { unfold result. rewrite circular_eq. cbv zeta. fold d rd.
    destruct (Coordinates.is_in_aabb _ _ _) eqn:Hin;
      [|right; split; [intros (H & _); discriminate | discriminate]].
    unfold adjusted. fold p da db ra rb.
    destruct (Qeq_dec (fsqrt (ra * ra + rb * rb)) 0) as [Hr | Hr].
    { rewrite adjust_circle_zero_radius by exact Hr.
      right. split; [tauto | discriminate]. }
    destruct (Qeq_dec da ra) as [Heq | Hne].
    - destruct (Qeq_dec da 0) as [Ha | Ha];
        [destruct (Qeq_dec db 0) as [Hb | Hb]|].
      + rewrite adjust_circle_full by assumption.
        right. split; [tauto|].
        destruct (any_crossing _ _ _ _ _ _ _); discriminate.
      + left. rewrite adjust_circle_division by tauto. tauto.
      + left. rewrite adjust_circle_division by tauto. tauto.
    - right. split; [tauto|].
      pose proof (adjust_circle_no_division fsqrt da db ra rb direction
                    (fst (in_plane p (_position (self w))))
                    (snd (in_plane p (_position (self w))))
                    (fst (in_plane p (table cfg)))
                    (snd (in_plane p (table cfg))) w Hne) as Hno.
      destruct (snd (__adjust_circle _ _ _ _ _ _ _ _ _ _ _)) as [ab|err];
        [discriminate|].
      simpl. intro H. apply Hno. injection H as ->. reflexivity. }
  destruct Hcases as [[Hc Hres] | [Hc Hres]].
  - rewrite Hres. simpl. tauto.
  - split; [split; [intro H; contradiction | intro H; contradiction]|].
    intro H. contradiction.
Qed.

(** ** Quantization *)

Lemma py_round_integer (q : Q) (n : Z) : q == inject_Z n -> py_round q = n.
Proof.
  intro H. unfold py_round.
  assert (Hf : Qfloor q = n) by (rewrite H; apply Qfloor_Z).
  rewrite Hf.
  assert (Hd : (q - inject_Z n <? 1 # 2) = true)
    by (apply Qlt_bool_iff; rewrite H; lra).
  rewrite Hd. reflexivity.
Qed.

Lemma round1_idempotent (v base : Q) :
  Coordinates.round1 (Coordinates.round1 v base) base =
  Coordinates.round1 v base.
Proof.
  unfold Coordinates.round1 at 1 3.
  f_equal. f_equal. apply py_round_integer.
  unfold Coordinates.round1.
  destruct (Qeq_dec base 0) as [Hb | Hb].
  - assert (Hk : py_round (v / base) = 0%Z).
    { apply py_round_integer. rewrite Hb. unfold Qdiv.
      change (/ 0) with 0. change (inject_Z 0) with 0. ring. }
    rewrite Hk, Hb. unfold Qdiv. change (/ 0) with 0.
    change (inject_Z 0) with 0. ring.
  - field. exact Hb.
Qed.

(** [py_round] returns an integer nearest to its argument. *)
Lemma py_round_nearest (q : Q) (k : Z) :
  Qabs (inject_Z (py_round q) - q) <= Qabs (inject_Z k - q).
Proof.
  pose proof (Qfloor_le q) as Hlo. pose proof (Qlt_floor q) as Hhi.
  set (f := Qfloor q) in *.
  rewrite inject_Z_plus in Hhi. change (inject_Z 1) with 1 in Hhi.
  assert (Hk : inject_Z k <= inject_Z f \/ inject_Z f + 1 <= inject_Z k).
  { destruct (Z_le_gt_dec k f) as [H | H].
    - left. rewrite <- Zle_Qle. exact H.
    - right. change 1 with (inject_Z 1). rewrite <- inject_Z_plus.
      rewrite <- Zle_Qle. lia. }
  unfold py_round. fold f.
  destruct (q - inject_Z f <? 1 # 2) eqn:E1;
    [|destruct ((1 # 2) <? q - inject_Z f) eqn:E2;
      [|destruct (Z.even f)]];
    rewrite ?inject_Z_plus; change (inject_Z 1) with 1; reflect_Q;
    apply Qabs_case; intro; apply Qabs_case; intro; lra.
Qed.

(** Modelled [Coordinates.round] does what section 4.1 asks of it: for a
    positive resolution the result is a multiple of the resolution, and no
    multiple is nearer to the component. *)
Lemma round1_nearest (v base : Q) (k : Z) :
  0 < base ->
  Qabs (Coordinates.round1 v base - v) <= Qabs (inject_Z k * base - v).
Proof.
  intro Hb. unfold Coordinates.round1.
  set (n := inject_Z (py_round (v / base))).
  assert (E1 : n * base - v == (n - v / base) * base) by (field; lra).
  assert (E2 : inject_Z k * base - v == (inject_Z k - v / base) * base)
    by (field; lra).
  rewrite E1, E2, !Qabs_Qmult.
  apply Qmult_le_compat_r; [apply py_round_nearest | apply Qabs_nonneg].
Qed.

(** C9: quantizing a vector that is already quantized gives the same
    vector, for every vector and every four resolutions:
    round(round(v, r), r) = round(v, r). *)
Theorem quantization_idempotent (v : Coordinates)
    (base_x base_y base_z base_e : Q) :
  Coordinates.round (Coordinates.round v base_x base_y base_z base_e)
                    base_x base_y base_z base_e =
  Coordinates.round v base_x base_y base_z base_e.
Proof.
  unfold Coordinates.round. simpl.
  rewrite !round1_idempotent. reflexivity.
Qed.

(** ** Commands that move nothing *)

(** Evaluates the comparisons of a known command word with the names the
    dispatcher tests. *)
Ltac dispatch :=
  repeat match goal with
  | |- context [command_is (Some ?a) ?b] =>
      let v := eval vm_compute in (command_is (Some a) b) in
      change (command_is (Some a) b) with v
  end;
  cbn [orb andb negb].

Lemma do_command_G20 cfg fsqrt sensors gcode w :
  GCode.command gcode = Some "G20"%string ->
  do_command cfg fsqrt sensors (Some gcode) w =
  assigns cfg gcode (set_convertCoordinates (254 # 10)) w.
Proof.
  intro Hc. unfold do_command, assigns. rewrite Hc. cbv zeta.
  unfold bind at 1, get_self at 1.
  destruct (_ || _); [reflexivity|]. destruct (_ <? 0); [reflexivity|].
  dispatch. reflexivity.
Qed.

Lemma do_command_G21 cfg fsqrt sensors gcode w :
  GCode.command gcode = Some "G21"%string ->
  do_command cfg fsqrt sensors (Some gcode) w =
  assigns cfg gcode (set_convertCoordinates 1) w.
Proof.
  intro Hc. unfold do_command, assigns. rewrite Hc. cbv zeta.
  unfold bind at 1, get_self at 1.
  destruct (_ || _); [reflexivity|]. destruct (_ <? 0); [reflexivity|].
  dispatch. reflexivity.
Qed.

Lemma do_command_program_end cfg fsqrt sensors gcode w :
  GCode.command gcode = Some "M2"%string \/
  GCode.command gcode = Some "M30"%string ->
  do_command cfg fsqrt sensors (Some gcode) w =
  assigns cfg gcode reset_machine w.
Proof.
  intros [Hc | Hc]; unfold do_command, assigns; rewrite Hc; cbv zeta;
    unfold bind at 1, get_self at 1;
    (destruct (_ || _); [reflexivity|]); (destruct (_ <? 0); [reflexivity|]);
    dispatch; reflexivity.
Qed.

(** C10, as stated, fails: the multiplier is not the only thing a
    unit-select command changes.  Like every command that succeeds it stores
    the line's [F] and [P] as the new feed and pause: [G20 F500 P2] on a new
    machine sets the multiplier to 25.4 and also takes the feed from 1000 to
    500 and the pause from 0 to 2. *)
Lemma unit_select_stores_feed_and_pause :
  let result :=
    do_command sample_config sqrt_floor no_sensors
      (Some (line (Some "G20"%string)
               [("F"%string, 500); ("P"%string, 2)])) new_machine in
  let s := self new_machine in
  let s' := self (fst result) in
  snd result = Ok None /\
  _convertCoordinates s' = (254 # 10) /\
  _velocity s = 1000 /\ _velocity s' = 500 /\
  _pause s = 0 /\ _pause s' = 2 /\
  ~ _velocity s' == _velocity s /\ ~ _pause s' == _pause s.
Proof.
  cbv zeta. repeat split; try reflexivity; vm_compute; discriminate.
Qed.

(** C10, amended: a unit-select command ([G20] inches, [G21] millimetres)
    hands nothing to the hardware layer and leaves the stored position, the
    local offset, the coordinate mode, the plane, the spindle speed, the fan
    state and the heaters as they were.  When it succeeds the multiplier is
    25.4 or 1.0, and the feed and pause defaults are the line's [F] and [P]
    (the old ones when the line has none), as after every successful
    command; when a parameter test fails the whole world is as it was. *)
Theorem unit_select_changes_multiplier (cfg : Config) (fsqrt : Q -> Q)
    (sensors : Sensors) (gcode : GCode) (w : World) :
  GCode.command gcode = Some "G20"%string \/
  GCode.command gcode = Some "G21"%string ->
  let result := do_command cfg fsqrt sensors (Some gcode) w in
  let s := self w in
  let s' := self (fst result) in
  (calls (fst result) = calls w /\
   _position s' = _position s /\
   _local s' = _local s /\
   _absoluteCoordinates s' = _absoluteCoordinates s /\
   _plane s' = _plane s /\
   _spindle_rpm s' = _spindle_rpm s /\
   _fan_state s' = _fan_state s /\
   _heaters s' = _heaters s) /\
  (snd result = Ok None ->
   _convertCoordinates s' =
     (if command_is (GCode.command gcode) "G20" then 254 # 10 else 1) /\
   _velocity s' = GCode.get gcode "F" (_velocity s) /\
   _pause s' = GCode.get gcode "P" (_pause s)) /\
  (snd result <> Ok None ->
   fst result = w /\ exists msg, snd result = Raise (GMachineException msg)).
Proof.
  intros Hc result s s'. unfold s', s, result. clear s' s result.
  destruct Hc as [Hc | Hc];
    [rewrite (do_command_G20 _ _ _ _ _ Hc)
    |rewrite (do_command_G21 _ _ _ _ _ Hc)];
    rewrite Hc; unfold assigns; cbv zeta;
    (destruct (_ || _); [|destruct (_ <? 0)]);
    cbn [fst snd self calls];
    (split; [repeat split|split]);
    first
      [ intros H; discriminate H
      | intros _; split; [reflexivity | eexists; reflexivity]
      | intros _; repeat split; reflexivity
      | intros H; exfalso; apply H; reflexivity ].
Qed.

Lemma unit_select_changes_multiplier_witness :
  let result :=
    do_command sample_config sqrt_floor no_sensors
      (Some (line (Some "G20"%string) [("F"%string, 500)])) new_machine in
  snd result = Ok None /\
  calls (fst result) = [] /\
  _position (self (fst result)) = Coordinates.mk 0 0 0 0 /\
  _convertCoordinates (self (fst result)) = 254 # 10 /\
  _velocity (self (fst result)) = 500.
Proof.
  pose proof (unit_select_changes_multiplier sample_config sqrt_floor
                no_sensors (line (Some "G20"%string) [("F"%string, 500)])
                new_machine (or_introl eq_refl)) as H.
  cbv zeta in H. destruct H as ((Hcalls & Hpos & _) & Hok & _).
  split; [reflexivity|].
  destruct (Hok eq_refl) as (Hconv & Hvel & _).
  repeat split; assumption.
Defined.

(** ** Program end *)

(** C6 does not hold of the code: [do_command] reads [F] and [P] (or the
    stored feed and pause) before it dispatches, and assigns them after
    [reset()] has run.  After the line [F500 P3] the bare command [M2]
    succeeds and leaves feed 500 and pause 3, not the reset values 1000 and
    0; the other program-configurable fields are reset. *)
Theorem program_end_keeps_feed_and_pause :
  let w1 := run sample_config sqrt_floor new_machine
              [(no_sensors, Some (line None [("F"%string, 500);
                                             ("P"%string, 3)]))] in
  let result := do_command sample_config sqrt_floor no_sensors
                  (Some (line (Some "M2"%string) [])) w1 in
  let s := self (fst result) in
  snd result = Ok None /\
  _velocity s = 500 /\ _pause s = 3 /\
  ~ _velocity s == 1000 /\ ~ _pause s == 0 /\
  _spindle_rpm s = 1000 /\ _local s = Coordinates.mk 0 0 0 0 /\
  _convertCoordinates s = 1 /\ _absoluteCoordinates s = true /\
  _plane s = PLANE_XY.
Proof.
  cbv zeta. repeat split; try reflexivity; vm_compute; discriminate.
Qed.

(** What a successful program end leaves, for any machine and line: the
    reset values, except the feed and the pause. *)
Lemma program_end_state cfg fsqrt sensors gcode w :
  GCode.command gcode = Some "M2"%string \/
  GCode.command gcode = Some "M30"%string ->
  snd (do_command cfg fsqrt sensors (Some gcode) w) = Ok None ->
  self (fst (do_command cfg fsqrt sensors (Some gcode) w)) =
  set_pause (GCode.get gcode "P" (_pause (self w)))
    (set_velocity (GCode.get gcode "F" (_velocity (self w)))
       (reset_machine (self w))).
Proof.
  intros Hc. rewrite (do_command_program_end _ _ _ _ _ Hc).
  unfold assigns. cbv zeta.
  destruct (_ || _); [discriminate|]. destruct (_ <? 0); [discriminate|].
  reflexivity.
Qed.

(** ** Homing *)

Lemma round1_on_grid (v base : Q) (k : Z) :
  v == inject_Z k * base -> Coordinates.round1 v base == v.
Proof.
  intro H. unfold Coordinates.round1.
  destruct (Qeq_dec base 0) as [Hb | Hb].
  - assert (Hv : v == 0) by (rewrite H, Hb; ring).
    generalize (inject_Z (py_round (v / base))). intro c.
    rewrite Hv, Hb. ring.
  - assert (Hk : py_round (v / base) = k).
    { apply py_round_integer. rewrite H. field. exact Hb. }
    rewrite Hk, H. reflexivity.
Qed.

Lemma quantize_on_grid (cfg : Config) (v : Coordinates) :
  on_grid cfg v -> quantize cfg v =c v.
Proof.
  intros ([k1 K1] & [k2 K2] & [k3 K3] & [k4 K4]).
  repeat split; simpl; eapply round1_on_grid; eassumption.
Qed.

Lemma is_zero_equiv (a b : Coordinates) :
  a =c b -> Coordinates.is_zero a = Coordinates.is_zero b.
Proof.
  intro H. apply eq_true_iff_eq. rewrite !is_zero_iff.
  split; intro K.
  - apply (equiv_trans _ _ _ (equiv_sym _ _ H) K).
  - apply (equiv_trans _ _ _ H K).
Qed.

Lemma Qeq_bool_equiv (a b c : Q) : a == b -> (a =? c) = (b =? c).
Proof.
  intro H. apply eq_true_iff_eq. rewrite !Qeq_bool_iff. rewrite H. tauto.
Qed.

Lemma Qeq_bool_opp (a : Q) : (- a =? 0) = (a =? 0).
Proof.
  apply eq_true_iff_eq. rewrite !Qeq_bool_iff. split; intro H; lra.
Qed.

(** A straight move by a vector of whole steps to a point of the envelope
    succeeds; it hands over one segment unless the vector is zero. *)
Lemma move_linear_on_grid (cfg : Config) (delta : Coordinates) (velocity : Q)
    (w : World) :
  on_grid cfg delta ->
  in_envelope cfg (_position (self w) +c delta) ->
  exists w',
    _move_linear cfg delta velocity w = (w', Ok tt) /\
    _position (self w') =c _position (self w) +c delta /\
    quantize cfg delta =c delta /\
    calls w' =
      calls w ++
      (if Coordinates.is_zero delta then []
       else [hal_move (PulseGeneratorLinear (quantize cfg delta) velocity)]).
Proof.
  intros Hg Hin. pose proof (quantize_on_grid cfg delta Hg) as Hq.
  assert (Hadd : _position (self w) +c quantize cfg delta =c
                 _position (self w) +c delta).
  { destruct Hq as (H1 & H2 & H3 & H4). unfold Coordinates.equiv. simpl.
    rewrite H1, H2, H3, H4. repeat split; reflexivity. }
  rewrite move_linear_eq. cbv zeta.
  rewrite (is_zero_equiv _ _ Hq).
  destruct (Coordinates.is_zero delta) eqn:Hz.
  - exists w. split; [reflexivity|]. split; [|split; [exact Hq|]].
    + apply equiv_sym, add_zero, is_zero_iff, Hz.
    + symmetry. apply app_nil_r.
  - rewrite (is_in_aabb_equiv _ _ _ _ Hadd). rewrite Hin.
    eexists. split; [reflexivity|]. split; [exact Hadd|].
    split; [exact Hq | reflexivity].
Qed.

Lemma round1_zero (v base : Q) : v == 0 -> Coordinates.round1 v base == 0.
Proof.
  intro Hv. unfold Coordinates.round1.
  assert (Hk : py_round (v / base) = 0%Z).
  { apply py_round_integer. rewrite Hv. unfold Qdiv.
    change (inject_Z 0) with 0. ring. }
  rewrite Hk. change (inject_Z 0) with 0. ring.
Qed.

Lemma on_grid_opp (base v : Q) :
  (exists k, v == inject_Z k * base) -> exists k, - v == inject_Z k * base.
Proof.
  intros [k H]. exists (- k)%Z. rewrite H, inject_Z_opp. ring.
Qed.

Lemma home_from_ok (cfg : Config) (w : World) :
  position_ok cfg w ->
  let pos := _position (self w) in
  let vmax := STEPPER_MAX_VELOCITY_MM_PER_MIN cfg in
  exists w' dz dxy,
    home cfg w = (w', Ok tt) /\
    _position (self w') =c Coordinates.mk 0 0 0 (Coordinates.e pos) /\
    dz =c Coordinates.mk 0 0 (- Coordinates.z pos) 0 /\
    dxy =c Coordinates.mk (- Coordinates.x pos) (- Coordinates.y pos) 0 0 /\
    calls w' =
      calls w ++
      (if Coordinates.z pos =? 0 then []
       else [hal_move (PulseGeneratorLinear dz vmax)]) ++
      (if (Coordinates.x pos =? 0) && (Coordinates.y pos =? 0) then []
       else [hal_move (PulseGeneratorLinear dxy vmax)]).
Proof.
  intros [Hin Hg] pos vmax.
  pose proof Hin as Hb. apply is_in_aabb_iff in Hb. simpl in Hb.
  destruct Hb as (Hx & Hy & Hz & He). fold pos in Hx, Hy, Hz, He.
  destruct Hg as (Gx & Gy & Gz & Ge). fold pos in Gx, Gy, Gz, Ge.
  (* first move: Z to zero *)
  set (d1 := Coordinates.mk 0 0 (- Coordinates.z pos) 0).
  assert (Hg1 : on_grid cfg d1).
  { repeat split; simpl;
      [exists 0%Z; ring | exists 0%Z; ring | apply on_grid_opp; exact Gz
      | exists 0%Z; ring]. }
  assert (Hin1 : in_envelope cfg (pos +c d1)).
  { apply is_in_aabb_iff. simpl. repeat split; lra. }
  destruct (move_linear_on_grid cfg d1 vmax w Hg1 Hin1)
    as (w1 & Hm1 & Hp1 & Hq1 & Hc1).
  (* second move: X and Y to zero *)
  set (pos1 := _position (self w1)).
  destruct Hp1 as (P1x & P1y & P1z & P1e). fold pos pos1 in P1x, P1y, P1z, P1e.
  simpl in P1x, P1y, P1z, P1e.
  set (d2 := Coordinates.mk (- Coordinates.x pos1) (- Coordinates.y pos1) 0 0).
  assert (Hg2 : on_grid cfg d2).
  { repeat split; simpl.
    - apply on_grid_opp. destruct Gx as [k K]. exists k. rewrite P1x, K. ring.
    - apply on_grid_opp. destruct Gy as [k K]. exists k. rewrite P1y, K. ring.
    - exists 0%Z; ring.
    - exists 0%Z; ring. }
  assert (Hin2 : in_envelope cfg (pos1 +c d2)).
  { apply is_in_aabb_iff. simpl. rewrite P1z, P1e. repeat split; lra. }
  destruct (move_linear_on_grid cfg d2 vmax w1 Hg2 Hin2)
    as (w2 & Hm2 & Hp2 & Hq2 & Hc2).
  exists w2, (quantize cfg d1), (quantize cfg d2).
  split; [|split; [|split; [|split]]].
  - unfold home. unfold bind at 1, get_self at 1. fold pos d1 vmax.
    unfold bind at 1. rewrite Hm1.
    unfold bind at 1, get_self at 1. fold pos1 d2. exact Hm2.
  - apply (equiv_trans _ _ _ Hp2). fold pos1.
    unfold Coordinates.equiv. simpl. rewrite P1z, P1e.
    repeat split; ring.
  - exact Hq1.
  - apply (equiv_trans _ _ _ Hq2). unfold d2, Coordinates.equiv. simpl.
    rewrite P1x, P1y. repeat split; ring.
  - rewrite Hc2, Hc1. rewrite <- app_assoc. f_equal. f_equal.
    + unfold d1, Coordinates.is_zero. simpl.
      rewrite Qeq_bool_opp. change (0 =? 0) with true. simpl.
      rewrite andb_true_r. reflexivity.
    + unfold d2, Coordinates.is_zero. simpl.
      rewrite !Qeq_bool_opp. change (0 =? 0) with true.
      rewrite !andb_true_r.
      rewrite (Qeq_bool_equiv (Coordinates.x pos1) (Coordinates.x pos) 0)
        by (rewrite P1x; ring).
      rewrite (Qeq_bool_equiv (Coordinates.y pos1) (Coordinates.y pos) 0)
        by (rewrite P1y; ring).
      reflexivity.
Qed.

(** Where a straight move by a vector of whole steps ends when it
    returns. *)
Lemma move_linear_returns (cfg : Config) (delta : Coordinates)
    (velocity : Q) (w w' : World) :
  on_grid cfg delta ->
  _move_linear cfg delta velocity w = (w', Ok tt) ->
  _position (self w') =c _position (self w) +c delta.
Proof.
  intro Hg. pose proof (quantize_on_grid cfg delta Hg) as Hq.
  rewrite move_linear_eq. cbv zeta.
  destruct (Coordinates.is_zero (quantize cfg delta)) eqn:Hz.
  - intro H. injection H as <-. apply equiv_sym, add_zero.
    apply is_zero_iff in Hz.
    exact (equiv_trans _ _ _ (equiv_sym _ _ Hq) Hz).
  - destruct (Coordinates.is_in_aabb _ _ _); intro H; [|discriminate].
    injection H as <-. simpl.
    destruct Hq as (H1 & H2 & H3 & H4). unfold Coordinates.equiv. simpl.
    rewrite H1, H2, H3, H4. repeat split; reflexivity.
Qed.

(** Where [home()] ends when it returns, from any position of whole
    steps. *)
Lemma home_returns (cfg : Config) (w w' : World) :
  on_grid cfg (_position (self w)) ->
  home cfg w = (w', Ok tt) ->
  _position (self w') =c
    Coordinates.mk 0 0 0 (Coordinates.e (_position (self w))).
Proof.
  intros (Gx & Gy & Gz & Ge). unfold home.
  unfold bind at 1, get_self at 1. unfold bind at 1.
  destruct (_move_linear cfg _ _ w) as [w1 [[]|err]] eqn:Hm1;
    [|discriminate].
  unfold bind at 1, get_self at 1. intro Hm2.
  apply move_linear_returns in Hm1.
  2:{ repeat split; simpl;
        [exists 0%Z; ring | exists 0%Z; ring | apply on_grid_opp; exact Gz
        | exists 0%Z; ring]. }
  destruct Hm1 as (P1x & P1y & P1z & P1e). simpl in P1x, P1y, P1z, P1e.
  apply move_linear_returns in Hm2.
  2:{ repeat split; simpl.
      - apply on_grid_opp. destruct Gx as [k K]. exists k.
        rewrite P1x, K. ring.
      - apply on_grid_opp. destruct Gy as [k K]. exists k.
        rewrite P1y, K. ring.
      - exists 0%Z; ring.
      - exists 0%Z; ring. }
  apply (equiv_trans _ _ _ Hm2).
  unfold Coordinates.equiv. simpl. rewrite P1z, P1e.
  repeat split; ring.
Qed.

(** A straight move by a vector without aux component leaves the aux
    component of the stored position as it was, however the move ends. *)
Lemma move_linear_keeps_aux (cfg : Config) (delta : Coordinates)
    (velocity : Q) (w : World) :
  Coordinates.e delta == 0 ->
  Coordinates.e (_position (self (fst (_move_linear cfg delta velocity w))))
  == Coordinates.e (_position (self w)).
Proof.
  intro He. rewrite move_linear_eq. cbv zeta.
  destruct (Coordinates.is_zero _); [reflexivity|].
  destruct (Coordinates.is_in_aabb _ _ _); [|reflexivity].
  simpl. rewrite (round1_zero _ _ He). ring.
Qed.

Lemma home_keeps_aux (cfg : Config) (w : World) :
  Coordinates.e (_position (self (fst (home cfg w)))) ==
  Coordinates.e (_position (self w)).
Proof.
  unfold home. unfold bind at 1, get_self at 1. unfold bind at 1.
  pose proof (move_linear_keeps_aux cfg
                (Coordinates.mk 0 0 (- Coordinates.z (_position (self w))) 0)
                (STEPPER_MAX_VELOCITY_MM_PER_MIN cfg) w (Qeq_refl 0)) as H1.
  destruct (_move_linear _ _ _ w) as [w1 [[]|err]]; cbn [fst] in *;
    [|exact H1].
  unfold bind at 1, get_self at 1.
  eapply Qeq_trans; [|exact H1].
  apply move_linear_keeps_aux. reflexivity.
Qed.

(** C8: from the position any session leaves, [home()] returns normally.
    It first hands the hardware layer the straight segment that takes Z to
    zero (none when Z is zero already), then the one that takes X and Y to
    zero (none when both are zero), both at the maximal velocity, and the
    stored position is then (0, 0, 0, aux) with aux as before.  That aux is
    kept, and not set to zero, does not rest on the positions a session can
    leave: from any state [w0] on the step grid from which [home()] returns
    the stored position is then (0, 0, 0, aux) with the aux of [w0], and
    from any state whatever, however [home()] ends there, the aux component
    of the stored position is what it was. *)
Theorem home_returns_to_origin (cfg : Config) (fsqrt : Q -> Q)
    (session : list (Sensors * option GCode)) :
  config_ok cfg = true ->
  let w := run cfg fsqrt new_machine session in
  let pos := _position (self w) in
  let vmax := STEPPER_MAX_VELOCITY_MM_PER_MIN cfg in
  (exists w' dz dxy,
     home cfg w = (w', Ok tt) /\
     _position (self w') =c Coordinates.mk 0 0 0 (Coordinates.e pos) /\
     dz =c Coordinates.mk 0 0 (- Coordinates.z pos) 0 /\
     dxy =c Coordinates.mk (- Coordinates.x pos) (- Coordinates.y pos) 0 0 /\
     calls w' =
       calls w ++
       (if Coordinates.z pos =? 0 then []
        else [hal_move (PulseGeneratorLinear dz vmax)]) ++
       (if (Coordinates.x pos =? 0) && (Coordinates.y pos =? 0) then []
        else [hal_move (PulseGeneratorLinear dxy vmax)])) /\
  (forall w0 w0' : World,
     on_grid cfg (_position (self w0)) ->
     home cfg w0 = (w0', Ok tt) ->
     _position (self w0') =c
       Coordinates.mk 0 0 0 (Coordinates.e (_position (self w0)))) /\
  (forall w0 : World,
     Coordinates.e (_position (self (fst (home cfg w0)))) ==
     Coordinates.e (_position (self w0))).
Proof.
  intros Hcfg w. split; [|split].
  - apply home_from_ok. apply run_ok. apply origin_ok. exact Hcfg.
  - apply home_returns.
  - apply home_keeps_aux.
Qed.

Lemma home_returns_to_origin_witness :
  let w := run sample_config sqrt_floor new_machine
             [(no_sensors,
               Some (line (Some "G1"%string)
                       [("X"%string, 10); ("Y"%string, 20);
                        ("Z"%string, 5)]))] in
  let w0 := {| self := set_position (Coordinates.mk 0 0 0 7)
                                    (self new_machine);
               calls := [] |} in
  config_ok sample_config = true /\
  (exists w',
     home sample_config w = (w', Ok tt) /\
     _position (self w') =c
       Coordinates.mk 0 0 0 (Coordinates.e (_position (self w)))) /\
  home sample_config w0 = (w0, Ok tt) /\
  _position (self w0) =c Coordinates.mk 0 0 0 7 /\
  Coordinates.e (_position (self (fst (home sample_config w0)))) ==
  Coordinates.e (_position (self w0)).
Proof.
  intros w w0. split; [reflexivity|].
  destruct (home_returns_to_origin sample_config sqrt_floor
              [(no_sensors,
                Some (line (Some "G1"%string)
                        [("X"%string, 10); ("Y"%string, 20);
                         ("Z"%string, 5)]))] eq_refl)
    as ((w' & dz & dxy & Hhome & Hpos & _) & Hret & Haux).
  split; [|split; [|split]].
  - exists w'. split; [exact Hhome | exact Hpos].
  - reflexivity.
  - apply (Hret w0 w0); [|reflexivity].
    repeat split; simpl;
      [exists 0%Z | exists 0%Z | exists 0%Z | exists 1050%Z]; reflexivity.
  - exact (Haux w0).
Defined.

(** * Further properties of [do_command] *)

(** ** Parameter tests and unknown words *)

Lemma parameters_ok_tests cfg gcode s :
  parameters_ok cfg gcode s ->
  (GCode.get gcode "F" (_velocity s) <=? 0)
    || (GCode.get gcode "F" (_velocity s)
          >? STEPPER_MAX_VELOCITY_MM_PER_MIN cfg) = false /\
  (GCode.get gcode "P" (_pause s) <? 0) = false.
Proof.
  intros (H1 & H2 & H3). split.
  - apply orb_false_iff. split.
    + apply Qle_bool_false. exact H1.
    + apply Qgt_bool_false. exact H2.
  - apply Qlt_bool_false. exact H3.
Qed.

(** X1: the feed and the pause are tested before anything is dispatched.
    A line whose feed ([F], or the stored feed when it has none) is not
    positive or exceeds the maximal velocity, or whose pause is negative,
    raises "bad feed speed" (tested first) or "bad delay", whatever its
    command word, and leaves the world as it was. *)
Theorem bad_parameters_change_nothing (cfg : Config) (fsqrt : Q -> Q)
    (sensors : Sensors) (gcode : GCode) (w : World) :
  let velocity := GCode.get gcode "F" (_velocity (self w)) in
  let pause := GCode.get gcode "P" (_pause (self w)) in
  velocity <= 0 \/ STEPPER_MAX_VELOCITY_MM_PER_MIN cfg < velocity \/
  pause < 0 ->
  do_command cfg fsqrt sensors (Some gcode) w =
  (w, Raise (GMachineException
       (if (velocity <=? 0)
           || (velocity >? STEPPER_MAX_VELOCITY_MM_PER_MIN cfg)
        then "bad feed speed" else "bad delay"))).
Proof.
  intros velocity pause H. unfold do_command. cbv zeta.
  unfold bind at 1, get_self at 1. fold velocity pause.
  destruct ((velocity <=? 0) || _) eqn:Ev; [reflexivity|].
  destruct (pause <? 0) eqn:Ep; [reflexivity|].
  apply orb_false_iff in Ev. destruct Ev as [E1 E2]. reflect_Q.
  destruct H as [H | [H | H]]; lra.
Qed.

Lemma bad_parameters_change_nothing_witness :
  do_command sample_config sqrt_floor no_sensors
    (Some (line (Some "G28"%string) [("F"%string, 5000)])) new_machine =
  (new_machine, Raise (GMachineException "bad feed speed")).
Proof.
  apply (bad_parameters_change_nothing sample_config sqrt_floor no_sensors
           (line (Some "G28"%string) [("F"%string, 5000)]) new_machine).
  right. left. reflexivity.
Defined.

(** X2: a command word that is none of those [do_command] has a branch for
    raises "unknown command" when the parameter tests pass, and leaves the
    world as it was: its [F] and [P] are not stored. *)
Theorem unknown_command_changes_nothing (cfg : Config) (fsqrt : Q -> Q)
    (sensors : Sensors) (gcode : GCode) (name : string) (w : World) :
  GCode.command gcode = Some name ->
  existsb (String.eqb name) known_commands = false ->
  parameters_ok cfg gcode (self w) ->
  do_command cfg fsqrt sensors (Some gcode) w =
  (w, Raise (GMachineException "unknown command")).
Proof.
  intros Hc Hun Hp. apply parameters_ok_tests in Hp. destruct Hp as [Hv Hp].
  unfold do_command. cbv zeta. unfold bind at 1, get_self at 1.
  rewrite Hv, Hp, Hc. unfold command_is.
  cbn [existsb known_commands] in Hun.
  repeat (apply orb_false_iff in Hun;
          let H := fresh "E" in destruct Hun as [H Hun]; rewrite H).
  reflexivity.
Qed.

Lemma unknown_command_changes_nothing_witness :
  do_command sample_config sqrt_floor no_sensors
    (Some (line (Some "G5"%string) [("F"%string, 500)])) new_machine =
  (new_machine, Raise (GMachineException "unknown command")).
Proof.
  apply (unknown_command_changes_nothing sample_config sqrt_floor no_sensors
           (line (Some "G5"%string) [("F"%string, 500)]) "G5" new_machine).
  - reflexivity.
  - reflexivity.
  - unfold parameters_ok. simpl. repeat split; discriminate.
Defined.

(** X3: a line with coordinates and no command word is executed as the
    same line with the word [G1]; a line with neither only stores its [F]
    and [P], when they pass the tests. *)
Theorem line_without_command (cfg : Config) (fsqrt : Q -> Q)
    (sensors : Sensors) (gcode : GCode) (w : World) :
  GCode.command gcode = None ->
  do_command cfg fsqrt sensors (Some gcode) w =
  if GCode.has_coordinates gcode
  then do_command cfg fsqrt sensors (Some (with_command "G1" gcode)) w
  else assigns cfg gcode (fun s => s) w.
Proof.
  intro Hc. unfold do_command, assigns. cbn [with_command GCode.command
    GCode.has_coordinates GCode.coordinates GCode.radius GCode.get GCode.has].
  rewrite Hc. destruct (GCode.has_coordinates gcode); [reflexivity|].
  cbv zeta. unfold bind at 1, get_self at 1.
  destruct (_ || _); [reflexivity|]. destruct (_ <? 0); [reflexivity|].
  reflexivity.
Qed.

Lemma line_without_command_witness :
  do_command sample_config sqrt_floor no_sensors
    (Some (line None [("X"%string, 10)])) new_machine =
  do_command sample_config sqrt_floor no_sensors
    (Some (with_command "G1" (line None [("X"%string, 10)]))) new_machine.
Proof.
  apply (line_without_command sample_config sqrt_floor no_sensors
           (line None [("X"%string, 10)]) new_machine).
  reflexivity.
Defined.

(** ** Walking through a method body *)

Lemma preserves_adjust_circle P fsqrt da db ra rb direction pa pb ma mb :
  preserves P (__adjust_circle fsqrt da db ra rb direction pa pb ma mb).
Proof. intros w H. rewrite adjust_circle_world. exact H. Qed.

Lemma preserves_stop_each P keys :
  (forall h, preserves P (call (Heater_stop h))) ->
  preserves P (stop_each keys).
Proof.
  intro Hc. induction keys as [|h rest IH]; simpl.
  - apply preserves_ret.
  - apply preserves_bind; [apply Hc | intros _; exact IH].
Qed.

(** Splits the body of a method into its calls and assignments; [leaf]
    closes those, and the methods it knows a lemma for. *)
Ltac frame leaf :=
  repeat first
    [ leaf
    | lazymatch goal with
      | |- preserves _ (ret _) => apply preserves_ret
      | |- preserves _ (raise _) => apply preserves_raise
      | |- preserves _ get_self => apply preserves_get_self
      | |- preserves _ (py_div _ _) => apply preserves_py_div
      | |- preserves _ (__adjust_circle _ _ _ _ _ _ _ _ _ _) =>
          apply preserves_adjust_circle
      | |- preserves _ (bind _ _) => apply preserves_bind; [|intro]
      | |- preserves _ (if ?b then _ else _) =>
          destruct b eqn:?; cbv beta iota
      | |- preserves _ (match ?x with _ => _ end) =>
          destruct x eqn:?; cbv beta iota
      | |- preserves _ (__check_delta _ _) => unfold __check_delta; cbv zeta
      | |- preserves _ (_move_linear _ _ _) => unfold _move_linear; cbv zeta
      | |- preserves _ (_circular _ _ _ _ _ _) => unfold _circular; cbv zeta
      | |- preserves _ (home _) => unfold home; cbv zeta
      | |- preserves _ reset => unfold reset
      | |- preserves _ (_spindle _ _) => unfold _spindle
      | |- preserves _ (_fan _) => unfold _fan
      | |- preserves _ (_heat _ _ _ _) => unfold _heat; cbv zeta
      | |- preserves _ position => unfold position
      | |- preserves _ (do_command _ _ _ (Some _)) =>
          unfold do_command; cbv zeta
      end ].

(** The order facts behind the boolean tests among the hypotheses. *)
Ltac tests :=
  repeat match goal with
  | H : _ || _ = false |- _ => apply orb_false_iff in H; destruct H
  end;
  reflect_Q.

(** ** The stored feed and pause *)

Section Feed.

Variable cfg : Config.
Variable fsqrt : Q -> Q.
Hypothesis default_feed : 1000 <= STEPPER_MAX_VELOCITY_MM_PER_MIN cfg.

Lemma feed_call c : preserves (feed_ok cfg) (call c).
Proof. intros w H. exact H. Qed.

Lemma feed_update f :
  (forall s, _velocity (f s) = _velocity s) ->
  (forall s, _pause (f s) = _pause s) ->
  preserves (feed_ok cfg) (update f).
Proof.
  intros Hv Hp w H. unfold feed_ok, update. simpl. rewrite Hv, Hp. exact H.
Qed.

Lemma feed_set_velocity v :
  0 < v <= STEPPER_MAX_VELOCITY_MM_PER_MIN cfg ->
  preserves (feed_ok cfg) (update (set_velocity v)).
Proof. intros Hv w (H1 & H2 & H3). unfold feed_ok. simpl. tauto. Qed.

Lemma feed_set_pause p :
  0 <= p -> preserves (feed_ok cfg) (update (set_pause p)).
Proof. intros Hp w (H1 & H2 & H3). unfold feed_ok. simpl. tauto. Qed.

Ltac feed_leaf :=
  idtac;
  lazymatch goal with
  | |- preserves _ (call _) => apply feed_call
  | |- preserves _ (update (set_velocity _)) =>
      apply feed_set_velocity; tests; split; lra
  | |- preserves _ (update (set_pause _)) =>
      apply feed_set_pause; tests; lra
  | |- preserves _ (update _) => apply feed_update; reflexivity
  end.

Lemma feed_do_command sensors gcode :
  preserves (feed_ok cfg) (do_command cfg fsqrt sensors gcode).
Proof.
  destruct gcode as [gcode|]; [|apply preserves_ret].
  frame feed_leaf.
Qed.

Lemma feed_new_machine : feed_ok cfg new_machine.
Proof. unfold feed_ok. simpl. repeat split; lra. Qed.

Lemma feed_run session w :
  feed_ok cfg w -> feed_ok cfg (run cfg fsqrt w session).
Proof.
  revert w. induction session as [|[sensors gcode] rest IH]; intros w H.
  - exact H.
  - simpl. apply IH. apply feed_do_command. exact H.
Qed.

End Feed.

(** X4: on a machine whose maximal velocity is at least the default feed
    of 1000, the stored feed and pause pass the parameter tests after every
    command of every session: the feed is positive and at most the maximal
    velocity, the pause is not negative.  So a line without [F] and [P]
    never raises "bad feed speed" or "bad delay". *)
Theorem stored_feed_stays_valid (cfg : Config) (fsqrt : Q -> Q)
    (session : list (Sensors * option GCode)) (gcode : GCode) :
  1000 <= STEPPER_MAX_VELOCITY_MM_PER_MIN cfg ->
  let w := run cfg fsqrt new_machine session in
  feed_ok cfg w /\
  (GCode.get gcode "F" (_velocity (self w)) = _velocity (self w) ->
   GCode.get gcode "P" (_pause (self w)) = _pause (self w) ->
   parameters_ok cfg gcode (self w)).
Proof.
  intros Hmax w.
  assert (H : feed_ok cfg w)
    by (apply feed_run; [exact Hmax | apply feed_new_machine; exact Hmax]).
  split; [exact H|].
  intros Hf Hp. unfold parameters_ok. rewrite Hf, Hp. exact H.
Qed.

Lemma stored_feed_stays_valid_witness :
  feed_ok sample_config
    (run sample_config sqrt_floor new_machine
       [(no_sensors, Some (line (Some "G1"%string)
                             [("X"%string, 10); ("F"%string, 1500)]));
        (no_sensors, Some (line (Some "M2"%string) [("F"%string, 9000)]))]).
Proof.
  refine (proj1 (stored_feed_stays_valid sample_config sqrt_floor _
                   (line None []) _)).
  discriminate.
Defined.

(** ** Heaters and fan *)

Lemma Heaters_eqb_eq (a b : Heaters) : Heaters_eqb a b = true <-> a = b.
Proof. destruct a, b; simpl; split; intro H; congruence. Qed.

Lemma Heaters_eqb_refl (a : Heaters) : Heaters_eqb a a = true.
Proof. destruct a; reflexivity. Qed.

Lemma heater_in_del (h h0 : Heaters) (d : list (Heaters * Q)) :
  heater_in h (heater_del h0 d) = negb (Heaters_eqb h0 h) && heater_in h d.
Proof.
  induction d as [|[k t] d IH]; simpl.
  - destruct (Heaters_eqb h0 h); reflexivity.
  - destruct k, h0, h; simpl in *; rewrite ?IH; try reflexivity.
Qed.

Lemma heater_in_del_same (h0 : Heaters) (d : list (Heaters * Q)) :
  heater_in h0 (heater_del h0 d) = false.
Proof. rewrite heater_in_del, Heaters_eqb_refl. reflexivity. Qed.

Lemma heater_del_keys (h0 : Heaters) (d : list (Heaters * Q)) :
  NoDup (map fst d) ->
  NoDup (map fst (heater_del h0 d)) /\ ~ In h0 (map fst (heater_del h0 d)).
Proof.
  induction d as [|[k t] d IH]; simpl; intro H.
  - split; [constructor | tauto].
  - inversion H as [|? ? Hk Hd]; subst. destruct (IH Hd) as [IH1 IH2].
    destruct (Heaters_eqb k h0) eqn:E; simpl.
    + split; assumption.
    + split.
      * constructor; [|exact IH1]. intro Hin. apply Hk.
        clear - Hin. induction d as [|[k' t'] d IHd]; simpl in *; [tauto|].
        destruct (Heaters_eqb k' h0); simpl in *; tauto.
      * intros [Heq | Hin]; [|tauto]. subst k.
        rewrite Heaters_eqb_refl in E. discriminate.
Qed.

Lemma heater_set_absent h t d :
  heater_in h d = false -> heater_set h t d = d ++ [(h, t)].
Proof.
  induction d as [|[k v] d IH]; simpl; [reflexivity|].
  destruct (Heaters_eqb k h); simpl; [discriminate|].
  intro H. rewrite (IH H). reflexivity.
Qed.

Lemma heater_in_app h d d' :
  heater_in h (d ++ d') = heater_in h d || heater_in h d'.
Proof. apply existsb_app. Qed.

Lemma heater_absent_keys h d :
  heater_in h d = false -> ~ In h (map fst d).
Proof.
  induction d as [|[k v] d IH]; simpl; [tauto|].
  destruct (Heaters_eqb k h) eqn:E; simpl; [discriminate|].
  intros H [Heq | Hin]; [|exact (IH H Hin)].
  subst k. rewrite Heaters_eqb_refl in E. discriminate.
Qed.

Lemma heater_del_Forall (P : Heaters * Q -> Prop) h0 d :
  Forall P d -> Forall P (heater_del h0 d).
Proof.
  induction 1 as [|kv d Hkv Hd IH]; simpl; [constructor|].
  destruct (negb _); [constructor|]; assumption.
Qed.

Lemma heaters_ok_del cfg h0 d :
  heaters_ok cfg d -> heaters_ok cfg (heater_del h0 d).
Proof.
  intros [Hk Hf]. split.
  - apply heater_del_keys. exact Hk.
  - apply heater_del_Forall. exact Hf.
Qed.

Lemma running_app h l c :
  running h (l ++ [c]) = heater_step h (running h l) c.
Proof. unfold running. rewrite fold_left_app. reflexivity. Qed.

Lemma double_starts_app h l c : forall on,
  double_starts h on (l ++ [c]) =
  (double_starts h on l +
   match c with
   | Heater_start h' _ =>
       if Heaters_eqb h' h && fold_left (heater_step h) l on then 1 else 0
   | _ => 0
   end)%nat.
Proof.
  induction l as [|a l IH]; intro on; simpl.
  - destruct c; simpl; lia.
  - rewrite IH. lia.
Qed.

Lemma last_fan_app l c :
  last_fan (l ++ [c]) =
  match c with hal_fan_control s => s | _ => last_fan l end.
Proof. unfold last_fan. rewrite fold_left_app. reflexivity. Qed.

Lemma devices_quiet cfg w c :
  is_quiet c = true -> devices_ok cfg w ->
  devices_ok cfg {| self := self w; calls := calls w ++ [c] |}.
Proof.
  intros Hq (Hok & Hrun & Hdbl & Hfan). unfold devices_ok. simpl.
  split; [exact Hok|]. split; [|split].
  - intro h. rewrite running_app, <- Hrun. destruct c; try reflexivity;
      discriminate.
  - intro h. rewrite double_starts_app, Hdbl.
    destruct c; try reflexivity; discriminate.
  - rewrite last_fan_app, <- Hfan. destruct c; try reflexivity; discriminate.
Qed.

Lemma devices_stop cfg w h0 :
  devices_ok cfg w ->
  devices_ok cfg
    {| self := set_heaters (heater_del h0 (_heaters (self w))) (self w);
       calls := calls w ++ [Heater_stop h0] |}.
Proof.
  intros (Hok & Hrun & Hdbl & Hfan). unfold devices_ok. simpl.
  split; [apply heaters_ok_del; exact Hok|]. split; [|split].
  - intro h. rewrite running_app, heater_in_del, Hrun. simpl.
    destruct (Heaters_eqb h0 h); reflexivity.
  - intro h. rewrite double_starts_app, Hdbl. reflexivity.
  - rewrite last_fan_app. exact Hfan.
Qed.

Lemma devices_start cfg w h0 t :
  heater_in h0 (_heaters (self w)) = false ->
  ~ t == 0 -> MIN_TEMPERATURE cfg <= t <= heater_max cfg h0 ->
  devices_ok cfg w ->
  devices_ok cfg
    {| self := set_heaters (heater_set h0 t (_heaters (self w))) (self w);
       calls := calls w ++ [Heater_start h0 t] |}.
Proof.
  intros Hin Ht0 Ht (Hok & Hrun & Hdbl & Hfan). unfold devices_ok. simpl.
  rewrite (heater_set_absent _ _ _ Hin).
  split; [|split; [|split]].
  - destruct Hok as [Hk Hf]. split.
    + rewrite map_app. apply NoDup_app; [exact Hk | repeat constructor; auto|].
      intros a Ha [Heq | []]. simpl in Heq. subst a.
      exact (heater_absent_keys _ _ Hin Ha).
    + apply Forall_app. split; [exact Hf|].
      constructor; [simpl; split; assumption | constructor].
  - intro h. rewrite running_app, heater_in_app, Hrun. simpl.
    destruct (Heaters_eqb h0 h), (heater_in h (_heaters (self w)));
      reflexivity.
  - intro h. rewrite double_starts_app, Hdbl. simpl.
    destruct (Heaters_eqb h0 h) eqn:E; [|reflexivity].
    apply Heaters_eqb_eq in E. subst h.
    fold (running h0 (calls w)). rewrite Hrun, Hin. reflexivity.
  - rewrite last_fan_app. exact Hfan.
Qed.

Lemma devices_self cfg w s :
  _heaters s = _heaters (self w) -> _fan_state s = _fan_state (self w) ->
  devices_ok cfg w -> devices_ok cfg {| self := s; calls := calls w |}.
Proof.
  intros Hh Hf H. unfold devices_ok in *. simpl. rewrite Hh, Hf. exact H.
Qed.

(** The temperature test of the heater commands, read as a fact. *)
Lemma temperature_checked cfg h t :
  ((Heaters_eqb h HEATER_EXTRUDER && (t >? EXTRUDER_MAX_TEMPERATURE cfg))
   || (Heaters_eqb h HEATER_BED && (t >? BED_MAX_TEMPERATURE cfg))
   || (t <? MIN_TEMPERATURE cfg)) && negb (t =? 0) = false ->
  t == 0 \/ MIN_TEMPERATURE cfg <= t <= heater_max cfg h.
Proof.
  intro H. destruct (t =? 0) eqn:E0; [left; reflect_Q; assumption|].
  right. rewrite andb_true_r in H.
  apply orb_false_iff in H. destruct H as [H Hmin].
  apply orb_false_iff in H. destruct H as [He Hb].
  destruct h; simpl in *; reflect_Q; split; assumption.
Qed.

Section Devices.

Variable cfg : Config.
Variable fsqrt : Q -> Q.

Lemma devices_call c :
  is_quiet c = true -> preserves (devices_ok cfg) (call c).
Proof. intros Hq w H. apply devices_quiet; assumption. Qed.

Lemma devices_update f :
  (forall s, _heaters (f s) = _heaters s) ->
  (forall s, _fan_state (f s) = _fan_state s) ->
  preserves (devices_ok cfg) (update f).
Proof.
  intros Hh Hf w H. unfold update. simpl.
  apply devices_self; [apply Hh | apply Hf | exact H].
Qed.

Lemma devices_fan state : preserves (devices_ok cfg) (_fan state).
Proof.
  intros w (Hok & Hrun & Hdbl & Hfan). unfold devices_ok. simpl.
  split; [exact Hok|]. split; [|split].
  - intro h. rewrite running_app. apply Hrun.
  - intro h. rewrite double_starts_app, Hdbl. reflexivity.
  - rewrite last_fan_app. reflexivity.
Qed.

Lemma devices_heat sensors h t wait :
  t == 0 \/ MIN_TEMPERATURE cfg <= t <= heater_max cfg h ->
  preserves (devices_ok cfg) (_heat sensors h t wait).
Proof.
  intros Ht w H. unfold _heat.
  destruct wait, h; cbv beta iota zeta;
    unfold bind, call, get_self, update, raise, ret; cbv beta iota;
    match goal with
    | |- context [match ?r with Some _ => _ | None => _ end] => destruct r
    end;
    cbv beta iota; cbn [self calls fst snd];
    try (apply (devices_quiet cfg w); [reflexivity | exact H]);
    destruct (heater_in _ _) eqn:Hin; cbv beta iota; cbn [self calls fst snd];
    destruct (t =? 0) eqn:E0; cbn [negb]; cbv beta iota;
    cbn [self calls fst snd]; reflect_Q;
    repeat first
      [ exact H
      | apply (devices_quiet cfg {| self := _; calls := _ |});
          [reflexivity|]
      | apply (devices_stop cfg {| self := _; calls := _ |})
      | apply (devices_start cfg {| self := _; calls := _ |});
          [ first [ exact Hin | apply heater_in_del_same ]
          | exact E0
          | destruct Ht as [Ht | Ht]; [contradiction | exact Ht]
          | ] ].
Qed.

Ltac devices_leaf :=
  idtac;
  lazymatch goal with
  | |- preserves _ (call _) => apply devices_call; reflexivity
  | |- preserves _ (update _) => apply devices_update; reflexivity
  | |- preserves _ (_fan _) => apply devices_fan
  | |- preserves _ (_heat _ _ _ _) =>
      apply devices_heat; eapply temperature_checked; eassumption
  end.

Lemma devices_do_command sensors gcode :
  preserves (devices_ok cfg) (do_command cfg fsqrt sensors gcode).
Proof.
  destruct gcode as [gcode|]; [|apply preserves_ret].
  frame devices_leaf.
Qed.

Lemma devices_new_machine : devices_ok cfg new_machine.
Proof.
  unfold devices_ok. simpl. split; [split; constructor|].
  split; [intros []; reflexivity|]. split; [intros []; reflexivity|].
  reflexivity.
Qed.

Lemma devices_run session w :
  devices_ok cfg w -> devices_ok cfg (run cfg fsqrt w session).
Proof.
  revert w. induction session as [|[sensors gcode] rest IH]; intros w H.
  - exact H.
  - simpl. apply IH. apply devices_do_command. exact H.
Qed.

Lemma heater_get_in h d :
  heater_in h d = true ->
  exists t, heater_get h d = Some t /\ In (h, t) d.
Proof.
  induction d as [|[k t] d IH]; simpl; [discriminate|].
  destruct (Heaters_eqb k h) eqn:E; simpl.
  - intros _. apply Heaters_eqb_eq in E. subst k.
    exists t. split; [reflexivity | left; reflexivity].
  - intro H. destruct (IH H) as (t' & Hg & Hin).
    exists t'. split; [exact Hg | right; exact Hin].
Qed.

End Devices.

(** X5: after every command of every session the dictionary of heater
    handles has one entry per heater at most, and every target in it is
    non-zero and lies between the minimal temperature and the maximum of
    its heater.  So [extruder_target_temperature()] and
    [bed_target_temperature()] return 0 or a target within those limits. *)
Theorem heater_targets_within_limits (cfg : Config) (fsqrt : Q -> Q)
    (session : list (Sensors * option GCode)) (h : Heaters) :
  let w := run cfg fsqrt new_machine session in
  heaters_ok cfg (_heaters (self w)) /\
  exists t,
    __get_target_temperature h w = (w, Ok t) /\
    (t = 0 \/
     (~ t == 0 /\ MIN_TEMPERATURE cfg <= t <= heater_max cfg h)).
Proof.
  intro w.
  destruct (devices_run cfg fsqrt session new_machine
              (devices_new_machine cfg)) as (Hok & _).
  fold w in Hok. split; [exact Hok|].
  unfold __get_target_temperature, bind, get_self, ret.
  destruct (heater_in h (_heaters (self w))) eqn:Hin; simpl.
  - destruct (heater_get_in h _ Hin) as (t & Hg & Ht). rewrite Hg.
    exists t. split; [reflexivity|]. right.
    destruct Hok as [_ Hf]. rewrite Forall_forall in Hf.
    apply (Hf (h, t) Ht).
  - exists 0. split; [reflexivity | left; reflexivity].
Qed.

(** X6: after every command of every session, a heater has a handle in the
    dictionary exactly when its last [Heater(...)] among the calls has not
    been followed by a [stop()], and no heater was ever started while it was
    regulating: a handle is stopped before it is replaced. *)
Theorem heaters_never_started_twice (cfg : Config) (fsqrt : Q -> Q)
    (session : list (Sensors * option GCode)) (h : Heaters) :
  let w := run cfg fsqrt new_machine session in
  running h (calls w) = heater_in h (_heaters (self w)) /\
  double_starts h false (calls w) = O.
Proof.
  intro w.
  destruct (devices_run cfg fsqrt session new_machine
              (devices_new_machine cfg)) as (_ & Hrun & Hdbl & _).
  split; [apply Hrun | apply Hdbl].
Qed.

(** X7: after every command of every session [fan_state()] returns what
    [hal.fan_control] was last called with, and [False] when it was never
    called. *)
Theorem fan_state_is_last_command (cfg : Config) (fsqrt : Q -> Q)
    (session : list (Sensors * option GCode)) :
  let w := run cfg fsqrt new_machine session in
  fan_state w = (w, Ok (last_fan (calls w))).
Proof.
  intro w.
  destruct (devices_run cfg fsqrt session new_machine
              (devices_new_machine cfg)) as (_ & _ & _ & Hfan).
  fold w in Hfan. unfold fan_state, bind, get_self, ret.
  rewrite Hfan. reflexivity.
Qed.

(** ** Heater commands, one at a time *)

Lemma heater_del_absent h d : heater_in h d = false -> heater_del h d = d.
Proof.
  induction d as [|[k t] d IH]; simpl; [reflexivity|].
  destruct (Heaters_eqb k h); simpl; [discriminate|].
  intro H. rewrite (IH H). reflexivity.
Qed.

Lemma heater_get_del_other h h' d :
  h' <> h -> heater_get h' (heater_del h d) = heater_get h' d.
Proof.
  intro Hne. induction d as [|[k t] d IH]; simpl; [reflexivity|].
  destruct k, h, h'; simpl; try congruence; exact IH.
Qed.

Lemma heater_in_del_other h h' d :
  h' <> h -> heater_in h' (heater_del h d) = heater_in h' d.
Proof.
  intro Hne. rewrite heater_in_del.
  destruct (Heaters_eqb h h') eqn:E; [|reflexivity].
  apply Heaters_eqb_eq in E. congruence.
Qed.

Lemma heater_get_absent h d : heater_in h d = false -> heater_get h d = None.
Proof.
  induction d as [|[k t] d IH]; simpl; [reflexivity|].
  destruct (Heaters_eqb k h); simpl; [discriminate | exact IH].
Qed.

Lemma heater_get_app h d d' :
  heater_get h (d ++ d') =
  match heater_get h d with Some t => Some t | None => heater_get h d' end.
Proof.
  induction d as [|[k t] d IH]; simpl; [reflexivity|].
  destruct (Heaters_eqb k h); [reflexivity | exact IH].
Qed.

(** The dictionary [_heat] leaves when it returns: the old handle is gone
    and the new one, if any, is the last entry. *)
Lemma heat_success sensors h t wait w w' :
  _heat sensors h t wait w = (w', Ok tt) ->
  _heaters (self w') =
  if t =? 0 then heater_del h (_heaters (self w))
  else heater_del h (_heaters (self w)) ++ [(h, t)].
Proof.
  unfold _heat.
  destruct wait, h; cbv beta iota zeta;
    unfold bind, call, get_self, update, raise, ret; cbv beta iota;
    match goal with
    | |- context [match ?r with Some _ => _ | None => _ end] => destruct r
    end;
    cbv beta iota; cbn [self calls fst snd];
    try discriminate;
    destruct (heater_in _ _) eqn:Hin; cbv beta iota; cbn [self calls fst snd];
    destruct (t =? 0) eqn:E0; cbn [negb]; cbv beta iota;
    cbn [self calls fst snd];
    intro H; injection H as <-; cbn [self _heaters set_heaters];
    rewrite ?(heater_del_absent _ _ Hin);
    try reflexivity;
    apply heater_set_absent;
    first [exact Hin | apply heater_in_del_same].
Qed.

Lemma do_command_heater cfg fsqrt sensors gcode c h w :
  GCode.command gcode = Some c -> heater_of c = Some h ->
  do_command cfg fsqrt sensors (Some gcode) w =
  let velocity := GCode.get gcode "F" (_velocity (self w)) in
  let pause := GCode.get gcode "P" (_pause (self w)) in
  let t := GCode.get gcode "S" 0 in
  if (velocity <=? 0) || (velocity >? STEPPER_MAX_VELOCITY_MM_PER_MIN cfg)
  then (w, Raise (GMachineException "bad feed speed"))
  else if pause <? 0 then (w, Raise (GMachineException "bad delay"))
  else if negb (GCode.has gcode "S")
  then (w, Raise (GMachineException "temperature is not specified"))
  else if ((t >? heater_max cfg h) || (t <? MIN_TEMPERATURE cfg))
          && negb (t =? 0)
  then (w, Raise (GMachineException "bad temperature"))
  else match _heat sensors h t
               (String.eqb c "M109" || String.eqb c "M190") w with
       | (w1, Ok _) =>
           ({| self := set_pause pause (set_velocity velocity (self w1));
               calls := calls w1 |}, Ok None)
       | (w1, Raise err) => (w1, Raise err)
       end.
Proof.
  intros Hc Hh. unfold heater_of in Hh.
  assert (Hcases : c = "M104"%string \/ c = "M109"%string \/
                   c = "M140"%string \/ c = "M190"%string).
  { destruct (String.eqb c "M104") eqn:E1;
      [apply String.eqb_eq in E1; tauto|].
    destruct (String.eqb c "M109") eqn:E2;
      [apply String.eqb_eq in E2; tauto|].
    destruct (String.eqb c "M140") eqn:E3;
      [apply String.eqb_eq in E3; tauto|].
    destruct (String.eqb c "M190") eqn:E4;
      [apply String.eqb_eq in E4; tauto|].
    discriminate. }
  unfold do_command. rewrite Hc. cbv zeta.
  unfold bind at 1, get_self at 1.
  destruct ((GCode.get gcode "F" (_velocity (self w)) <=? 0) || _);
    [reflexivity|].
  destruct (GCode.get gcode "P" (_pause (self w)) <? 0); [reflexivity|].
  destruct Hcases as [-> | [-> | [-> | ->]]];
    injection Hh as <-; dispatch;
    repeat match goal with
    | |- context [String.eqb ?a ?b] =>
        let v := eval vm_compute in (String.eqb a b) in
        change (String.eqb a b) with v
    end;
    cbn [orb]; unfold bind at 1; unfold bind at 1; unfold ret at 1;
    cbv beta iota;
    (destruct (negb (GCode.has gcode "S")); [reflexivity|]);
    cbn [Heaters_eqb andb orb heater_max]; rewrite ?orb_false_r;
    (destruct (_ && negb _); [reflexivity|]);
    unfold bind at 1; unfold bind at 1;
    match goal with
    | |- context [_heat ?a ?b ?d ?e w] =>
        destruct (_heat a b d e w) as [w1 [[]|err]]
    end; reflexivity.
Qed.

(** X8: when a heater command ([M104], [M109] for the extruder, [M140],
    [M190] for the bed) returns, the target temperature the machine reports
    for that heater is the line's [S] (0, no handle, when [S] is 0), and the
    other heater's is what it was. *)
Theorem heater_target_round_trip (cfg : Config) (fsqrt : Q -> Q)
    (sensors : Sensors) (gcode : GCode) (c : string) (h : Heaters)
    (w w' : World) (answer : option Answer) :
  GCode.command gcode = Some c -> heater_of c = Some h ->
  do_command cfg fsqrt sensors (Some gcode) w = (w', Ok answer) ->
  (exists t, __get_target_temperature h w' = (w', Ok t) /\
             t == GCode.get gcode "S" 0) /\
  (forall h', h' <> h ->
     snd (__get_target_temperature h' w') =
     snd (__get_target_temperature h' w)).
Proof.
  intros Hc Hh Hdo. rewrite (do_command_heater _ _ _ _ _ _ _ Hc Hh) in Hdo.
  cbv zeta in Hdo.
  destruct (_ || _) in Hdo; [discriminate|].
  destruct (_ <? 0) in Hdo; [discriminate|].
  destruct (negb _) in Hdo; [discriminate|].
  destruct (_ && _) in Hdo; [discriminate|].
  destruct (_heat _ _ _ _ w) as [w1 [[]|err]] eqn:Hheat; [|discriminate].
  injection Hdo as <- _. apply heat_success in Hheat.
  unfold __get_target_temperature, bind, get_self, ret.
  cbn [self calls _heaters set_pause set_velocity]. rewrite Hheat.
  set (t := GCode.get gcode "S" 0). split.
  - destruct (t =? 0) eqn:E0.
    + rewrite heater_in_del_same. simpl. eexists. split; [reflexivity|].
      reflect_Q. symmetry. exact E0.
    + rewrite heater_in_app, heater_get_app,
        (heater_get_absent _ _ (heater_in_del_same h _)).
      simpl. rewrite Heaters_eqb_refl. rewrite orb_true_r. simpl.
      eexists. split; reflexivity.
  - intros h' Hne.
    assert (E : Heaters_eqb h h' = false).
    { destruct (Heaters_eqb h h') eqn:E; [|reflexivity].
      apply Heaters_eqb_eq in E. congruence. }
    destruct (t =? 0); rewrite ?heater_in_app, ?heater_get_app; simpl;
      rewrite ?E; simpl; rewrite ?orb_false_r;
      rewrite (heater_in_del_other _ _ _ Hne),
              (heater_get_del_other _ _ _ Hne);
      (destruct (negb _); [reflexivity|]);
      destruct (heater_get _ _); reflexivity.
Qed.

Lemma heater_target_round_trip_witness :
  exists w',
    do_command sample_config sqrt_floor warm_sensors
      (Some (line (Some "M104"%string) [("S"%string, 200)])) new_machine =
    (w', Ok None) /\
    exists t, __get_target_temperature HEATER_EXTRUDER w' = (w', Ok t) /\
              t == 200.
Proof.
  exists (fst (do_command sample_config sqrt_floor warm_sensors
                 (Some (line (Some "M104"%string) [("S"%string, 200)]))
                 new_machine)).
  assert (H : do_command sample_config sqrt_floor warm_sensors
                (Some (line (Some "M104"%string) [("S"%string, 200)]))
                new_machine =
              (fst (do_command sample_config sqrt_floor warm_sensors
                      (Some (line (Some "M104"%string) [("S"%string, 200)]))
                      new_machine), Ok None))
    by (vm_compute; reflexivity).
  split; [exact H|].
  exact (proj1 (heater_target_round_trip sample_config sqrt_floor warm_sensors
                  (line (Some "M104"%string) [("S"%string, 200)]) "M104"
                  HEATER_EXTRUDER new_machine _ None eq_refl eq_refl H)).
Defined.

(** X9: a heater command without [S], or with an [S] that is not 0 and
    lies above the heater's maximum or below the minimal temperature, raises
    ("temperature is not specified", "bad temperature") and leaves the world
    as it was: the sensor is not read and a running handle is not touched.
    An [S] of 0 is never refused by the range test. *)
Theorem heater_command_rejected (cfg : Config) (fsqrt : Q -> Q)
    (sensors : Sensors) (gcode : GCode) (c : string) (h : Heaters)
    (w : World) :
  GCode.command gcode = Some c -> heater_of c = Some h ->
  parameters_ok cfg gcode (self w) ->
  let t := GCode.get gcode "S" 0 in
  GCode.has gcode "S" = false \/
  (~ t == 0 /\ (heater_max cfg h < t \/ t < MIN_TEMPERATURE cfg)) ->
  do_command cfg fsqrt sensors (Some gcode) w =
  (w, Raise (GMachineException
       (if GCode.has gcode "S" then "bad temperature"
        else "temperature is not specified"))).
Proof.
  intros Hc Hh Hp t Hbad.
  rewrite (do_command_heater _ _ _ _ _ _ _ Hc Hh). cbv zeta. fold t.
  destruct (parameters_ok_tests _ _ _ Hp) as [Hv Hpa]. rewrite Hv, Hpa.
  destruct (GCode.has gcode "S"); [|reflexivity]. cbn [negb].
  destruct Hbad as [Hbad | [Ht0 Hbad]]; [discriminate|].
  assert (E : ((t >? heater_max cfg h) || (t <? MIN_TEMPERATURE cfg))
              && negb (t =? 0) = true).
  { apply andb_true_iff. split.
    - apply orb_true_iff. destruct Hbad as [H | H];
        [left; apply Qgt_bool_iff | right; apply Qlt_bool_iff]; exact H.
    - apply negb_true_iff, Qeq_bool_false. exact Ht0. }
  rewrite E. reflexivity.
Qed.

Lemma heater_command_rejected_witness :
  do_command sample_config sqrt_floor warm_sensors
    (Some (line (Some "M140"%string) [("S"%string, 150)])) new_machine =
  (new_machine, Raise (GMachineException "bad temperature")).
Proof.
  apply (heater_command_rejected sample_config sqrt_floor warm_sensors
           (line (Some "M140"%string) [("S"%string, 150)]) "M140" HEATER_BED
           new_machine eq_refl eq_refl).
  - unfold parameters_ok. simpl. repeat split; discriminate.
  - right. split; [discriminate | left; reflexivity].
Defined.

(** ** A command that raises has done nothing *)

Lemma harmless_refl w : harmless w w.
Proof.
  split; [reflexivity|]. exists []. split; [|reflexivity].
  symmetry. apply app_nil_r.
Qed.

Lemma harmless_trans w1 w2 w3 :
  harmless w1 w2 -> harmless w2 w3 -> harmless w1 w3.
Proof.
  intros [Hs1 (r1 & Hc1 & Hr1)] [Hs2 (r2 & Hc2 & Hr2)]. split.
  - congruence.
  - exists (r1 ++ r2). split.
    + rewrite Hc2, Hc1. symmetry. apply app_assoc.
    + rewrite forallb_app, Hr1, Hr2. reflexivity.
Qed.

Lemma quiet_ret {A} (a : A) : quiet (ret a).
Proof. intro w. apply harmless_refl. Qed.

Lemma quiet_raise {A} err : quiet (@raise A err).
Proof. intro w. apply harmless_refl. Qed.

Lemma quiet_get_self : quiet get_self.
Proof. intro w. apply harmless_refl. Qed.

Lemma quiet_call c : is_sensor_read c = true -> quiet (call c).
Proof.
  intros Hc w. split; [reflexivity|]. exists [c]. split; [reflexivity|].
  simpl. rewrite Hc. reflexivity.
Qed.

Lemma quiet_bind {A B} (m : M A) (k : A -> M B) :
  quiet m -> (forall a, quiet (k a)) -> quiet (bind m k).
Proof.
  intros Hm Hk w. unfold bind. specialize (Hm w).
  destruct (m w) as [w1 [a|err]]; simpl in *; [|exact Hm].
  apply (harmless_trans _ _ _ Hm). apply Hk.
Qed.

Lemma never_ret {A} (a : A) : never_fails (ret a).
Proof. intro w. exists a. reflexivity. Qed.

Lemma never_get_self : never_fails get_self.
Proof. intro w. eexists. reflexivity. Qed.

Lemma never_call c : never_fails (call c).
Proof. intro w. exists tt. reflexivity. Qed.

Lemma never_update f : never_fails (update f).
Proof. intro w. exists tt. reflexivity. Qed.

Lemma never_py_div a b : ~ b == 0 -> never_fails (py_div a b).
Proof.
  intros Hb w. unfold py_div. apply Qeq_bool_false in Hb. rewrite Hb.
  eexists. reflexivity.
Qed.

Lemma never_bind {A B} (m : M A) (k : A -> M B) :
  never_fails m -> (forall a, never_fails (k a)) -> never_fails (bind m k).
Proof.
  intros Hm Hk w. unfold bind. destruct (Hm w) as [a Ha].
  destruct (m w) as [w1 r]. simpl in Ha. subst r. apply Hk.
Qed.

Ltac quiet_tac :=
  repeat (cbv beta iota zeta;
    lazymatch goal with
    | |- quiet (ret _) => apply quiet_ret
    | |- quiet (raise _) => apply quiet_raise
    | |- quiet get_self => apply quiet_get_self
    | |- quiet (call _) => apply quiet_call; reflexivity
    | |- quiet (bind _ _) => apply quiet_bind; [|intro]
    | |- quiet (if ?b then _ else _) => destruct b
    | |- quiet (match ?x with _ => _ end) => destruct x
    end).

Ltac never_tac :=
  repeat (cbv beta iota zeta;
    lazymatch goal with
    | |- never_fails (ret _) => apply never_ret
    | |- never_fails get_self => apply never_get_self
    | |- never_fails (call _) => apply never_call
    | |- never_fails (update _) => apply never_update
    | |- never_fails (py_div _ _) => apply never_py_div; assumption
    | |- never_fails (bind _ _) => apply never_bind; [|intro]
    | |- never_fails (if ?b then _ else _) => destruct b
    | |- never_fails reset => unfold reset
    | |- never_fails (_spindle _ _) => unfold _spindle
    | |- never_fails (_fan _) => unfold _fan
    | |- never_fails position => unfold position
    end).

Section Clean.

Variable cfg : Config.
Variable fsqrt : Q -> Q.
Hypothesis spindle_limit : ~ SPINDLE_MAX_RPM cfg == 0.

Lemma clean_quiet {A} I (m : M A) : quiet m -> clean I m.
Proof. intros Hm w _ err _. apply Hm. Qed.

Lemma clean_never {A} I (m : M A) : never_fails m -> clean I m.
Proof.
  intros Hm w _ err Herr. destruct (Hm w) as [a Ha]. congruence.
Qed.

Lemma position_ok_harmless w w' :
  harmless w w' -> position_ok cfg w -> position_ok cfg w'.
Proof. intros [Hs _] H. unfold position_ok in *. rewrite Hs. exact H. Qed.

Lemma clean_bind_quiet {A B} (m : M A) (k : A -> M B) :
  quiet m -> (forall a, clean (position_ok cfg) (k a)) ->
  clean (position_ok cfg) (bind m k).
Proof.
  intros Hm Hk w HI err. unfold bind. specialize (Hm w).
  destruct (m w) as [w1 [a|err1]]; simpl in *.
  - intro Herr. apply (harmless_trans _ _ _ Hm).
    apply (Hk a w1 (position_ok_harmless _ _ Hm HI) err Herr).
  - intros _. exact Hm.
Qed.

Lemma clean_bind_never {A B} I (m : M A) (k : A -> M B) :
  clean I m -> (forall a, never_fails (k a)) -> clean I (bind m k).
Proof.
  intros Hm Hk w HI err. unfold bind. specialize (Hm w HI).
  destruct (m w) as [w1 [a|err1]]; simpl in *.
  - intro Herr. destruct (Hk a w1) as [b Hb]. congruence.
  - intros _. apply (Hm err1). reflexivity.
Qed.

Lemma clean_move_linear I delta velocity :
  clean I (_move_linear cfg delta velocity).
Proof.
  intros w _ err. rewrite move_linear_eq. cbv zeta.
  destruct (Coordinates.is_zero _); [discriminate|].
  destruct (Coordinates.is_in_aabb _ _ _); [discriminate|].
  intros _. apply harmless_refl.
Qed.

Lemma clean_circular I delta radius velocity direction :
  clean I (_circular cfg fsqrt delta radius velocity direction).
Proof.
  intros w _ err. rewrite circular_eq. cbv zeta.
  destruct (Coordinates.is_in_aabb _ _ _); [|intros _; apply harmless_refl].
  destruct (snd (adjusted _ _ _ _ _ _)); [discriminate|].
  intros _. apply harmless_refl.
Qed.

Lemma clean_home : clean (position_ok cfg) (home cfg).
Proof.
  intros w HI err.
  destruct (home_from_ok cfg w HI) as (w' & dz & dxy & Hhome & _).
  rewrite Hhome. discriminate.
Qed.

Ltac clean_tac :=
  repeat (cbv beta iota zeta;
    first
      [ solve [apply clean_quiet; quiet_tac]
      | solve [apply clean_never; never_tac]
      | apply clean_move_linear
      | apply clean_circular
      | apply clean_home
      | lazymatch goal with
        | |- clean _ (if ?b then _ else _) => destruct b
        | |- clean _ (match ?x with _ => _ end) => destruct x
        | |- clean _ (_heat _ ?h _ _) => unfold _heat; destruct h
        | |- clean _ (bind _ _) =>
            first [ apply clean_bind_quiet; [solve [quiet_tac] | intro]
                  | apply clean_bind_never; [|intro; solve [never_tac]] ]
        end ]).

Lemma clean_do_command sensors gcode :
  clean (position_ok cfg) (do_command cfg fsqrt sensors gcode).
Proof.
  destruct gcode as [gcode|]; [|apply clean_quiet, quiet_ret].
  unfold do_command. clean_tac.
Qed.

End Clean.



(** ** Commands that do not move *)

Lemma unmoved_refl w : unmoved w w.
Proof.
  split; [reflexivity|]. exists []. split; [|reflexivity].
  symmetry. apply app_nil_r.
Qed.

Lemma unmoved_call w0 c :
  is_hal_move c = false -> preserves (unmoved w0) (call c).
Proof.
  intros Hc w [Hp (l & Hl & Hf)]. split; [exact Hp|].
  exists (l ++ [c]). simpl. split.
  - rewrite Hl. symmetry. apply app_assoc.
  - rewrite forallb_app, Hf. simpl. rewrite Hc. reflexivity.
Qed.

Lemma unmoved_update w0 f :
  (forall s, _position (f s) = _position s) ->
  preserves (unmoved w0) (update f).
Proof.
  intros Hf w [Hp Hl]. split; [|exact Hl]. simpl. rewrite Hf. exact Hp.
Qed.

Ltac unmoved_leaf :=
  idtac;
  lazymatch goal with
  | |- preserves _ (call _) => apply unmoved_call; reflexivity
  | |- preserves _ (update _) => apply unmoved_update; reflexivity
  | |- preserves _ (_heat _ ?h _ _) =>
      unfold _heat; destruct h; cbv beta iota zeta
  end.

(** X11: only [G0], [G1] (also implied by bare coordinates), [G2], [G3]
    and [G28] move the machine.  Whatever else the line says and however the
    command ends, any other command leaves the stored position as it was and
    hands no motion segment to the hardware layer. *)
Theorem only_motion_commands_move (cfg : Config) (fsqrt : Q -> Q)
    (sensors : Sensors) (gcode : GCode) (w : World) :
  is_motion (effective_command gcode) = false ->
  unmoved w (fst (do_command cfg fsqrt sensors (Some gcode) w)).
Proof.
  intro Hnot.
  assert (H : preserves (unmoved w)
                (do_command cfg fsqrt sensors (Some gcode)));
    [|apply H, unmoved_refl].
  unfold do_command. cbv zeta.
  unfold effective_command in Hnot.
  destruct (GCode.command gcode) as [c|] eqn:Hc;
    [|destruct (GCode.has_coordinates gcode); [discriminate|]];
    unfold is_motion in Hnot; cbv beta iota; cbn [command_is] in *;
    repeat (apply orb_false_iff in Hnot;
            let E := fresh "E" in destruct Hnot as [Hnot E]);
    rewrite ?Hnot, ?E, ?E0, ?E1, ?E2;
    frame unmoved_leaf.
Qed.

Lemma only_motion_commands_move_witness :
  unmoved new_machine
    (fst (do_command sample_config sqrt_floor warm_sensors
            (Some (line (Some "M109"%string)
                     [("S"%string, 200); ("X"%string, 50)]))
            new_machine)).
Proof.
  apply (only_motion_commands_move sample_config sqrt_floor warm_sensors
           (line (Some "M109"%string) [("S"%string, 200); ("X"%string, 50)])
           new_machine).
  reflexivity.
Defined.

(** ** Spindle *)

(** X12: on a machine with a positive spindle limit, [M3] with a speed
    ([S], or the stored speed) below 0 or above the limit raises "bad
    spindle speed" and leaves the world as it was; otherwise it waits for
    the hardware to be idle, sets the spindle to [100 * speed / limit]
    percent, which lies between 0 and 100, and stores the speed. *)
Theorem spindle_percent_in_range (cfg : Config) (fsqrt : Q -> Q)
    (sensors : Sensors) (gcode : GCode) (w : World) :
  GCode.command gcode = Some "M3"%string ->
  parameters_ok cfg gcode (self w) ->
  0 < SPINDLE_MAX_RPM cfg ->
  let rpm := GCode.get gcode "S" (_spindle_rpm (self w)) in
  let percent := 100 * rpm / SPINDLE_MAX_RPM cfg in
  do_command cfg fsqrt sensors (Some gcode) w =
  (if (rpm <? 0) || (rpm >? SPINDLE_MAX_RPM cfg)
   then (w, Raise (GMachineException "bad spindle speed"))
   else ({| self :=
              set_pause (GCode.get gcode "P" (_pause (self w)))
                (set_velocity (GCode.get gcode "F" (_velocity (self w)))
                   (set_spindle_rpm rpm (self w)));
            calls := (calls w ++ [hal_join])
                     ++ [hal_spindle_control percent] |}, Ok None)) /\
  ((rpm <? 0) || (rpm >? SPINDLE_MAX_RPM cfg) = false ->
   0 <= percent <= 100).
Proof.
  intros Hc Hp Hmax rpm percent. split.
  - destruct (parameters_ok_tests _ _ _ Hp) as [Hv Hpa].
    unfold do_command. rewrite Hc. cbv zeta.
    unfold bind at 1, get_self at 1. rewrite Hv, Hpa.
    dispatch. fold rpm.
    unfold bind at 1. unfold bind at 1. unfold get_self at 1.
    cbv beta iota. fold rpm.
    destruct ((rpm <? 0) || (rpm >? SPINDLE_MAX_RPM cfg)); [reflexivity|].
    unfold _spindle, py_div.
    assert (E : (SPINDLE_MAX_RPM cfg =? 0) = false)
      by (apply Qeq_bool_false; lra).
    rewrite E. reflexivity.
  - intro Hok. tests. unfold percent. split.
    + apply Qle_shift_div_l; [exact Hmax | lra].
    + apply Qle_shift_div_r; [exact Hmax | lra].
Qed.

Lemma spindle_percent_in_range_witness :
  do_command sample_config sqrt_floor no_sensors
    (Some (line (Some "M3"%string) [("S"%string, 2500)])) new_machine =
  ({| self := set_pause 0 (set_velocity 1000
                (set_spindle_rpm 2500 (self new_machine)));
      calls := [hal_join; hal_spindle_control (100 * 2500 / 10000)] |},
   Ok None).
Proof.
  refine (proj1 (spindle_percent_in_range sample_config sqrt_floor no_sensors
                   (line (Some "M3"%string) [("S"%string, 2500)])
                   new_machine eq_refl _ _)).
  - unfold parameters_ok. simpl. repeat split; discriminate.
  - reflexivity.
Defined.

(** ** Straight moves through [do_command] *)

Lemma effective_linear gcode c :
  effective_command gcode = Some c ->
  GCode.command gcode = Some c \/
  (GCode.command gcode = None /\ GCode.has_coordinates gcode = true /\
   c = "G1"%string).
Proof.
  unfold effective_command.
  destruct (GCode.command gcode); [intro H; left; exact H|].
  destruct (GCode.has_coordinates gcode); [|discriminate].
  intro H. injection H as <-. right. repeat split.
Qed.

Lemma do_command_linear cfg fsqrt sensors gcode c w :
  effective_command gcode = Some c ->
  c = "G0"%string \/ c = "G1"%string ->
  do_command cfg fsqrt sensors (Some gcode) w =
  let velocity := GCode.get gcode "F" (_velocity (self w)) in
  let pause := GCode.get gcode "P" (_pause (self w)) in
  if (velocity <=? 0) || (velocity >? STEPPER_MAX_VELOCITY_MM_PER_MIN cfg)
  then (w, Raise (GMachineException "bad feed speed"))
  else if pause <? 0 then (w, Raise (GMachineException "bad delay"))
  else match _move_linear cfg (requested_delta gcode (self w))
               (if String.eqb c "G0"
                then STEPPER_MAX_VELOCITY_MM_PER_MIN cfg else velocity) w with
       | (w1, Ok _) =>
           ({| self := set_pause pause (set_velocity velocity (self w1));
               calls := calls w1 |}, Ok None)
       | (w1, Raise err) => (w1, Raise err)
       end.
Proof.
  intros He Hc. unfold do_command, requested_delta. cbv zeta.
  unfold bind at 1, get_self at 1.
  destruct ((GCode.get gcode "F" (_velocity (self w)) <=? 0) || _);
    [reflexivity|].
  destruct (GCode.get gcode "P" (_pause (self w)) <? 0); [reflexivity|].
  destruct (effective_linear _ _ He) as [Hcmd | (Hcmd & Hhas & ->)];
    rewrite Hcmd; rewrite ?Hhas; cbv beta iota;
    [destruct Hc as [-> | ->] | ];
    dispatch; cbn [String.eqb Ascii.eqb Bool.eqb andb];
    unfold bind at 1; unfold bind at 1;
    match goal with
    | |- context [_move_linear ?a ?b ?d w] =>
        destruct (_move_linear a b d w) as [w1 [[]|err]]
    end; reflexivity.
Qed.

Lemma on_grid_sub cfg a b :
  on_grid cfg a -> on_grid cfg b -> on_grid cfg (a -c b).
Proof.
  intros ([k1 K1] & [k2 K2] & [k3 K3] & [k4 K4])
         ([j1 J1] & [j2 J2] & [j3 J3] & [j4 J4]).
  repeat split; simpl;
    [exists (k1 - j1)%Z; rewrite K1, J1
    |exists (k2 - j2)%Z; rewrite K2, J2
    |exists (k3 - j3)%Z; rewrite K3, J3
    |exists (k4 - j4)%Z; rewrite K4, J4];
    unfold Z.sub; rewrite inject_Z_plus, inject_Z_opp; ring.
Qed.



(** ** Local origin *)

Lemma do_command_G92 cfg fsqrt sensors gcode w :
  GCode.command gcode = Some "G92"%string ->
  do_command cfg fsqrt sensors (Some gcode) w =
  assigns cfg gcode
    (fun s => set_local
                (_position s -c
                 GCode.coordinates gcode (Coordinates.mk 0 0 0 0)
                                   (_convertCoordinates s)) s) w.
Proof.
  intro Hc. unfold do_command, assigns. rewrite Hc. cbv zeta.
  unfold bind at 1, get_self at 1.
  destruct (_ || _); [reflexivity|]. destruct (_ <? 0); [reflexivity|].
  dispatch. reflexivity.
Qed.

Lemma quantize_zero cfg d :
  d =c origin -> Coordinates.is_zero (quantize cfg d) = true.
Proof.
  intros (H1 & H2 & H3 & H4). apply is_zero_iff.
  repeat split; simpl; apply round1_zero; assumption.
Qed.

(** X14: [G92] makes the point where the machine stands carry the line's
    coordinates.  After a successful [G92], an absolute [G0] or [G1] to the
    same coordinates (a line for which the parser returns, with the current
    position as reference, the vector [G92] got with the zero reference,
    as when all four axes are named) succeeds and goes nowhere: the
    position is the same and nothing has been handed to the hardware. *)
Theorem local_origin_then_same_point (cfg : Config) (fsqrt : Q -> Q)
    (sensors1 sensors2 : Sensors) (g1 g2 : GCode) (c : string) (w : World) :
  GCode.command g1 = Some "G92"%string ->
  parameters_ok cfg g1 (self w) ->
  _absoluteCoordinates (self w) = true ->
  let w1 := fst (do_command cfg fsqrt sensors1 (Some g1) w) in
  effective_command g2 = Some c ->
  c = "G0"%string \/ c = "G1"%string ->
  parameters_ok cfg g2 (self w1) ->
  GCode.coordinates g2 (_position (self w)) (_convertCoordinates (self w))
  =c GCode.coordinates g1 (Coordinates.mk 0 0 0 0)
       (_convertCoordinates (self w)) ->
  do_command cfg fsqrt sensors1 (Some g1) w = (w1, Ok None) /\
  exists w2,
    do_command cfg fsqrt sensors2 (Some g2) w1 = (w2, Ok None) /\
    _position (self w2) = _position (self w) /\
    calls w2 = calls w.
Proof.
  intros Hc1 Hp1 Habs w1 He Hc Hp2 Hsame.
  assert (Hw1 : do_command cfg fsqrt sensors1 (Some g1) w =
                ({| self :=
                      set_pause (GCode.get g1 "P" (_pause (self w)))
                        (set_velocity (GCode.get g1 "F" (_velocity (self w)))
                           (set_local
                              (_position (self w) -c
                               GCode.coordinates g1 (Coordinates.mk 0 0 0 0)
                                 (_convertCoordinates (self w))) (self w)));
                    calls := calls w |}, Ok None)).
  { rewrite (do_command_G92 _ _ _ _ _ Hc1). unfold assigns. cbv zeta.
    destruct (parameters_ok_tests _ _ _ Hp1) as [Hv Hpa].
    rewrite Hv, Hpa. reflexivity. }
  unfold w1 in *. clear w1. rewrite Hw1 in *. cbn [fst] in *.
  split; [reflexivity|].
  rewrite (do_command_linear _ _ _ _ _ _ He Hc). cbv zeta.
  destruct (parameters_ok_tests _ _ _ Hp2) as [Hv Hpa]. rewrite Hv, Hpa.
  rewrite move_linear_eq. cbv zeta.
  rewrite quantize_zero.
  - eexists. split; [reflexivity|]. split; reflexivity.
  - unfold requested_delta.
    cbn [self _absoluteCoordinates _position _convertCoordinates _local
         set_pause set_velocity set_local].
    rewrite Habs. destruct Hsame as (H1 & H2 & H3 & H4).
    unfold Coordinates.equiv. simpl. rewrite H1, H2, H3, H4.
    repeat split; ring.
Qed.

Lemma local_origin_then_same_point_witness :
  exists w2,
    do_command sample_config sqrt_floor no_sensors
      (Some (line (Some "G1"%string)
               [("X"%string, 100); ("Y"%string, 0); ("Z"%string, 0);
                ("E"%string, 0)]))
      (fst (do_command sample_config sqrt_floor no_sensors
              (Some (line (Some "G92"%string)
                       [("X"%string, 100); ("Y"%string, 0); ("Z"%string, 0);
                        ("E"%string, 0)])) new_machine)) = (w2, Ok None) /\
    _position (self w2) = _position (self new_machine) /\
    calls w2 = calls new_machine.
Proof.
  refine (proj2 (local_origin_then_same_point sample_config sqrt_floor
                   no_sensors no_sensors
                   (line (Some "G92"%string)
                      [("X"%string, 100); ("Y"%string, 0); ("Z"%string, 0);
                       ("E"%string, 0)])
                   (line (Some "G1"%string)
                      [("X"%string, 100); ("Y"%string, 0); ("Z"%string, 0);
                       ("E"%string, 0)])
                   "G1" new_machine eq_refl _ eq_refl eq_refl
                   (or_intror eq_refl) _ _)).
  - unfold parameters_ok. simpl. repeat split; discriminate.
  - unfold parameters_ok. simpl. repeat split; discriminate.
  - repeat split; reflexivity.
Defined.

(** ** Release *)

Lemma preserves_home_heaters cfg d :
  preserves (fun w => _heaters (self w) = d) (home cfg).
Proof.
  assert (Hc : forall c, preserves (fun w => _heaters (self w) = d) (call c))
    by (intros c w H; exact H).
  assert (Hu : forall p,
             preserves (fun w => _heaters (self w) = d)
                       (update (set_position p)))
    by (intros p w H; exact H).
  frame ltac:(idtac; first [apply Hc | apply Hu]).
Qed.

Lemma stop_each_eq keys w :
  stop_each keys w =
  ({| self := self w; calls := calls w ++ map Heater_stop keys |}, Ok tt).
Proof.
  revert w. induction keys as [|h rest IH]; intro w; simpl.
  - rewrite app_nil_r. destruct w. reflexivity.
  - unfold bind, call. rewrite IH. simpl. rewrite <- app_assoc. reflexivity.
Qed.

Lemma heater_step_quiet h on c :
  is_quiet c = true \/ is_hal_move c = true -> heater_step h on c = on.
Proof. destruct c; simpl; intros [H | H]; try discriminate; reflexivity. Qed.

Lemma running_stops h keys : forall l,
  running h (l ++ map Heater_stop keys) =
  if existsb (fun k => Heaters_eqb k h) keys then false else running h l.
Proof.
  induction keys as [|k rest IH] using rev_ind; intro l; simpl.
  - rewrite app_nil_r. reflexivity.
  - rewrite map_app, app_assoc. simpl. rewrite running_app, IH.
    rewrite existsb_app. simpl. rewrite orb_false_r.
    destruct (Heaters_eqb k h); simpl.
    + rewrite orb_true_r. reflexivity.
    + rewrite orb_false_r. reflexivity.
Qed.

Lemma heater_in_keys h d :
  heater_in h d = existsb (fun k => Heaters_eqb k h) (map fst d).
Proof.
  induction d as [|[k t] d IH]; simpl; [reflexivity|].
  rewrite IH. reflexivity.
Qed.

(** *** The order of the dictionary *)

Lemma regulating_app l c :
  regulating (l ++ [c]) = regulating_step (regulating l) c.
Proof. unfold regulating. rewrite fold_left_app. reflexivity. Qed.

Lemma heater_del_key_list h d :
  map fst (heater_del h d) =
  filter (fun k => negb (Heaters_eqb k h)) (map fst d).
Proof.
  induction d as [|[k t] d IH]; simpl; [reflexivity|].
  destruct (Heaters_eqb k h); simpl; rewrite IH; reflexivity.
Qed.

Lemma order_same w c :
  (forall on, regulating_step on c = on) ->
  order_ok w -> order_ok {| self := self w; calls := calls w ++ [c] |}.
Proof.
  intros Hc H. unfold order_ok in *. simpl.
  rewrite regulating_app, Hc. exact H.
Qed.

Lemma order_stop w h0 :
  order_ok w ->
  order_ok
    {| self := set_heaters (heater_del h0 (_heaters (self w))) (self w);
       calls := calls w ++ [Heater_stop h0] |}.
Proof.
  intro H. unfold order_ok in *. simpl.
  rewrite regulating_app, heater_del_key_list, H. reflexivity.
Qed.

Lemma order_start w h0 t :
  heater_in h0 (_heaters (self w)) = false ->
  order_ok w ->
  order_ok
    {| self := set_heaters (heater_set h0 t (_heaters (self w))) (self w);
       calls := calls w ++ [Heater_start h0 t] |}.
Proof.
  intros Hin H. unfold order_ok in *. simpl.
  rewrite regulating_app, (heater_set_absent _ _ _ Hin), map_app. simpl.
  rewrite <- H, <- heater_del_key_list, (heater_del_absent _ _ Hin).
  reflexivity.
Qed.

Lemma order_call c :
  (forall on, regulating_step on c = on) -> preserves order_ok (call c).
Proof. intros Hc w H. apply order_same; assumption. Qed.

Lemma order_update f :
  (forall s, _heaters (f s) = _heaters s) -> preserves order_ok (update f).
Proof.
  intros Hf w H. unfold order_ok, update in *. simpl. rewrite Hf. exact H.
Qed.

Lemma order_heat sensors h t wait :
  preserves order_ok (_heat sensors h t wait).
Proof.
  intros w H. unfold _heat.
  destruct wait, h; cbv beta iota zeta;
    unfold bind, call, get_self, update, raise, ret; cbv beta iota;
    match goal with
    | |- context [match ?r with Some _ => _ | None => _ end] => destruct r
    end;
    cbv beta iota; cbn [self calls fst snd];
    try (apply (order_same w); [reflexivity | exact H]);
    destruct (heater_in _ _) eqn:Hin; cbv beta iota; cbn [self calls fst snd];
    destruct (t =? 0) eqn:E0; cbn [negb]; cbv beta iota;
    cbn [self calls fst snd];
    repeat first
      [ exact H
      | apply (order_same {| self := _; calls := _ |}); [reflexivity|]
      | apply (order_stop {| self := _; calls := _ |})
      | apply (order_start {| self := _; calls := _ |});
          [first [exact Hin | apply heater_in_del_same]|] ].
Qed.

Ltac order_leaf :=
  idtac;
  lazymatch goal with
  | |- preserves _ (call _) => apply order_call; reflexivity
  | |- preserves _ (update _) => apply order_update; reflexivity
  | |- preserves _ (_heat _ _ _ _) => apply order_heat
  end.

Lemma order_do_command cfg fsqrt sensors gcode :
  preserves order_ok (do_command cfg fsqrt sensors gcode).
Proof.
  destruct gcode as [gcode|]; [|apply preserves_ret].
  frame order_leaf.
Qed.

Lemma order_run cfg fsqrt session w :
  order_ok w -> order_ok (run cfg fsqrt w session).
Proof.
  revert w. induction session as [|[sensors gcode] rest IH]; intros w H.
  - exact H.
  - simpl. apply IH. apply order_do_command. exact H.
Qed.

(** [release()] leaves the aux component of the stored position as it was,
    from any state and however it ends. *)
Lemma release_keeps_aux cfg w :
  Coordinates.e (_position (self (fst (release cfg w)))) ==
  Coordinates.e (_position (self w)).
Proof.
  set (a := Coordinates.e (_position (self w))).
  assert (Hc : forall c,
             preserves (fun w => Coordinates.e (_position (self w)) == a)
                       (call c))
    by (intros c w1 H; exact H).
  assert (H : preserves (fun w => Coordinates.e (_position (self w)) == a)
                        (release cfg)).
  { unfold release. apply preserves_bind.
    - intros w1 H. eapply Qeq_trans; [apply home_keeps_aux | exact H].
    - intros []. apply preserves_bind; [frame ltac:(idtac; apply Hc)|].
      intros []. apply preserves_bind; [apply preserves_get_self|].
      intros s w1 H. rewrite stop_each_eq. exact H. }
  apply H. reflexivity.
Qed.

(** X15: from the state any session leaves, on a usable configuration,
    [release()] returns normally.  It parks the head (motion segments
    only), waits for the hardware and sets the spindle to 0 percent, then
    stops every heater that regulates, in the order in which the dictionary
    holds them: that of their last start.  Afterwards the stored position
    is (0, 0, 0, aux) and no heater regulates.  The aux component is kept,
    not set to zero: from any state [w0] whatever, and however [release()]
    ends there, it is what it was. *)
Theorem release_parks_and_stops (cfg : Config) (fsqrt : Q -> Q)
    (session : list (Sensors * option GCode)) :
  config_ok cfg = true ->
  let w := run cfg fsqrt new_machine session in
  (exists w' moves percent,
     release cfg w = (w', Ok tt) /\
     _position (self w') =c
       Coordinates.mk 0 0 0 (Coordinates.e (_position (self w))) /\
     calls w' =
       calls w ++ moves ++ [hal_join; hal_spindle_control percent]
       ++ map Heater_stop (regulating (calls w)) /\
     forallb is_hal_move moves = true /\
     percent == 0 /\
     forall h, running h (calls w') = false) /\
  (forall w0 : World,
     Coordinates.e (_position (self (fst (release cfg w0)))) ==
     Coordinates.e (_position (self w0))).
Proof.
  intros Hcfg w. split; [|apply release_keeps_aux].
  assert (Hpos : position_ok cfg w) by (apply run_ok, origin_ok; exact Hcfg).
  assert (Hdev : devices_ok cfg w)
    by (apply devices_run, devices_new_machine).
  assert (Hord : order_ok w) by (apply order_run; reflexivity).
  destruct (home_from_ok cfg w Hpos)
    as (w1 & dz & dxy & Hhome & Hp1 & _ & _ & Hc1).
  assert (Hs1 : _heaters (self w1) = _heaters (self w)).
  { pose proof (preserves_home_heaters cfg (_heaters (self w)) w eq_refl) as H.
    rewrite Hhome in H. exact H. }
  assert (Hmax : (SPINDLE_MAX_RPM cfg =? 0) = false).
  { unfold config_ok in Hcfg. reflect_Q. apply Qeq_bool_false. lra. }
  set (moves :=
         (if Coordinates.z (_position (self w)) =? 0 then []
          else [hal_move (PulseGeneratorLinear dz
                            (STEPPER_MAX_VELOCITY_MM_PER_MIN cfg))]) ++
         (if (Coordinates.x (_position (self w)) =? 0)
             && (Coordinates.y (_position (self w)) =? 0) then []
          else [hal_move (PulseGeneratorLinear dxy
                            (STEPPER_MAX_VELOCITY_MM_PER_MIN cfg))])) in *.
  exists {| self := self w1;
            calls := ((calls w1 ++ [hal_join])
                      ++ [hal_spindle_control
                            (100 * 0 / SPINDLE_MAX_RPM cfg)])
                     ++ map Heater_stop (map fst (_heaters (self w1))) |},
         moves, (100 * 0 / SPINDLE_MAX_RPM cfg).
  assert (Hcalls :
    ((calls w1 ++ [hal_join])
     ++ [hal_spindle_control (100 * 0 / SPINDLE_MAX_RPM cfg)])
    ++ map Heater_stop (map fst (_heaters (self w1))) =
    calls w ++ moves ++
    [hal_join; hal_spindle_control (100 * 0 / SPINDLE_MAX_RPM cfg)]
    ++ map Heater_stop (regulating (calls w))).
  { rewrite Hc1, Hs1, <- Hord. rewrite <- !app_assoc. reflexivity. }
  split; [|split; [|split; [|split; [|split]]]].
  - unfold release. unfold bind at 1. rewrite Hhome.
    unfold bind at 1. unfold _spindle, py_div. rewrite Hmax.
    unfold bind, call, ret, get_self. cbn [self calls].
    rewrite stop_each_eq. reflexivity.
  - exact Hp1.
  - cbn [calls]. exact Hcalls.
  - unfold moves. rewrite forallb_app.
    destruct (_ =? 0); destruct (_ && _); reflexivity.
  - unfold Qdiv. ring.
  - intro h. cbn [calls]. rewrite running_stops, Hs1, <- heater_in_keys.
    destruct Hdev as (_ & Hrun & _).
    destruct (heater_in h (_heaters (self w))) eqn:Hin; [reflexivity|].
    rewrite !running_app, Hc1. simpl.
    assert (Hm : running h (calls w ++ moves) = running h (calls w)).
    { unfold running. rewrite fold_left_app. fold (running h (calls w)).
      unfold moves.
      destruct (_ =? 0); destruct (_ && _); reflexivity. }
    rewrite Hm, Hrun. exact Hin.
Qed.

Lemma release_parks_and_stops_witness :
  let w := run sample_config sqrt_floor new_machine
             [(warm_sensors,
               Some (line (Some "M104"%string) [("S"%string, 200)]));
              (warm_sensors,
               Some (line (Some "M140"%string) [("S"%string, 60)]));
              (warm_sensors,
               Some (line (Some "M104"%string) [("S"%string, 210)]));
              (no_sensors,
               Some (line (Some "G1"%string)
                       [("X"%string, 10); ("Z"%string, 5)]))] in
  regulating (calls w) = [HEATER_BED; HEATER_EXTRUDER] /\
  exists w' moves percent,
    release sample_config w = (w', Ok tt) /\
    calls w' =
      calls w ++ moves ++ [hal_join; hal_spindle_control percent]
      ++ map Heater_stop (regulating (calls w)) /\
    forall h, running h (calls w') = false.
Proof.
  intro w. split; [vm_compute; reflexivity|].
  destruct (release_parks_and_stops sample_config sqrt_floor
              [(warm_sensors,
                Some (line (Some "M104"%string) [("S"%string, 200)]));
               (warm_sensors,
                Some (line (Some "M140"%string) [("S"%string, 60)]));
               (warm_sensors,
                Some (line (Some "M104"%string) [("S"%string, 210)]));
               (no_sensors,
                Some (line (Some "G1"%string)
                        [("X"%string, 10); ("Z"%string, 5)]))] eq_refl)
    as ((w' & moves & percent & Hrel & _ & Hcalls & _ & _ & Hrun) & _).
  exists w', moves, percent.
  split; [exact Hrel | split; [exact Hcalls | exact Hrun]].
Defined.

(** * The analog converter *)

Module ADS111xFacts.

Import ADS111x.

Lemma of_byte_range (b : Byte.byte) : (0 <= of_byte b <= 255)%Z.
Proof.
  unfold of_byte. pose proof (Byte.to_N_bounded b). lia.
Qed.

Lemma register_range st : (0 <= register st <= 65535)%Z.
Proof.
  unfold register.
  pose proof (of_byte_range (fst st)). pose proof (of_byte_range (snd st)).
  lia.
Qed.

Lemma keeps_lock_bind {A B} (m : IO A) (k : A -> IO B) :
  keeps_lock m -> (forall a, keeps_lock (k a)) -> keeps_lock (bind m k).
Proof.
  intros Hm Hk b. unfold bind. specialize (Hm b).
  destruct (m b) as [b1 [a|err| |]]; simpl in *; try exact Hm.
  rewrite Hk. exact Hm.
Qed.

Lemma keeps_lock_ret {A} (a : A) : keeps_lock (ret a).
Proof. intro b. reflexivity. Qed.

Lemma keeps_lock_raise {A} err : keeps_lock (@raise A err).
Proof. intro b. reflexivity. Qed.

Lemma keeps_lock_write data : keeps_lock (os_write data).
Proof.
  intro b. unfold os_write. destruct (script b) as [|[d|] rest]; reflexivity.
Qed.

Lemma keeps_lock_read n : keeps_lock (os_read n).
Proof.
  intro b. unfold os_read. destruct (script b) as [|[d|] rest]; reflexivity.
Qed.

Lemma keeps_lock_sleep : keeps_lock time_sleep.
Proof. intro b. reflexivity. Qed.

Lemma keeps_lock_pack_B v : keeps_lock (pack_B v).
Proof.
  intro b. unfold pack_B. destruct (_ && _); [|reflexivity].
  destruct (byte_of v); reflexivity.
Qed.

Lemma keeps_lock_pack_BH a v : keeps_lock (pack_BH a v).
Proof.
  intro b. unfold pack_BH. destruct (_ && _); [|reflexivity].
  destruct (byte_of a), (byte_of (Z.shiftr v 8)), (byte_of (Z.land v 255));
    reflexivity.
Qed.

Lemma keeps_lock_unpack_H data : keeps_lock (unpack_H data).
Proof.
  intro b. unfold unpack_H.
  destruct data as [|b1 [|b2 [|b3 rest]]]; reflexivity.
Qed.

Lemma keeps_lock_unpack_h data : keeps_lock (unpack_h data).
Proof.
  intro b. unfold unpack_h.
  destruct data as [|b1 [|b2 [|b3 rest]]]; reflexivity.
Qed.

Lemma keeps_lock_wait fuel : keeps_lock (wait_for_conversion fuel).
Proof.
  induction fuel as [|fuel IH]; simpl.
  - intro b. reflexivity.
  - apply keeps_lock_bind; [apply keeps_lock_pack_B | intro].
    apply keeps_lock_bind; [apply keeps_lock_write | intro].
    apply keeps_lock_bind; [apply keeps_lock_read | intro].
    apply keeps_lock_bind; [apply keeps_lock_unpack_H | intro].
    destruct (negb _); [apply keeps_lock_ret|].
    apply keeps_lock_bind; [apply keeps_lock_sleep | intro; exact IH].
Qed.

Lemma keeps_lock_conversation channel : keeps_lock (conversation channel).
Proof.
  unfold conversation.
  repeat first
    [ apply keeps_lock_pack_BH | apply keeps_lock_pack_B
    | apply keeps_lock_write | apply keeps_lock_read
    | apply keeps_lock_unpack_h | apply keeps_lock_wait
    | apply keeps_lock_bind; [|intro]
    | intro b; reflexivity ].
Qed.

Lemma measure_eq channel b :
  measure channel b =
  if (channel <? 0)%Z || (channel >? 3)%Z
  then (b, Raises (ValueError "Wrong channel"))
  else if locked b then (b, Blocked)
  else match conversation channel
               {| locked := true; script := script b; written := written b;
                  sleeps := sleeps b |} with
       | (b', Returns v) =>
           ({| locked := false; script := script b'; written := written b';
               sleeps := sleeps b' |}, Returns (inject_Z v / 8000))
       | (b', Raises err) => (b', Raises err)
       | (b', Blocked) => (b', Blocked)
       | (b', Unfinished) => (b', Unfinished)
       end.
Proof.
  unfold measure. destruct (_ || _); [reflexivity|].
  unfold bind at 1, lock_acquire. destruct (locked b); [reflexivity|].
  unfold conversation, bind, lock_release, ret.
  repeat match goal with
  | |- context [let (_, _) := ?x in _] =>
      destruct x as [? [?|?| |]]; try reflexivity
  end.
Qed.

Lemma io_errors_bind {A B} (m : IO A) (k : A -> IO B) :
  io_errors_only m -> (forall a, io_errors_only (k a)) ->
  io_errors_only (bind m k).
Proof.
  intros Hm Hk b err. unfold bind. specialize (Hm b).
  destruct (m b) as [b1 [a|e| |]]; simpl in *; try discriminate.
  - apply Hk.
  - intro H. injection H as <-. apply Hm. reflexivity.
Qed.

Lemma io_errors_ret {A} (a : A) : io_errors_only (ret a).
Proof. intros b err. discriminate. Qed.

Lemma io_errors_struct {A} : io_errors_only (@raise A struct_error).
Proof. intros b err H. injection H as <-. discriminate. Qed.

Lemma io_errors_write data : io_errors_only (os_write data).
Proof.
  intros b err. unfold os_write.
  destruct (script b) as [|[d|] rest]; simpl; try discriminate.
  intro H. injection H as <-. discriminate.
Qed.

Lemma io_errors_read n : io_errors_only (os_read n).
Proof.
  intros b err. unfold os_read.
  destruct (script b) as [|[d|] rest]; simpl; try discriminate.
  intro H. injection H as <-. discriminate.
Qed.

Lemma io_errors_sleep : io_errors_only time_sleep.
Proof. intros b err. discriminate. Qed.

Lemma io_errors_pack_B v : io_errors_only (pack_B v).
Proof.
  unfold pack_B. destruct (_ && _); [|apply io_errors_struct].
  destruct (byte_of v); [apply io_errors_ret | apply io_errors_struct].
Qed.

Lemma io_errors_pack_BH a v : io_errors_only (pack_BH a v).
Proof.
  unfold pack_BH. destruct (_ && _); [|apply io_errors_struct].
  destruct (byte_of a), (byte_of (Z.shiftr v 8)), (byte_of (Z.land v 255));
    first [apply io_errors_ret | apply io_errors_struct].
Qed.

Lemma io_errors_unpack_H data : io_errors_only (unpack_H data).
Proof.
  unfold unpack_H. destruct data as [|b1 [|b2 [|b3 rest]]];
    first [apply io_errors_ret | apply io_errors_struct].
Qed.

Lemma io_errors_unpack_h data : io_errors_only (unpack_h data).
Proof.
  unfold unpack_h. destruct data as [|b1 [|b2 [|b3 rest]]];
    first [apply io_errors_ret | apply io_errors_struct].
Qed.

Lemma io_errors_wait fuel : io_errors_only (wait_for_conversion fuel).
Proof.
  induction fuel as [|fuel IH]; simpl.
  - intros b err. discriminate.
  - apply io_errors_bind; [apply io_errors_pack_B | intro].
    apply io_errors_bind; [apply io_errors_write | intro].
    apply io_errors_bind; [apply io_errors_read | intro].
    apply io_errors_bind; [apply io_errors_unpack_H | intro].
    destruct (negb _); [apply io_errors_ret|].
    apply io_errors_bind; [apply io_errors_sleep | intro; exact IH].
Qed.

Lemma conversation_no_value_error channel b :
  forall err, snd (conversation channel b) = Raises err ->
  err <> ValueError "Wrong channel".
Proof.
  revert b. change (io_errors_only (conversation channel)).
  unfold conversation.
  repeat first
    [ apply io_errors_pack_BH | apply io_errors_pack_B
    | apply io_errors_write | apply io_errors_read
    | apply io_errors_unpack_h | apply io_errors_wait
    | apply io_errors_bind; [|intro]
    | intros b err; discriminate ].
Qed.

Lemma unpack_h_range data b b' v :
  unpack_h data b = (b', Returns v) -> (-32768 <= v <= 32767)%Z.
Proof.
  unfold unpack_h. destruct data as [|b1 [|b2 [|b3 rest]]]; try discriminate.
  unfold ret. intro H. injection H as _ <-.
  pose proof (register_range (b1, b2)) as Hr. unfold register in Hr.
  simpl in Hr. destruct (_ <? 32768)%Z eqn:E; lia.
Qed.

Lemma conversation_range channel b b' v :
  conversation channel b = (b', Returns v) -> (-32768 <= v <= 32767)%Z.
Proof.
  unfold conversation, bind. intro H.
  repeat match type of H with
  | context [let (_, _) := ?x in _] =>
      lazymatch x with
      | unpack_h _ _ => fail
      | _ => destruct x as [? [?|?| |]]; try discriminate H
      end
  end.
  eapply unpack_h_range. exact H.
Qed.

(** X16: whatever the device answers, a value [measure] returns is a
    sixteen-bit signed reading divided by 8000: it lies between -4.096 and
    4.095875 volts.  [measure] only returns when the lock was free, and
    leaves it free. *)
Theorem measure_result_range (channel : Z) (b b' : Bus) (volts : Q) :
  measure channel b = (b', Returns volts) ->
  - (4096 # 1000) <= volts <= 32767 # 8000 /\
  locked b = false /\ locked b' = false.
Proof.
  rewrite measure_eq. destruct (_ || _); [discriminate|].
  destruct (locked b); [discriminate|].
  destruct (conversation channel _) as [b1 [v|err| |]] eqn:E;
    try discriminate.
  intro H. injection H as <- <-. apply conversation_range in E.
  split; [|split; reflexivity].
  assert (H1 : inject_Z (-32768) <= inject_Z v)
    by (rewrite <- Zle_Qle; lia).
  assert (H2 : inject_Z v <= inject_Z 32767)
    by (rewrite <- Zle_Qle; lia).
  unfold Qdiv. change (/ 8000) with (1 # 8000).
  change (inject_Z (-32768)) with (-32768 # 1) in H1.
  change (inject_Z 32767) with (32767 # 1) in H2.
  split; lra.
Qed.

Lemma measure_result_range_witness :
  - (4096 # 1000) <= (-1 # 8000) <= 32767 # 8000 /\
  locked {| locked := false;
            script := exchange [] (Byte.x83, Byte.x80) (Byte.xff, Byte.xff)
                               [];
            written := []; sleeps := 0 |} = false /\
  false = false.
Proof.
  apply (measure_result_range 2
           {| locked := false;
              script := exchange [] (Byte.x83, Byte.x80)
                                 (Byte.xff, Byte.xff) [];
              written := []; sleeps := 0 |}
           {| locked := false; script := [];
              written := [[Byte.x01; Byte.xe3; Byte.x80]; [Byte.x01];
                          [Byte.x00]];
              sleeps := 0 |} (-1 # 8000)).
  reflexivity.
Defined.

(** X17: [measure] releases the lock only on its way out after a
    successful exchange.  When it raises, either the channel was outside 0..3
    and nothing has happened (the lock was not taken, nothing written), or an
    [os.write], [os.read] or [struct.unpack] failed inside the exchange and
    the lock is left held: every later [measure] of a valid channel then
    waits in [lock.acquire()] and never returns. *)
Theorem measure_error_keeps_lock (channel : Z) (b b' : Bus) (err : error) :
  measure channel b = (b', Raises err) ->
  (err = ValueError "Wrong channel" /\ b' = b /\
   (channel < 0 \/ 3 < channel)%Z) \/
  (err <> ValueError "Wrong channel" /\ (0 <= channel <= 3)%Z /\
   locked b' = true /\
   forall channel', (0 <= channel' <= 3)%Z ->
     measure channel' b' = (b', Blocked)).
Proof.
  rewrite measure_eq.
  destruct ((channel <? 0)%Z || (channel >? 3)%Z) eqn:Ec.
  - intro H. injection H as <- <-. left. repeat split.
    apply orb_true_iff in Ec. destruct Ec as [Ec | Ec]; lia.
  - apply orb_false_iff in Ec. destruct Ec as [Ec1 Ec2].
    destruct (locked b); [discriminate|].
    pose proof (keeps_lock_conversation channel
                  {| locked := true; script := script b;
                     written := written b; sleeps := sleeps b |}) as Hl.
    pose proof (conversation_no_value_error channel
                  {| locked := true; script := script b;
                     written := written b; sleeps := sleeps b |}) as Hv.
    destruct (conversation channel _) as [b1 [v|e| |]]; try discriminate.
    intro H. injection H as <- <-. simpl in Hl, Hv. right.
    split; [apply Hv; reflexivity|]. split; [lia|]. split; [exact Hl|].
    intros channel' Hc'. rewrite measure_eq.
    assert (E : (channel' <? 0)%Z || (channel' >? 3)%Z = false)
      by (apply orb_false_iff; split; lia).
    rewrite E, Hl. reflexivity.
Qed.

Lemma measure_error_keeps_lock_witness :
  measure 1 {| locked := true;
               script := [Some [Byte.x81; Byte.x00]];
               written := [[Byte.x01; Byte.xc3; Byte.x80]; [Byte.x01]];
               sleeps := 0 |} =
  ({| locked := true;
      script := [Some [Byte.x81; Byte.x00]];
      written := [[Byte.x01; Byte.xc3; Byte.x80]; [Byte.x01]];
      sleeps := 0 |}, Blocked).
Proof.
  destruct (measure_error_keeps_lock 0
              {| locked := false;
                 script := [Some []; Some []; None;
                            Some [Byte.x81; Byte.x00]];
                 written := []; sleeps := 0 |}
              {| locked := true;
                 script := [Some [Byte.x81; Byte.x00]];
                 written := [[Byte.x01; Byte.xc3; Byte.x80]; [Byte.x01]];
                 sleeps := 0 |} OSError eq_refl)
    as [(H & _) | (_ & _ & _ & H)].
  - discriminate H.
  - apply H. lia.
Defined.

(** One turn of the loop against a device that accepts the write and
    answers the status read with two bytes. *)
Lemma wait_turn fuel b ack st tail :
  script b = Some ack :: Some [fst st; snd st] :: tail ->
  wait_for_conversion (S fuel) b =
  if negb (Z.eqb (Z.land (register st) 32768) 0)
  then ({| locked := locked b; script := tail;
           written := written b ++ [[Byte.x01]]; sleeps := sleeps b |},
        Returns tt)
  else wait_for_conversion fuel
         {| locked := locked b; script := tail;
            written := written b ++ [[Byte.x01]]; sleeps := S (sleeps b) |}.
Proof.
  intro Hs. cbn [wait_for_conversion].
  unfold bind at 1. unfold pack_B at 1.
  change ((0 <=? 1)%Z && (1 <=? 255)%Z) with true.
  change (byte_of 1) with (Some Byte.x01). cbv beta iota.
  unfold ret at 1. unfold bind at 1. unfold os_write at 1.
  rewrite Hs. cbv beta iota.
  unfold bind at 1. unfold os_read at 1. cbn [script]. cbv beta iota.
  cbn [firstn]. unfold bind at 1. unfold unpack_H at 1, ret at 1.
  cbv beta iota. fold (register st).
  destruct (negb _); [reflexivity|].
  unfold bind at 1, time_sleep at 1. cbv beta iota.
  cbn [locked script written sleeps]. reflexivity.
Qed.

(** The loop, against a device that is busy for [length busy] status reads
    and then ready: one write of the register number and one read per turn,
    a sleep after every busy answer. *)
Lemma wait_until_ready busy : forall fuel b ready rest,
  (List.length busy < fuel)%nat ->
  Forall is_busy busy -> ~ is_busy ready ->
  script b =
    flat_map (fun st => [Some []; Some [fst st; snd st]]) busy ++
    [Some []; Some [fst ready; snd ready]] ++ rest ->
  wait_for_conversion fuel b =
  ({| locked := locked b; script := rest;
      written := written b ++ repeat [Byte.x01] (S (List.length busy));
      sleeps := sleeps b + List.length busy |}, Returns tt).
Proof.
  induction busy as [|st busy IH]; intros fuel b ready rest Hfuel Hbusy Hready
    Hscript; (destruct fuel as [|fuel]; [simpl in Hfuel; lia|]).
  - rewrite (wait_turn fuel b [] ready rest Hscript).
    unfold is_busy in Hready. apply Z.eqb_neq in Hready. rewrite Hready.
    cbn [negb repeat List.length]. rewrite Nat.add_0_r. reflexivity.
  - inversion Hbusy as [|? ? Hst Hrest]; subst.
    rewrite (wait_turn fuel b [] st _ Hscript).
    unfold is_busy in Hst. rewrite Hst. cbn [Z.eqb negb].
    rewrite (IH fuel _ ready rest); [|simpl in Hfuel; lia|exact Hrest
                                     |exact Hready|reflexivity].
    cbn [locked script written sleeps].
    f_equal. f_equal.
    + rewrite <- app_assoc. reflexivity.
    + simpl. lia.
Qed.

Lemma status_reads_length (busy : list (Byte.byte * Byte.byte)) :
  List.length
    (flat_map (fun st => [Some ([] : list Byte.byte);
                          Some [fst st; snd st]]) busy) =
  (2 * List.length busy)%nat.
Proof. induction busy as [|st busy IH]; simpl; [reflexivity | lia]. Qed.

(** X18: with the lock free and a valid channel, against a device that
    accepts the writes, answers [length busy] status reads with the top bit
    clear and the next with the top bit set, and then returns the two bytes
    of the conversion register, [measure] writes the three configuration
    bytes, asks for the status once per answer, sleeps once per busy answer,
    asks for the conversion register and returns its signed value divided by
    8000, with the lock free again and the rest of the device's answers
    untouched. *)
Theorem measure_polls_until_ready (channel : Z) (b : Bus)
    (busy : list (Byte.byte * Byte.byte))
    (ready conversion : Byte.byte * Byte.byte)
    (rest : list (option (list Byte.byte))) :
  (0 <= channel <= 3)%Z ->
  locked b = false ->
  script b = exchange busy ready conversion rest ->
  Forall is_busy busy -> ~ is_busy ready ->
  exists high,
    of_byte high = (195 + 16 * channel)%Z /\
    measure channel b =
    ({| locked := false; script := rest;
        written :=
          ((written b ++ [[Byte.x01; high; Byte.x80]])
           ++ repeat [Byte.x01] (S (List.length busy))) ++ [[Byte.x00]];
        sleeps := sleeps b + List.length busy |},
     Returns (inject_Z (signed conversion) / 8000)).
Proof.
  intros Hc Hl Hs Hbusy Hready.
  assert (Hch : (channel = 0 \/ channel = 1 \/ channel = 2
                 \/ channel = 3)%Z) by lia.
  assert (Hpack : exists high,
             of_byte high = (195 + 16 * channel)%Z /\
             forall b0, pack_BH 1 (config_word channel) b0 =
                        (b0, Returns [Byte.x01; high; Byte.x80])).
  { destruct Hch as [-> | [-> | [-> | ->]]];
      [exists Byte.xc3 | exists Byte.xd3 | exists Byte.xe3 | exists Byte.xf3];
      split; reflexivity. }
  destruct Hpack as (high & Hhigh & Hpack). exists high.
  split; [exact Hhigh|].
  rewrite measure_eq.
  assert (E : (channel <? 0)%Z || (channel >? 3)%Z = false)
    by (apply orb_false_iff; split; lia).
  rewrite E, Hl. unfold conversation.
  unfold bind at 1. rewrite Hpack.
  unfold bind at 1. unfold os_write at 1. cbn [script]. rewrite Hs.
  unfold exchange at 1. cbv beta iota.
  unfold bind at 1. cbv beta iota. unfold bind at 1.
  cbn [script locked written sleeps].
  rewrite (wait_until_ready busy _ _ ready
             ([Some []; Some [fst conversion; snd conversion]] ++ rest));
    [ | rewrite !length_app, status_reads_length; simpl; lia
      | exact Hbusy | exact Hready
      | cbn [script]; reflexivity ].
  cbn [locked script written sleeps].
  unfold bind, pack_B, os_write, os_read, unpack_h, ret. simpl.
  reflexivity.
Qed.

Lemma measure_polls_until_ready_witness :
  exists high,
    of_byte high = 211%Z /\
    measure 1 {| locked := false;
                 script := exchange [(Byte.x03, Byte.x80);
                                     (Byte.x03, Byte.x80)]
                                    (Byte.x83, Byte.x80)
                                    (Byte.x1f, Byte.x40) [None];
                 written := []; sleeps := 0 |} =
    ({| locked := false; script := [None];
        written := (([] ++ [[Byte.x01; high; Byte.x80]])
                    ++ repeat [Byte.x01] 3) ++ [[Byte.x00]];
        sleeps := 2 |},
     Returns (inject_Z 8000 / 8000)).
Proof.
  apply (measure_polls_until_ready 1
           {| locked := false;
              script := exchange [(Byte.x03, Byte.x80); (Byte.x03, Byte.x80)]
                                 (Byte.x83, Byte.x80)
                                 (Byte.x1f, Byte.x40) [None];
              written := []; sleeps := 0 |}
           [(Byte.x03, Byte.x80); (Byte.x03, Byte.x80)]
           (Byte.x83, Byte.x80) (Byte.x1f, Byte.x40) [None]).
  - lia.
  - reflexivity.
  - reflexivity.
  - repeat constructor.
  - discriminate.
Defined.

(** X19: for each of the four channels the configuration word
    [((0b100 | channel) << 12) | 0x8380] fits sixteen bits, so that packing
    it cannot fail; the channel shows only in the input selector (bits 14 to
    12, which hold 4 + channel: the input against ground), and every word
    starts a conversion (bit 15), selects the 4.096 V range (bits 11 to 9
    hold 1), on which one step is 1/8000 V, and the single-shot mode
    (bit 8). *)
Theorem config_word_fields (channel : Z) :
  (0 <= channel <= 3)%Z ->
  let word := config_word channel in
  (0 <= word <= 65535)%Z /\
  Z.land (Z.shiftr word 12) 7 = (4 + channel)%Z /\
  Z.land word 36863 = 33664%Z /\
  Z.testbit word 15 = true /\
  Z.land (Z.shiftr word 9) 7 = 1%Z /\
  Z.testbit word 8 = true.
Proof.
  intro H.
  assert (Hc : (channel = 0 \/ channel = 1 \/ channel = 2 \/ channel = 3)%Z)
    by lia.
  destruct Hc as [-> | [-> | [-> | ->]]]; cbv zeta; repeat split;
    try reflexivity; vm_compute; discriminate.
Qed.

Lemma config_word_fields_witness :
  Z.land (Z.shiftr (config_word 3) 12) 7 = 7%Z.
Proof.
  refine (proj1 (proj2 (config_word_fields 3 _))). lia.
Defined.

End ADS111xFacts.
